(** * Research ideation pipeline and SOTA ranking: model and verification

    A shallow embedding of the core of [app.py] (the six-stage synthesis
    pipeline of [ResearchPipeline]) and of [services/] (candidate fetch,
    relevance scoring, metric enrichment and composite ranking of
    [SOTAIdentifier]), with the properties of the specification proved or
    refuted on it, followed by further properties of the code: what each
    stage does with a malformed reply, which services a run calls and how
    often, and what the wrappers and the rankers return.

    Conventions of the embedding:
    - a Python [str] is a list of Unicode code points ([pystr]), so [len],
      slicing, [startswith] and [lstrip] count what Python counts;
    - a Python [float] is a binary64 primitive float, an [int] is a [Z];
    - values that come out of [json.loads] are kept dynamically typed
      ([pyval]), since the code stores them without looking at their type;
      operations on them raise the exception Python raises;
    - calls to the external services are steps of a small state-and-exception
      monad whose state is the log of the calls made so far; a service is a
      function of that log and of the request, so it may answer differently
      each time;
    - a prompt is the constructor of its stage applied to the values the
      source interpolates into the fixed text;
    - the search service returns the entries [_parse_response] builds, and
      the file reader of [parse_pdf] returns the plain text of the file;
    - [datetime.now()] is read as the calendar day [today];
    - Python builtins whose behaviour is a large table or an algorithm outside
      this repository ([str.lower], [str.isdigit], [json.loads],
      [datetime.strptime], [round]) are the fields of the class [PyBuiltins],
      and so is what the interpreter leaves open: the order of [list(s)] for
      a set [s], and the result of [list.sort] on keys that [<] does not
      order totally (a NaN among numbers, values of several types); every
      general theorem holds for all of them, and the examples use the
      instance [ascii_builtins];
    - arithmetic on numbers is Python's: [float(n)] and [n / m] on ints of
      any size are correctly rounded and raise [OverflowError] beyond the
      range of floats, and an int is compared with a float exactly.

    The file has three parts: the model, the properties and sample inputs,
    and the proofs. *)

From Stdlib Require Import ZArith NArith Lia Bool.
From Stdlib Require Import Strings.String Strings.Ascii.
From Stdlib Require Import Floats.
From stdpp Require Import base option list gmap sets sorting.

Local Open Scope Z_scope.

(* ===================================================================== *)
(** * Python strings as lists of code points *)
(* ===================================================================== *)

Definition codepoint := N.
Definition pystr := list codepoint.

(** An ASCII literal as a Python string. *)
Definition py (s : string) : pystr := N_of_ascii <$> list_ascii_of_string s.

Definition LF : codepoint := 10%N.
(** The double quote, as a one-character string. *)
Definition dquote : pystr := [34%N].

(** [str.isspace] on one character (the whitespace table of CPython). *)
Definition isspace (c : codepoint) : bool :=
  (((9 <=? c) && (c <=? 13)) || ((28 <=? c) && (c <=? 32))
   || (c =? 133) || (c =? 160) || (c =? 5760)
   || ((8192 <=? c) && (c <=? 8202))
   || (c =? 8232) || (c =? 8233) || (c =? 8239) || (c =? 8287)
   || (c =? 12288))%N.

Definition str_eqb (a b : pystr) : bool := bool_decide (a = b).

(** [x in xs] for a list of strings. *)
Definition str_in (x : pystr) (xs : list pystr) : bool := existsb (str_eqb x) xs.

(** [c in chars]. *)
Definition chr_in (c : codepoint) (chars : pystr) : bool := existsb (N.eqb c) chars.

Fixpoint startswith (p s : pystr) : bool :=
  match p, s with
  | [], _ => true
  | _ :: _, [] => false
  | a :: p', b :: s' => (a =? b)%N && startswith p' s'
  end.

(** [s.lstrip(chars)]. *)
Fixpoint lstrip_chars (chars s : pystr) : pystr :=
  match s with
  | [] => []
  | c :: s' => if chr_in c chars then lstrip_chars chars s' else s
  end.

(** [s.lstrip()]. *)
Fixpoint lstrip (s : pystr) : pystr :=
  match s with
  | [] => []
  | c :: s' => if isspace c then lstrip s' else s
  end.

(** [s.rstrip()]. *)
Definition rstrip (s : pystr) : pystr := rev (lstrip (rev s)).

(** [s.strip()]. *)
Definition strip (s : pystr) : pystr := rstrip (lstrip s).

(** [s.split(sep)] for a one-character separator: never empty, and an empty
    field for every separator at an end or next to another one. *)
Fixpoint split_chr (sep : codepoint) (s : pystr) : list pystr :=
  match s with
  | [] => [[]]
  | c :: s' =>
      if (c =? sep)%N then [] :: split_chr sep s'
      else match split_chr sep s' with
           | [] => [[c]]
           | w :: ws => (c :: w) :: ws
           end
  end.

(** [s.split()]: the maximal runs of non-whitespace characters. [cur] is the
    run being read, in reverse. *)
Fixpoint split_ws_aux (cur : pystr) (s : pystr) : list pystr :=
  match s with
  | [] => match cur with [] => [] | _ => [rev cur] end
  | c :: s' =>
      if isspace c
      then match cur with [] => split_ws_aux [] s' | _ => rev cur :: split_ws_aux [] s' end
      else split_ws_aux (c :: cur) s'
  end.

Definition split_ws (s : pystr) : list pystr := split_ws_aux [] s.

(** [needle in s], and the text before / after the first occurrence. *)
Fixpoint find_sub (needle s : pystr) : option (pystr * pystr) :=
  if startswith needle s then Some ([], drop (length needle) s)
  else match s with
       | [] => None
       | c :: s' =>
           match find_sub needle s' with
           | Some (before, after) => Some (c :: before, after)
           | None => None
           end
       end.

Definition contains (needle s : pystr) : bool :=
  match find_sub needle s with Some _ => true | None => false end.

(** [s.split(sep)[0]] *)
Definition split_item0 (sep s : pystr) : pystr :=
  match find_sub sep s with Some (before, _) => before | None => s end.

(** [s.split(sep)[1]], defined when [sep in s]: the text between the first
    occurrence of [sep] and the next one. *)
Definition split_item1 (sep s : pystr) : pystr :=
  match find_sub sep s with
  | Some (_, after) => split_item0 sep after
  | None => []
  end.

(** [s.replace(old, new)] for a non-empty [old]: occurrences are replaced
    from the left, without overlap. [skip] counts the characters of an
    occurrence still to be dropped. *)
Fixpoint replace_aux (old new : pystr) (skip : nat) (s : pystr) : pystr :=
  match s with
  | [] => []
  | c :: s' =>
      match skip with
      | S k => replace_aux old new k s'
      | O => if startswith old s
             then new ++ replace_aux old new (length old - 1) s'
             else c :: replace_aux old new 0 s'
      end
  end.

Definition str_replace (old new s : pystr) : pystr := replace_aux old new 0 s.

(** ASCII case folding and ASCII digits: what [str.lower] and [str.isdigit]
    do on ASCII text. *)
Definition ascii_lower_chr (c : codepoint) : codepoint :=
  if ((65 <=? c) && (c <=? 90))%N then (c + 32)%N else c.
Definition ascii_lower (s : pystr) : pystr := ascii_lower_chr <$> s.
Definition ascii_isdigit (c : codepoint) : bool := ((48 <=? c) && (c <=? 57))%N.


(* ===================================================================== *)
(** * Python numbers *)
(* ===================================================================== *)

Set Warnings "-inexact-float,-register-all,-abstract-large-number".

(** An int of any size as an exact binary number: mantissa [|z|], exponent
    0. *)
Definition exact_int (z : Z) : spec_float :=
  match z with
  | 0 => S754_zero false
  | Z.pos m => S754_finite false m 0
  | Z.neg m => S754_finite true m 0
  end.

(** [float(z)] for an int of any size: the nearest float, ties to even. It
    is infinite exactly when the int is beyond the range of floats, where
    Python raises [OverflowError] instead (see [py_float_of_int]). *)
Definition float_of_int (z : Z) : float :=
  SF2Prim (binary_normalize prec emax z 0 false).

(** [a / b] on two ints of any size (true division): the float nearest to
    the exact quotient, ties to even, as CPython computes it without
    converting the operands first. It is infinite when the quotient is beyond
    the range of floats or [b] is 0, where Python raises [OverflowError] and
    [ZeroDivisionError] (see [py_int_truediv]). *)
Definition int_truediv (a b : Z) : float :=
  SF2Prim (SFdiv prec emax (exact_int a) (exact_int b)).

(** [min(a, b)] and [max(a, b)] as CPython computes them: the first argument
    stays unless the second is strictly smaller (resp. larger). *)
Definition py_min (a b : float) : float := if PrimFloat.ltb b a then b else a.
Definition py_max (a b : float) : float := if PrimFloat.ltb a b then b else a.

(* ===================================================================== *)
(** * Dynamically typed values (what [json.loads] returns) *)
(* ===================================================================== *)

Inductive pyval : Type :=
  | PNone
  | PBool (b : bool)
  | PInt (z : Z)
  | PFloat (f : float)
  | PStr (s : pystr)
  | PList (items : list pyval)
  | PDict (entries : list (pystr * pyval)).
(** The entries of a [PDict] have distinct keys, as [json.loads] leaves
    them. *)

(** Exceptions the modelled code can meet. A failure of an external service
    arrives as whatever [requests] raised; [RequestException] stands for that
    class and its subclasses. *)
Inductive exn : Type :=
  | RequestException (detail : pystr)
  | JSONDecodeError
  | AttributeError
  | TypeError
  | KeyError
  | IndexError
  | ValueError
  | OverflowError
  | ZeroDivisionError.

Inductive outcome (A : Type) : Type :=
  | Ok (a : A)
  | Raise (e : exn).
Arguments Ok {A} a.
Arguments Raise {A} e.

(** Truth value of a Python object. *)
Definition truthy (v : pyval) : bool :=
  match v with
  | PNone => false
  | PBool b => b
  | PInt z => negb (z =? 0)
  | PFloat f => negb (PrimFloat.eqb f 0%float)
  | PStr s => negb (bool_decide (s = []))
  | PList l => match l with [] => false | _ => true end
  | PDict d => match d with [] => false | _ => true end
  end.

Fixpoint assoc_get (key : pystr) (d : list (pystr * pyval)) : option pyval :=
  match d with
  | [] => None
  | (k, v) :: d' => if str_eqb k key then Some v else assoc_get key d'
  end.

(** [data.get(key, default)]: only a dict has the method. *)
Definition py_get (data : pyval) (key : pystr) (dflt : pyval) : outcome pyval :=
  match data with
  | PDict d => Ok (default dflt (assoc_get key d))
  | _ => Raise AttributeError
  end.

(** [len(v)]. *)
Definition py_len (v : pyval) : outcome nat :=
  match v with
  | PStr s => Ok (length s)
  | PList l => Ok (length l)
  | PDict d => Ok (length d)
  | _ => Raise TypeError
  end.

(** [v[:n]] for [n >= 0]. Slicing a dict fails too (with [TypeError] up to
    Python 3.11 and [KeyError] from 3.12 on; the model keeps the first). *)
Definition py_slice (n : nat) (v : pyval) : outcome pyval :=
  match v with
  | PStr s => Ok (PStr (take n s))
  | PList l => Ok (PList (take n l))
  | _ => Raise TypeError
  end.

(** [float(z)] as Python converts an int operand of float arithmetic: an
    int beyond the range of floats raises [OverflowError]. *)
Definition py_float_of_int (z : Z) : outcome float :=
  if PrimFloat.is_infinity (float_of_int z) then Raise OverflowError
  else Ok (float_of_int z).

(** [a / b] on two ints, with the exceptions Python raises. *)
Definition py_int_truediv (a b : Z) : outcome float :=
  if b =? 0 then Raise ZeroDivisionError
  else if PrimFloat.is_infinity (int_truediv a b) then Raise OverflowError
  else Ok (int_truediv a b).

(** The int a value is in integer arithmetic ([bool] being an [int]). *)
Definition py_int (v : pyval) : option Z :=
  match v with
  | PInt z => Some z
  | PBool b => Some (if b then 1 else 0)
  | _ => None
  end.

(** A Python number as a float, when it is a number. *)
Definition py_number (v : pyval) : option float :=
  match v with
  | PFloat f => Some f
  | PInt z => Some (float_of_int z)
  | PBool b => Some (if b then 1%float else 0%float)
  | _ => None
  end.

(** The float a value becomes as an operand of arithmetic with a float:
    [TypeError] for what is not a number, [OverflowError] for an int beyond
    the range of floats. *)
Definition py_float (v : pyval) : outcome float :=
  match v with
  | PFloat f => Ok f
  | PInt z => py_float_of_int z
  | PBool b => Ok (if b then 1%float else 0%float)
  | _ => Raise TypeError
  end.

(** [a + b]. Numbers add as numbers ([bool] being an [int]), sequences of one
    kind concatenate, anything else is a [TypeError]. *)
Definition py_add (a b : pyval) : outcome pyval :=
  match a, b with
  | PStr x, PStr y => Ok (PStr (x ++ y))
  | PList x, PList y => Ok (PList (x ++ y))
  | _, _ =>
      match py_int a, py_int b with
      | Some x, Some y => Ok (PInt (x + y))
      | _, _ =>
          match py_number a, py_number b with
          | Some _, Some _ =>
              match py_float a, py_float b with
              | Ok x, Ok y => Ok (PFloat (PrimFloat.add x y))
              | Raise e, _ | _, Raise e => Raise e
              end
          | _, _ => Raise TypeError
          end
      end
  end.

(** [for w in v]: strings, lists and dicts can be iterated. *)
Definition py_iterable (v : pyval) : bool :=
  match v with PStr _ | PList _ | PDict _ => true | _ => false end.

(** [sep.join(v)]: [v] must be iterable and yield only strings (a dict
    yields its keys, a string its characters). *)
Definition py_joinable (v : pyval) : bool :=
  match v with
  | PStr _ | PDict _ => true
  | PList l => forallb (fun x => match x with PStr _ => true | _ => false end) l
  | _ => false
  end.

(** [v[i]] for [0 <= i]. Indexing a dict of string keys by an int is a
    [KeyError]. *)
Definition py_index (v : pyval) (i : nat) : outcome pyval :=
  match v with
  | PList l => match l !! i with Some x => Ok x | None => Raise IndexError end
  | PStr s => match s !! i with Some c => Ok (PStr [c]) | None => Raise IndexError end
  | PDict _ => Raise KeyError
  | _ => Raise TypeError
  end.

(** [l[:k]] on a list for any int [k]: a negative [k] counts from the end. *)
Definition py_take {A} (k : Z) (l : list A) : list A :=
  if 0 <=? k then take (Z.to_nat k) l
  else take (Z.to_nat (Z.of_nat (length l) + k)) l.

(** ** Ordering values with [<] *)

(** [z < f] and [f < z] for an int and a float: Python compares the exact
    values, without converting the int. *)
Definition int_lt_float (z : Z) (f : float) : bool :=
  match Prim2SF f with
  | S754_nan => false
  | S754_infinity negative => negb negative
  | S754_zero _ => z <? 0
  | S754_finite negative m e =>
      let v := if negative then Z.neg m else Z.pos m in
      if 0 <=? e then z <? v * 2 ^ e else z * 2 ^ (- e) <? v
  end.

Definition float_lt_int (f : float) (z : Z) : bool :=
  match Prim2SF f with
  | S754_nan => false
  | S754_infinity negative => negative
  | S754_zero _ => 0 <? z
  | S754_finite negative m e =>
      let v := if negative then Z.neg m else Z.pos m in
      if 0 <=? e then v * 2 ^ e <? z else v <? z * 2 ^ (- e)
  end.

(** [a < b] on strings: by code points, the shorter first on a common
    prefix. *)
Fixpoint str_lt (a b : pystr) : bool :=
  match a, b with
  | _, [] => false
  | [], _ :: _ => true
  | x :: a', y :: b' => (x <? y)%N || ((x =? y)%N && str_lt a' b')
  end.

(** [a < b] on two numbers or on two strings; [None] for the other pairs,
    where Python raises [TypeError] or, for two lists, compares their
    items. *)
Definition py_lt (a b : pyval) : option bool :=
  match a, b with
  | PStr x, PStr y => Some (str_lt x y)
  | PFloat x, PFloat y => Some (PrimFloat.ltb x y)
  | PFloat x, _ => float_lt_int x <$> py_int b
  | _, PFloat y => (fun z => int_lt_float z y) <$> py_int a
  | _, _ => match py_int a, py_int b with
            | Some x, Some y => Some (x <? y)
            | _, _ => None
            end
  end.

Definition is_number (v : pyval) : bool :=
  match v with PInt _ | PBool _ | PFloat _ => true | _ => false end.

(** A number that is not NaN. *)
Definition is_real (v : pyval) : bool :=
  match v with
  | PInt _ | PBool _ => true
  | PFloat f => negb (PrimFloat.is_nan f)
  | _ => false
  end.

Definition is_string (v : pyval) : bool :=
  match v with PStr _ => true | _ => false end.

(** Keys that [<] orders totally: numbers none of which is NaN, or
    strings. *)
Definition orderable (keys : list pyval) : bool :=
  forallb is_real keys || forallb is_string keys.

(* ===================================================================== *)
(** * Calendar dates *)
(* ===================================================================== *)

(** The value of [datetime.strptime(s, '%Y-%m-%d')]: midnight of a day. *)
Record date := mkDate { year : Z; month : Z; day : Z }.

(** [a < b] and [a > b] on such datetimes compare (year, month, day). *)
Definition date_ltb (a b : date) : bool :=
  (year a <? year b)
  || ((year a =? year b)
      && ((month a <? month b) || ((month a =? month b) && (day a <? day b)))).

Definition is_leap (y : Z) : bool :=
  (y mod 4 =? 0) && (negb (y mod 100 =? 0) || (y mod 400 =? 0)).

Definition days_before_year (y : Z) : Z :=
  let y' := y - 1 in y' * 365 + y' / 4 - y' / 100 + y' / 400.

Definition days_in_month (y m : Z) : Z :=
  if m =? 2 then (if is_leap y then 29 else 28)
  else if (m =? 4) || (m =? 6) || (m =? 9) || (m =? 11) then 30
  else 31.

Definition days_before_month (y m : Z) : Z :=
  nth (Z.to_nat m) [0; 0; 31; 59; 90; 120; 151; 181; 212; 243; 273; 304; 334] 0
  + (if (2 <? m) && is_leap y then 1 else 0).

(** [d.toordinal()]. *)
Definition toordinal (d : date) : Z :=
  days_before_year (year d) + days_before_month (year d) (month d) + day d.

(** [(now - pub).days] where [pub] is a midnight and [today] is the calendar
    day of [now]: the time of day of [now] is below one day, and [.days]
    rounds down, so only the two calendar days count. *)
Definition days_between (today pub : date) : Z := toordinal today - toordinal pub.

(* ===================================================================== *)
(** * Records of the two pipelines *)
(* ===================================================================== *)

(** [ParsedPaper]: the section fields hold whatever the generated JSON held
    ([PNone] for [null] or a missing key). *)
Record ParsedPaper := mkParsedPaper {
  pp_paper_id : pystr;
  pp_title : pyval;
  pp_abstract : pyval;
  pp_method : pyval;
  pp_experiments : pyval;
  pp_limitations : pyval
}.

Record PaperWeaknesses := mkPaperWeaknesses {
  pw_paper_id : pystr;
  weaknesses : list pystr
}.

Record WeaknessAnalysis := mkWeaknessAnalysis {
  shared : pyval;
  paper_a_only : pyval;
  paper_b_only : pyval
}.

Record ProposedMethod := mkProposedMethod {
  method_name : pyval;
  core_idea : pyval;
  components : pyval;
  addresses_weaknesses : pyval
}.

(** The dict [ResearchPipeline.process] returns. *)
Record PipelineResults := mkPipelineResults {
  res_paper_a : ParsedPaper;
  res_paper_b : ParsedPaper;
  res_weaknesses_a : list pystr;
  res_weaknesses_b : list pystr;
  res_weakness_analysis : WeaknessAnalysis;
  res_proposed_method : ProposedMethod;
  res_comparison_table : pyval
}.

(** A candidate paper: the dict [ArxivWrapper._parse_entry] builds, with the
    keys later stages add ([None]: the key is absent). *)
Record paper := mkPaper {
  paper_id : pystr;
  arxiv_id : pystr;
  title : pystr;
  abstract : pystr;
  authors : list pystr;
  published_date : option pystr;
  updated_date : option pystr;
  categories : list pystr;
  url : pystr;
  pdf_url : option pystr;
  score : option pyval;
  semantic_scholar_id : option pyval;
  citation_count : option pyval;
  influential_citation_count : option pyval;
  reference_count : option pyval;
  fields_of_study : option pyval;
  s2_year : option pyval
}.

Record paper_metrics := mkMetrics {
  m_citation_count : pyval;
  m_influential_citations : pyval;
  m_reference_count : pyval;
  m_recency_score : float;
  m_citation_score : float
}.

(** An entry of [scored_papers] in [_compute_final_ranking]. *)
Record ranked_paper := mkRanked {
  r_paper_id : pystr;
  r_arxiv_id : pystr;
  r_title : pystr;
  r_abstract : pystr;
  r_authors : list pystr;
  r_url : pystr;
  r_pdf_url : option pystr;
  r_published_date : option pystr;
  r_categories : list pystr;
  relevance_score : float;
  final_score : float;
  metrics : paper_metrics;
  sota_rank : option Z;
  relevance_reason : option pystr
}.

(** The dict [SOTAIdentifier.identify_sota] returns. *)
Record sota_result := mkSotaResult {
  sr_topic : pystr;
  total_found : Z;
  sr_top_k : Z;
  sota_papers : list ranked_paper;
  sp_max_results : Z;
  sp_start_date : option pystr;
  sp_end_date : option pystr
}.

(* ===================================================================== *)
(** * External services and the log of calls *)
(* ===================================================================== *)

(** What a generation request asks. The wording of the prompts is fixed text
    around these interpolated values. *)
Inductive prompt : Type :=
  | ExtractSectionsPrompt (text : pystr)
  | WeaknessPrompt (section_name : pystr) (text : pyval)
  | NormalizePrompt (raw : list pystr)
  | FusionPrompt (weaknesses_a weaknesses_b : list pystr)
  | SynthesisPrompt (paper_a_title paper_b_title : pyval) (analysis : WeaknessAnalysis)
  | ComparisonPrompt (title_a title_b : pyval) (limits_a limits_b : list pystr)
      (proposed : ProposedMethod)
  | RelevancePrompt (query : pystr) (titles : list pystr)
  | ExplanationPrompt (query : pystr) (paper_title paper_abstract : pystr).

Record chat_request := mkChat {
  chat_prompt : prompt;
  chat_temperature : float;
  chat_max_tokens : Z
}.

Inductive request : Type :=
  | GroqPost (r : chat_request)
  | EnginePost (r : chat_request)
  | ArxivGet (search_query : pystr) (max_results : Z) (sort_by sort_order : pystr)
  | ScholarGet (clean_id : pystr).

(** One call to a service, and whether it raised. *)
Record event := mkEvent { ev_request : request; ev_failed : bool }.

Inductive scholar_reply : Type :=
  | ScholarNotFound
  | ScholarData (data : pyval)
  | ScholarFailed (e : exn).

(** The services, as functions of the calls made so far and of the request.
    [generation] covers the HTTP exchange and the unwrapping of the reply
    (text, or the exception raised on the way); [arxiv] covers the exchange
    and the parsing of the feed into entries. *)
Record services := mkServices {
  generation : list event -> chat_request -> outcome pystr;
  arxiv : list event -> pystr -> Z -> pystr -> pystr -> outcome (list paper);
  scholar : list event -> pystr -> scholar_reply
}.

(** The two sets [WeaknessFusion.analyze] builds from its input lists:
    [set(a) & set(b)] and [set(a) - set(b)]. *)
Inductive set_expr : Type :=
  | SetAnd (a b : list pystr)
  | SetMinus (a b : list pystr).

Definition set_value (s : set_expr) : gset pystr :=
  match s with
  | SetAnd a b => list_to_set a ∩ list_to_set b
  | SetMinus a b => list_to_set a ∖ list_to_set b
  end.

(** The Python builtins the program relies on. The last two stand for what
    the interpreter leaves open: [list_of_set] is the order in which
    [list(...)] yields the elements of such a set (it depends on the hash
    seed of the process and on how the set was built), and [sort_choice] is
    what [list.sort(reverse=True)] does with keys that [<] does not order
    totally, as positions of the input in their new order, [None] standing
    for [TypeError] (see [py_list_of_set] and [py_sort_desc]). *)
Class PyBuiltins := mkBuiltins {
  str_lower : pystr -> pystr;
  chr_isdigit : codepoint -> bool;
  json_loads : pystr -> option pyval;
  strptime : pystr -> option date;
  py_round : float -> Z -> float;
  list_of_set : set_expr -> list pystr;
  sort_choice : list pyval -> option (list nat)
}.

(** [list(s)]: the elements of the set, each once, in the order the
    interpreter yields them. *)
Definition py_list_of_set `{PyBuiltins} (s : set_expr) : list pystr :=
  let order := list_of_set s in
  if bool_decide (NoDup order /\ list_to_set order = set_value s)
  then order else elements (set_value s).

(* ===================================================================== *)
(** * The monad of service calls and exceptions *)
(* ===================================================================== *)

Definition M (A : Type) : Type := list event -> outcome A * list event.

Definition ret {A} (a : A) : M A := fun log => (Ok a, log).
Definition raise {A} (e : exn) : M A := fun log => (Raise e, log).
Definition bind {A B} (m : M A) (k : A -> M B) : M B :=
  fun log => match m log with
             | (Ok a, log') => k a log'
             | (Raise e, log') => (Raise e, log')
             end.

(** [try: m  except <all>: h]. *)
Definition try_except {A} (m : M A) (h : exn -> M A) : M A :=
  fun log => match m log with
             | (Ok a, log') => (Ok a, log')
             | (Raise e, log') => h e log'
             end.

Definition lift {A} (o : outcome A) : M A := fun log => (o, log).

Definition obind {A B} (o : outcome A) (k : A -> outcome B) : outcome B :=
  match o with Ok a => k a | Raise e => Raise e end.

Declare Scope py_scope.
Delimit Scope py_scope with py_scope.
Notation "x <- m ;; k" := (bind m (fun x => k))
  (at level 100, m at next level, right associativity) : py_scope.
Notation "x <-! o ;; k" := (obind o (fun x => k))
  (at level 100, o at next level, right associativity) : py_scope.

(** Monadic left fold: a [for] loop carrying an accumulator. *)
Fixpoint for_each {A S} (body : S -> A -> M S) (xs : list A) (acc : S) : M S :=
  match xs with
  | [] => ret acc
  | x :: xs' => bind (body acc x) (for_each body xs')
  end.

Local Open Scope py_scope.

(** [try: o  except <classes>: h]: only the exceptions [caught] accepts are
    handled, the others pass. *)
Definition otry {A} (o : outcome A) (caught : exn -> bool) (h : exn -> outcome A) : outcome A :=
  match o with
  | Ok a => Ok a
  | Raise e => if caught e then h e else Raise e
  end.

Definition is_JSONDecodeError (e : exn) : bool :=
  match e with JSONDecodeError => true | _ => false end.

Definition is_RequestException (e : exn) : bool :=
  match e with RequestException _ => true | _ => false end.

(** Every modelled exception derives from [Exception]. *)
Definition is_Exception (e : exn) : bool := true.

(* ===================================================================== *)
(** * app.py: the synthesis pipeline *)
(* ===================================================================== *)

(** The bullet the source tests for: its literal is the three characters
    U+201A U+00C4 U+00A2. *)
Definition bullet_mark : pystr := [8218; 196; 162]%N.
(** The character set of [lstrip('-...*')]: hyphen, those three, asterisk. *)
Definition bullet_chars : pystr := [45; 8218; 196; 162; 42]%N.

Definition is_bullet_line (line : pystr) : bool :=
  startswith (py "-") line || startswith bullet_mark line || startswith (py "*") line.

(** The five comparison aspects and the default table. *)
Definition aspects : list pystr :=
  [py "Task Scalability"; py "Theoretical Foundation"; py "Computational Efficiency";
   py "Generalization Capability"; py "Practical Applicability"].

Definition default_comparison : pyval :=
  PDict ((fun aspect =>
            (aspect,
             PDict [(py "paper_a", PStr (py "Analysis based on identified limitations shows room for improvement"));
                    (py "paper_b", PStr (py "Moderate performance with some documented constraints"));
                    (py "proposed", PStr (py "Designed to address identified gaps through hybrid approach"))]))
           <$> aspects).

Definition default_method : ProposedMethod :=
  {| method_name := PStr (py "Unified Adaptive Hybrid Framework");
     core_idea := PStr (py "A method that combines the complementary strengths of both analyzed approaches while introducing novel components to address identified limitations.");
     components :=
       PList [PStr (py "Adaptive Integration Module: Dynamically combines features from both paradigms");
              PStr (py "Scalability Enhancement Layer: Addresses computational efficiency concerns");
              PStr (py "Generalization Mechanism: Improves cross-domain applicability");
              PStr (py "Theoretical Grounding: Provides formal convergence guarantees")];
     addresses_weaknesses := PStr (py "This framework addresses the identified weaknesses through its modular design that allows for flexible adaptation to different scenarios while maintaining theoretical soundness.") |}.

(** The fallback of [WeaknessFusion.analyze]: set algebra on the exact
    strings, each set listed in the order of the interpreter. *)
Definition set_fallback `{PyBuiltins} (weaknesses_a weaknesses_b : list pystr)
  : WeaknessAnalysis :=
  {| shared := PList (PStr <$> py_list_of_set (SetAnd weaknesses_a weaknesses_b));
     paper_a_only := PList (PStr <$> py_list_of_set (SetMinus weaknesses_a weaknesses_b));
     paper_b_only := PList (PStr <$> py_list_of_set (SetMinus weaknesses_b weaknesses_a)) |}.

Section App.
Context `{PyBuiltins} (env : services).

(** requests.post to the generation endpoint, logged. *)
Definition groq_post (req : chat_request) : M pystr :=
  fun log =>
    let o := generation env log req in
    (o, log ++ [mkEvent (GroqPost req) (match o with Ok _ => false | Raise _ => true end)]).

(** [GroqClient.chat_completion]: the handler prints and re-raises. *)
Definition chat_completion (p : prompt) (temperature : float) (max_tokens : Z) : M pystr :=
  try_except (groq_post (mkChat p temperature max_tokens)) (fun e => raise e).

Definition loads (s : pystr) : outcome pyval :=
  match json_loads s with Some v => Ok v | None => Raise JSONDecodeError end.

(** The cleaning every JSON stage applies before [json.loads]. *)
Definition clean_response (response : pystr) : pystr :=
  let response := strip response in
  if contains (py "```json") response
  then split_item0 (py "```") (split_item1 (py "```json") response)
  else if contains (py "```") response
  then split_item0 (py "```") (split_item1 (py "```") response)
  else response.

(** The debug lines of [parse_pdf]: they slice the title and take the
    length of each section, which fails on a number. *)
Definition debug_title (data : pyval) : outcome unit :=
  t <-! py_get data (py "title") PNone;;
  if truthy t
  then (t' <-! py_get data (py "title") (PStr (py "None"));;
        _ <-! py_slice 50 t';; Ok tt)
  else Ok tt.

Definition debug_section (data : pyval) (key : pystr) : outcome unit :=
  _ <-! py_get data key PNone;;
  v <-! py_get data key PNone;;
  _ <-! py_len (if truthy v then v else PStr []);;
  Ok tt.

(** [PaperParser.parse_pdf] after the generation call. [text] is the plain
    text read from the file. *)
Definition parse_pdf_decode (text paper_id response : pystr) : outcome ParsedPaper :=
  otry
    (data <-! loads (clean_response response);;
     _ <-! debug_title data;;
     _ <-! debug_section data (py "abstract");;
     _ <-! debug_section data (py "method");;
     _ <-! debug_section data (py "experiments");;
     _ <-! debug_section data (py "limitations");;
     t <-! py_get data (py "title") PNone;;
     a <-! py_get data (py "abstract") PNone;;
     m <-! py_get data (py "method") PNone;;
     e <-! py_get data (py "experiments") PNone;;
     l <-! py_get data (py "limitations") PNone;;
     Ok (mkParsedPaper paper_id t a m e l))
    is_JSONDecodeError
    (fun _ =>
       Ok (mkParsedPaper paper_id (PStr (py "Unknown"))
             (if bool_decide (text = []) then PNone else PStr (take 500 text))
             (if bool_decide (text = []) then PNone else PStr (take 2000 text))
             PNone PNone)).

Definition parse_pdf (text paper_id : pystr) : M ParsedPaper :=
  response <- chat_completion (ExtractSectionsPrompt (take 8000 text)) 0.1%float 3000;;
  lift (parse_pdf_decode text paper_id response).

(** The line loop of [WeaknessExtractor._extract_from_section]: one step
    per line of the reply, appending to [weaknesses]. *)
Definition weakness_step (weaknesses : list pystr) (line : pystr) : list pystr :=
  let line := strip line in
  if is_bullet_line line then
    let weakness := strip (lstrip_chars bullet_chars line) in
    if negb (bool_decide (weakness = []))
       && negb (str_in (str_lower weakness) [py "none"; py "n/a"; py "not applicable"])
    then weaknesses ++ [weakness] else weaknesses
  else if (2 <? length line)%nat && chr_isdigit (nth 0 line 0%N)
          && ((nth 1 line 0 =? 46) || (nth 1 line 0 =? 41))%N then
    let weakness := strip (drop 2 line) in
    if negb (bool_decide (weakness = []))
       && negb (str_in (str_lower weakness) [py "none"; py "n/a"])
    then weaknesses ++ [weakness] else weaknesses
  else weaknesses.

Definition parse_weaknesses (response : pystr) : list pystr :=
  fold_left weakness_step (split_chr LF response) [].

Definition _extract_from_section (section_name : pystr) (text : pyval) : M (list pystr) :=
  shown <- lift (py_slice 3000 text);;
  response <- chat_completion (WeaknessPrompt section_name shown) 0.4%float 1000;;
  ret (parse_weaknesses response).

(** One turn of the loop over the sections in [extract_from_paper]. *)
Definition section_step (all_weaknesses : list pystr) (section : pystr * pyval)
  : M (list pystr) :=
  let '(section_name, section_text) := section in
  if truthy section_text then
    n <- lift (py_len section_text);;
    if (50 <? n)%nat then
      found <- _extract_from_section section_name section_text;;
      ret (all_weaknesses ++ found)
    else ret all_weaknesses
  else ret all_weaknesses.

Definition extract_from_paper (p : ParsedPaper) : M PaperWeaknesses :=
  let sections :=
    [(py "method", pp_method p); (py "experiments", pp_experiments p);
     (py "limitations", pp_limitations p); (py "abstract", pp_abstract p)] in
  all_weaknesses <- for_each section_step sections [];;
  all_weaknesses <-
    (if bool_decide (all_weaknesses = []) && truthy (pp_abstract p) then
       found <- _extract_from_section (py "paper_content") (pp_abstract p);;
       ret (all_weaknesses ++ found)
     else ret all_weaknesses);;
  ret (mkPaperWeaknesses (pp_paper_id p) all_weaknesses).

(** The line loop of [WeaknessNormalizer.normalize]. *)
Definition normalize_step (normalized : list pystr) (line : pystr) : list pystr :=
  let line := strip line in
  if is_bullet_line line then
    let weakness := strip (lstrip_chars bullet_chars line) in
    if negb (bool_decide (weakness = [])) && (10 <? length weakness)%nat
    then normalized ++ [weakness] else normalized
  else normalized.

Definition parse_normalized (response : pystr) : list pystr :=
  fold_left normalize_step (split_chr LF response) [].

Definition normalize (raw : list pystr) : M (list pystr) :=
  match raw with
  | [] => ret []
  | _ :: _ =>
      response <- chat_completion (NormalizePrompt raw) 0.2%float 800;;
      ret (parse_normalized response)
  end.

(** The bulleted items of a reply, marker removed and trimmed: what the loop
    of [normalize] has in hand when it looks at the length. *)
Definition bullet_items (response : pystr) : list pystr :=
  omap (fun line =>
          let line := strip line in
          if is_bullet_line line
          then Some (strip (lstrip_chars bullet_chars line)) else None)
    (split_chr LF response).

(** The [try] body of [WeaknessFusion.analyze]. *)
Definition analyze_decode (response : pystr) : outcome WeaknessAnalysis :=
  data <-! loads (clean_response response);;
  s <-! py_get data (py "shared") (PList []);;
  a <-! py_get data (py "paper_a_only") (PList []);;
  b <-! py_get data (py "paper_b_only") (PList []);;
  Ok (mkWeaknessAnalysis s a b).

Definition analyze (weaknesses_a weaknesses_b : list pystr) : M WeaknessAnalysis :=
  response <- chat_completion (FusionPrompt weaknesses_a weaknesses_b) 0.2%float 1500;;
  lift (otry (analyze_decode response) (fun _ => true)
          (fun _ => Ok (set_fallback weaknesses_a weaknesses_b))).

(** [join(... for w in xs) if xs else "..."]: iterates [xs] when truthy. *)
Definition bullets_of (xs : pyval) : outcome unit :=
  if truthy xs then (if py_iterable xs then Ok tt else Raise TypeError) else Ok tt.

(** The [try] body of [MethodSynthesizer.synthesize]. *)
Definition synthesize_decode (response : pystr) : outcome ProposedMethod :=
  data <-! loads (clean_response response);;
  n <-! py_get data (py "method_name") (PStr (py "Unified Adaptive Framework"));;
  c <-! py_get data (py "core_idea") (PStr []);;
  k <-! py_get data (py "components") (PList []);;
  w <-! py_get data (py "addresses_weaknesses") (PStr []);;
  Ok (mkProposedMethod n c k w).

Definition synthesize (analysis : WeaknessAnalysis) (paper_a_title paper_b_title : pyval)
  : M ProposedMethod :=
  _ <- lift (sa <-! py_add (shared analysis) (paper_a_only analysis);;
             py_add sa (paper_b_only analysis));;
  _ <- lift (bullets_of (shared analysis));;
  _ <- lift (bullets_of (paper_a_only analysis));;
  _ <- lift (bullets_of (paper_b_only analysis));;
  response <- chat_completion (SynthesisPrompt paper_a_title paper_b_title analysis)
                0.5%float 2500;;
  lift (otry (synthesize_decode response) is_Exception (fun _ => Ok default_method)).

(** [x or fallback]. *)
Definition py_or (x fallback : pyval) : pyval := if truthy x then x else fallback.

Definition generate_comparison (paper_a paper_b : ParsedPaper)
    (weaknesses_a weaknesses_b : list pystr) (proposed : ProposedMethod) : M pyval :=
  _ <- lift (if py_joinable (components proposed) then Ok tt else Raise TypeError);;
  response <- chat_completion
                (ComparisonPrompt (py_or (pp_title paper_a) (PStr (py "Untitled Paper A")))
                   (py_or (pp_title paper_b) (PStr (py "Untitled Paper B")))
                   (take 4 weaknesses_a) (take 4 weaknesses_b) proposed)
                0.3%float 2500;;
  lift (otry (loads (clean_response response)) is_Exception (fun _ => Ok default_comparison)).

(** [ResearchPipeline.process], from the plain text of the two files. *)
Definition process (text_a text_b : pystr) : M PipelineResults :=
  paper_a <- parse_pdf text_a (py "A");;
  paper_b <- parse_pdf text_b (py "B");;
  weaknesses_a <- extract_from_paper paper_a;;
  weaknesses_b <- extract_from_paper paper_b;;
  normalized_a <- normalize (weaknesses weaknesses_a);;
  normalized_b <- normalize (weaknesses weaknesses_b);;
  analysis <- analyze normalized_a normalized_b;;
  proposed <- synthesize analysis (py_or (pp_title paper_a) (PStr (py "Paper A")))
                (py_or (pp_title paper_b) (PStr (py "Paper B")));;
  comparison <- generate_comparison paper_a paper_b normalized_a normalized_b proposed;;
  ret (mkPipelineResults paper_a paper_b normalized_a normalized_b analysis proposed comparison).
End App.

(* ===================================================================== *)
(** * Sorting as [list.sort(key=..., reverse=True)] does *)
(* ===================================================================== *)

(** A stable descending sort: [x], which came before every element of [l],
    passes only the elements whose key is strictly greater. Keys are compared
    with [<] alone, as Python does. *)
Section Sort.
Context {A K : Type} (lt : K -> K -> bool) (key : A -> K).

Fixpoint insert_desc (x : A) (l : list A) : list A :=
  match l with
  | [] => [x]
  | y :: l' => if lt (key x) (key y) then y :: insert_desc x l' else x :: l
  end.

Definition sort_desc (l : list A) : list A := foldr insert_desc [] l.
End Sort.

(** The elements of [l] at the positions [order], when [order] names every
    position once; [l] as it is otherwise. *)
Definition reorder {A} (l : list A) (order : list nat) : list A :=
  if bool_decide (NoDup order /\ length order = length l
                  /\ Forall (fun i => (i < length l)%nat) order)
  then omap (fun i => l !! i) order else l.

(** [l.sort(key=key, reverse=True)] and the list it leaves. Fewer than two
    elements are not compared. Keys that [<] orders totally (numbers without
    NaN, or strings) give the stable descending sort. Numbers with a NaN
    among them are never refused, and come out in an order that depends on
    the algorithm of the interpreter. For other keys the interpreter raises
    [TypeError] or, when all the comparisons it makes succeed, reorders. *)
Definition py_sort_desc `{PyBuiltins} {A} (key : A -> pyval) (l : list A)
  : outcome (list A) :=
  let keys := key <$> l in
  if (length l <? 2)%nat then Ok l
  else if orderable keys
  then Ok (sort_desc (fun a b => default false (py_lt a b)) key l)
  else if forallb is_number keys
  then Ok (reorder l (default [] (sort_choice keys)))
  else match sort_choice keys with
       | Some order => Ok (reorder l order)
       | None => Raise TypeError
       end.

(** [for i, x in enumerate(l)] from index [i]. *)
Fixpoint enumerate_from {A} (i : Z) (l : list A) : list (Z * A) :=
  match l with
  | [] => []
  | x :: l' => (i, x) :: enumerate_from (i + 1) l'
  end.

(* ===================================================================== *)
(** * services/api_wrapper.py *)
(* ===================================================================== *)

Definition opt_truthy (s : option pystr) : bool :=
  match s with Some (_ :: _) => true | _ => false end.

Section ApiWrapper.
Context `{PyBuiltins} (env : services).

Definition parse_date (s : pystr) : outcome date :=
  match strptime s with Some d => Ok d | None => Raise ValueError end.

(** [ArxivWrapper._build_query]. *)
Definition _build_query (query : pystr) : pystr :=
  let clean_query := strip (str_replace dquote [] query) in
  py "all:" ++ dquote ++ clean_query ++ dquote
    ++ py " OR ti:" ++ dquote ++ clean_query ++ dquote
    ++ py " OR abs:" ++ dquote ++ clean_query ++ dquote.

(** The [try] body of the loop of [_filter_by_date]: [Ok true] when the
    paper is appended, [Ok false] on [continue]. *)
Definition date_window (pub_date : pystr) (start_date end_date : option pystr)
  : outcome bool :=
  pub <-! parse_date pub_date;;
  before <-! (if opt_truthy start_date
              then (start <-! parse_date (default [] start_date);;
                    Ok (date_ltb pub start))
              else Ok false);;
  if (before : bool) then Ok false
  else
    after <-! (if opt_truthy end_date
               then (end_ <-! parse_date (default [] end_date);;
                     Ok (date_ltb end_ pub))
               else Ok false);;
    Ok (negb after).

(** Whether [_filter_by_date] keeps the paper. The handler of [ValueError]
    appends it. *)
Definition keeps (start_date end_date : option pystr) (p : paper) : bool :=
  if opt_truthy (published_date p) then
    match otry (date_window (default [] (published_date p)) start_date end_date)
            (fun e => match e with ValueError => true | _ => false end)
            (fun _ => Ok true) with
    | Ok b => b
    | Raise _ => false
    end
  else false.

Definition _filter_by_date (papers : list paper) (start_date end_date : option pystr)
  : list paper :=
  filter (fun p => keeps start_date end_date p = true) papers.

(** The GET on the search endpoint and the parsing of the feed, logged. *)
Definition arxiv_get (search_query : pystr) (max_results : Z) (sort_by sort_order : pystr)
  : M (list paper) :=
  fun log =>
    let o := arxiv env log search_query max_results sort_by sort_order in
    (o, log ++ [mkEvent (ArxivGet search_query max_results sort_by sort_order)
                  (match o with Ok _ => false | Raise _ => true end)]).

(** [ArxivWrapper.search]. *)
Definition search (query : pystr) (start_date end_date : option pystr)
    (max_results : Z) (sort_by sort_order : pystr) : M (list paper) :=
  let search_query := _build_query query in
  try_except
    (papers <- arxiv_get search_query max_results sort_by sort_order;;
     ret (if opt_truthy start_date || opt_truthy end_date
          then _filter_by_date papers start_date end_date
          else papers))
    (fun e => if is_RequestException e then ret [] else raise e).

(** The GET on the metrics endpoint, logged. *)
Definition scholar_get (clean_id : pystr) : M scholar_reply :=
  fun log =>
    let r := scholar env log clean_id in
    (Ok r, log ++ [mkEvent (ScholarGet clean_id)
                     (match r with ScholarFailed _ => true | _ => false end)]).

(** The keys [get_paper_by_arxiv_id] returns, in its order. *)
Record scholar_metrics := mkScholarMetrics {
  sm_semantic_scholar_id : pyval;
  sm_citation_count : pyval;
  sm_influential_citation_count : pyval;
  sm_reference_count : pyval;
  sm_fields_of_study : pyval;
  sm_year : pyval
}.

Definition get_paper_by_arxiv_id (arxiv_id : pystr) : M (option scholar_metrics) :=
  let clean_id := strip (str_replace (py "arXiv:") [] arxiv_id) in
  reply <- scholar_get clean_id;;
  match reply with
  | ScholarNotFound => ret None
  | ScholarFailed e => if is_RequestException e then ret None else raise e
  | ScholarData data =>
      lift (i <-! py_get data (py "paperId") PNone;;
            c <-! py_get data (py "citationCount") (PInt 0);;
            f <-! py_get data (py "influentialCitationCount") (PInt 0);;
            r <-! py_get data (py "referenceCount") (PInt 0);;
            s <-! py_get data (py "fieldsOfStudy") (PList []);;
            y <-! py_get data (py "year") PNone;;
            Ok (Some (mkScholarMetrics i c f r s y)))
  end.

(** [paper.update(metrics)]. *)
Definition update_metrics (p : paper) (m : scholar_metrics) : paper :=
  {| paper_id := paper_id p; arxiv_id := arxiv_id p; title := title p;
     abstract := abstract p; authors := authors p;
     published_date := published_date p; updated_date := updated_date p;
     categories := categories p; url := url p; pdf_url := pdf_url p;
     score := score p;
     semantic_scholar_id := Some (sm_semantic_scholar_id m);
     citation_count := Some (sm_citation_count m);
     influential_citation_count := Some (sm_influential_citation_count m);
     reference_count := Some (sm_reference_count m);
     fields_of_study := Some (sm_fields_of_study m);
     s2_year := Some (sm_year m) |}.

(** One turn of the loop of [enrich_papers]. *)
Definition enrich_step (enriched : list paper) (p : paper) : M (list paper) :=
  match arxiv_id p with
  | [] => ret (enriched ++ [p])
  | _ :: _ =>
      metrics <- get_paper_by_arxiv_id (arxiv_id p);;
      match metrics with
      | Some m => ret (enriched ++ [update_metrics p m])
      | None => ret (enriched ++ [p])
      end
  end.

Definition enrich_papers (papers : list paper) : M (list paper) :=
  for_each enrich_step papers [].
End ApiWrapper.

(* ===================================================================== *)
(** * services/semantic_engine.py *)
(* ===================================================================== *)

(** [paper['score'] = v]. *)
Definition set_score (p : paper) (v : pyval) : paper :=
  {| paper_id := paper_id p; arxiv_id := arxiv_id p; title := title p;
     abstract := abstract p; authors := authors p;
     published_date := published_date p; updated_date := updated_date p;
     categories := categories p; url := url p; pdf_url := pdf_url p;
     score := Some v;
     semantic_scholar_id := semantic_scholar_id p;
     citation_count := citation_count p;
     influential_citation_count := influential_citation_count p;
     reference_count := reference_count p;
     fields_of_study := fields_of_study p;
     s2_year := s2_year p |}.

(** [set(s.split())]. *)
Definition word_set (s : pystr) : gset pystr := list_to_set (split_ws s).

(** [x.get('score', 0)], the sort key of [rank_papers]. *)
Definition score_key (p : paper) : pyval := default (PInt 0) (score p).

(** [scored.sort(key=lambda x: x.get('score', 0), reverse=True)] in
    [rank_papers]. *)
Definition sort_by_score `{PyBuiltins} (l : list paper) : outcome (list paper) :=
  py_sort_desc score_key l.

Section SemanticEngine.
Context `{PyBuiltins} (env : services) (api_key : pystr).

(** requests.post of [SemanticEngine], logged; the reply text or the
    exception raised while obtaining it. *)
Definition engine_post (req : chat_request) : M pystr :=
  fun log =>
    let o := generation env log req in
    (o, log ++ [mkEvent (EnginePost req) (match o with Ok _ => false | Raise _ => true end)]).

(** The score [_keyword_score_papers] gives one paper. *)
Definition keyword_score (query_words : gset pystr) (p : paper) : float :=
  let title := str_lower (title p) in
  let abstract := str_lower (abstract p) in
  let text := title ++ py " " ++ abstract in
  let text_words := word_set text in
  let overlap := size (query_words ∩ text_words) in
  let max_possible := size query_words in
  let title_words := word_set title in
  let title_overlap := size (query_words ∩ title_words) in
  if (0 <? max_possible)%nat then
    let base_score := int_truediv (Z.of_nat overlap) (Z.of_nat max_possible) in
    let title_bonus :=
      (int_truediv (Z.of_nat title_overlap) (Z.of_nat max_possible) * 0.3)%float in
    py_min 1.0%float (base_score * 0.7 + title_bonus + 0.1)%float
  else 0.5%float.

Definition _keyword_score_papers (query : pystr) (papers : list paper) : list paper :=
  let query_words := word_set (str_lower query) in
  (fun p => set_score p (PFloat (keyword_score query_words p))) <$> papers.

(** The first loop of [_llm_score_papers], from index [i]. *)
Fixpoint assign_scores (scores : pyval) (i : nat) (papers : list paper)
  : outcome (list paper) :=
  match papers with
  | [] => Ok []
  | p :: rest =>
      v <-! py_index scores i;;
      rest' <-! assign_scores scores (S i) rest;;
      Ok (set_score p v :: rest')
  end.

(** The [try] body of [_llm_score_papers]. *)
Definition apply_scores (result : pystr) (papers : list paper) : outcome (list paper) :=
  let result := strip (str_replace (py "```") [] (str_replace (py "```json") [] result)) in
  scores <-! loads result;;
  n <-! py_len scores;;
  scored <-! assign_scores scores 0 (take n papers);;
  Ok (scored ++ ((fun p => set_score p (PFloat 0.5%float)) <$> drop n papers)).

Definition _llm_score_papers (query : pystr) (papers : list paper) : M (list paper) :=
  result <- engine_post (mkChat (RelevancePrompt query (title <$> take 15 papers))
                           0.1%float 200);;
  let result := strip result in
  lift (otry (apply_scores result papers) is_JSONDecodeError
          (fun _ => Ok (_keyword_score_papers query papers))).

Definition _score_papers (query : pystr) (papers : list paper) : M (list paper) :=
  if bool_decide (api_key = []) then ret (_keyword_score_papers query papers)
  else try_except (_llm_score_papers query papers)
         (fun _ => ret (_keyword_score_papers query papers)).

Definition rank_papers (query : pystr) (papers : list paper) (top_k : Z) : M (list paper) :=
  match papers with
  | [] => ret []
  | _ :: _ =>
      if Z.of_nat (length papers) <=? top_k then _score_papers query papers
      else
        scored <- _score_papers query papers;;
        scored <- lift (sort_by_score scored);;
        ret (py_take top_k scored)
  end.

Definition explanation_without_key : pystr :=
  py "Paper matches search criteria based on title and abstract content.".
Definition explanation_on_failure : pystr :=
  py "Relevant based on semantic similarity to the research topic.".

Definition compute_relevance_explanation (query : pystr) (p : ranked_paper) : M pystr :=
  if bool_decide (api_key = []) then ret explanation_without_key
  else try_except
         (text <- engine_post (mkChat (ExplanationPrompt query (r_title p)
                                         (take 500 (r_abstract p)))
                                 0.3%float 100);;
          ret (strip text))
         (fun _ => ret explanation_on_failure).
End SemanticEngine.

(* ===================================================================== *)
(** * services/sota_identifier.py *)
(* ===================================================================== *)

(** [citation_count / 500]: true division of ints when the count is an int,
    division of floats when it is a float. *)
Definition div_500 (citation_count : pyval) : outcome float :=
  match citation_count with
  | PFloat f => Ok (f / 500)%float
  | _ => match py_int citation_count with
         | Some z => py_int_truediv z 500
         | None => Raise TypeError
         end
  end.

(** [min(1.0, citation_count / 500) if citation_count else 0]; the int [0]
    of the source is the float zero here. *)
Definition citation_score_of (citation_count : pyval) : outcome float :=
  if truthy citation_count then
    q <-! div_500 citation_count;; Ok (py_min 1.0%float q)
  else Ok 0%float.

(** The ladder on [days_old]. *)
Definition recency_of_days (days_old : Z) : float :=
  if days_old <? 180 then 1.0%float
  else if days_old <? 365 then 0.9%float
  else if days_old <? 730 then 0.7%float
  else py_max 0.3%float (1.0 - int_truediv days_old 3650)%float.

(** The weights: relevance 50%, citations 25%, recency 25%. *)
Definition final_score_of (relevance_score citation_score recency_score : float) : float :=
  (relevance_score * 0.50 + citation_score * 0.25 + recency_score * 0.25)%float.

(** [paper['sota_rank'] = r] and [paper['relevance_reason'] = s]. *)
Definition set_rank (p : ranked_paper) (r : Z) : ranked_paper :=
  {| r_paper_id := r_paper_id p; r_arxiv_id := r_arxiv_id p; r_title := r_title p;
     r_abstract := r_abstract p; r_authors := r_authors p; r_url := r_url p;
     r_pdf_url := r_pdf_url p; r_published_date := r_published_date p;
     r_categories := r_categories p; relevance_score := relevance_score p;
     final_score := final_score p; metrics := metrics p;
     sota_rank := Some r; relevance_reason := relevance_reason p |}.

Definition set_reason (p : ranked_paper) (s : pystr) : ranked_paper :=
  {| r_paper_id := r_paper_id p; r_arxiv_id := r_arxiv_id p; r_title := r_title p;
     r_abstract := r_abstract p; r_authors := r_authors p; r_url := r_url p;
     r_pdf_url := r_pdf_url p; r_published_date := r_published_date p;
     r_categories := r_categories p; relevance_score := relevance_score p;
     final_score := final_score p; metrics := metrics p;
     sota_rank := sota_rank p; relevance_reason := Some s |}.

(** [for i, paper in enumerate(sorted[:top_k]): paper['sota_rank'] = i + 1]
    and [return sorted[:top_k]]. *)
Definition rank_top (sorted : list ranked_paper) (top_k : Z) : list ranked_paper :=
  (fun ip => set_rank ip.2 (ip.1 + 1)) <$> enumerate_from 0 (py_take top_k sorted).

(** The end of [_compute_final_ranking]: sort by the stored [final_score],
    number the first [top_k] entries from 1, return them. *)
Definition rank_and_select `{PyBuiltins} (scored_papers : list ranked_paper) (top_k : Z)
  : outcome (list ranked_paper) :=
  sorted <-! py_sort_desc (fun p => PFloat (final_score p)) scored_papers;;
  Ok (rank_top sorted top_k).

Fixpoint map_outcome {A B} (f : A -> outcome B) (l : list A) : outcome (list B) :=
  match l with
  | [] => Ok []
  | x :: l' => y <-! f x;; ys <-! map_outcome f l';; Ok (y :: ys)
  end.

Section SOTAIdentifier.
Context `{PyBuiltins} (env : services) (api_key : pystr).
(** The calendar day [datetime.now()] falls on. *)
Context (today : date).

(** [recency_score] of one paper. *)
Definition recency_score_of (pub_date : option pystr) : float :=
  if opt_truthy pub_date then
    match parse_date (default [] pub_date) with
    | Ok pub => recency_of_days (days_between today pub)
    | Raise _ => 0.5%float
    end
  else 0.5%float.

(** [round(relevance_score, 3)]: an int is returned unchanged. *)
Definition round_relevance (v : pyval) (as_float : float) : float :=
  match v with PFloat f => py_round f 3 | _ => as_float end.

(** The body of the loop of [_compute_final_ranking]. *)
Definition score_paper (p : paper) : outcome ranked_paper :=
  let relevance := default (PFloat 0.5%float) (score p) in
  let citation_count := default (PInt 0) (citation_count p) in
  citation_score <-! citation_score_of citation_count;;
  let recency_score := recency_score_of (published_date p) in
  relevance_score <-! py_float relevance;;
  let final := final_score_of relevance_score citation_score recency_score in
  Ok {| r_paper_id := paper_id p; r_arxiv_id := arxiv_id p; r_title := title p;
        r_abstract := if (500 <? length (abstract p))%nat
                      then take 500 (abstract p) ++ py "..." else abstract p;
        r_authors := take 5 (authors p);
        r_url := url p; r_pdf_url := pdf_url p;
        r_published_date := published_date p;
        r_categories := categories p;
        relevance_score := round_relevance relevance relevance_score;
        final_score := py_round final 3;
        metrics := {| m_citation_count := citation_count;
                      m_influential_citations :=
                        default (PInt 0) (influential_citation_count p);
                      m_reference_count := default (PInt 0) (reference_count p);
                      m_recency_score := py_round recency_score 2;
                      m_citation_score := if truthy citation_count
                                          then py_round citation_score 2
                                          else 0%float |};
        sota_rank := None; relevance_reason := None |}.

Definition _compute_final_ranking (papers : list paper) (top_k : Z)
  : outcome (list ranked_paper) :=
  scored_papers <-! map_outcome score_paper papers;;
  rank_and_select scored_papers top_k.

(** The loop that attaches the explanations. *)
Definition explain_step (topic : pystr) (done : list ranked_paper) (p : ranked_paper)
  : M (list ranked_paper) :=
  reason <- compute_relevance_explanation env api_key topic p;;
  ret (done ++ [set_reason p reason]).

(** [SOTAIdentifier.identify_sota]. *)
Definition identify_sota (topic : pystr) (max_results top_k : Z)
    (start_date end_date : option pystr) (include_metrics : bool) : M sota_result :=
  let result := mkSotaResult topic 0 top_k [] max_results start_date end_date in
  arxiv_results <- search env topic start_date end_date max_results
                     (py "relevance") (py "descending");;
  match arxiv_results with
  | [] => ret result
  | _ :: _ =>
      let found := Z.of_nat (length arxiv_results) in
      ranked_papers <- rank_papers env api_key topic arxiv_results
                         (Z.min (top_k * 2) found);;
      ranked_papers <- (if include_metrics
                        then enrich_papers env (py_take (top_k * 2) ranked_papers)
                        else ret ranked_papers);;
      final_papers <- lift (_compute_final_ranking ranked_papers top_k);;
      final_papers <- for_each (explain_step topic) final_papers [];;
      ret (mkSotaResult topic found top_k final_papers max_results start_date end_date)
  end.
End SOTAIdentifier.

(* ===================================================================== *)
(** * The builtins on ASCII text, and sample services *)
(* ===================================================================== *)

(** These instances give the builtins their Python behaviour on the inputs
    the examples use: ASCII text, dates written with ASCII digits, floats
    far below 2^40, and the JSON documents listed in [json_documents]. *)

Definition digit_value (c : codepoint) : option Z :=
  if ascii_isdigit c then Some (Z.of_N c - 48) else None.

(** The directive [%m]: [1[0-2]|0[1-9]|[1-9]], first alternative that fits. *)
Definition read_month (s : pystr) : option (Z * pystr) :=
  match s with
  | 49%N :: c :: rest =>
      if ((48 <=? c) && (c <=? 50))%N then Some (10 + (Z.of_N c - 48), rest)
      else Some (1, c :: rest)
  | 48%N :: c :: rest =>
      if ((49 <=? c) && (c <=? 57))%N then Some (Z.of_N c - 48, rest) else None
  | c :: rest =>
      if ((49 <=? c) && (c <=? 57))%N then Some (Z.of_N c - 48, rest) else None
  | [] => None
  end.

(** The directive [%d]: [3[0-1]|[1-2]\d|0[1-9]|[1-9]| [1-9]]. *)
Definition read_day (s : pystr) : option (Z * pystr) :=
  let one_to_nine c := ((49 <=? c) && (c <=? 57))%N in
  let single :=
    match s with
    | c :: rest => if one_to_nine c then Some (Z.of_N c - 48, rest) else None
    | [] => None
    end in
  match s with
  | 51%N :: c :: rest =>
      if ((48 <=? c) && (c <=? 49))%N then Some (30 + (Z.of_N c - 48), rest) else single
  | 49%N :: c :: rest | 50%N :: c :: rest =>
      if ascii_isdigit c
      then Some (10 * (Z.of_N (default 0%N (head s)) - 48) + (Z.of_N c - 48), rest)
      else single
  | 48%N :: c :: rest => if one_to_nine c then Some (Z.of_N c - 48, rest) else None
  | 32%N :: c :: rest => if one_to_nine c then Some (Z.of_N c - 48, rest) else None
  | _ => single
  end.

(** [datetime.strptime(s, '%Y-%m-%d')] on ASCII text: four digits, a month,
    a day, nothing after, and a date that exists. *)
Definition strptime_ascii (s : pystr) : option date :=
  match s with
  | y1 :: y2 :: y3 :: y4 :: 45%N :: rest =>
      a ← digit_value y1; b ← digit_value y2; c ← digit_value y3; d ← digit_value y4;
      '(m, rest) ← read_month rest;
      match rest with
      | 45%N :: rest =>
          '(dd, rest) ← read_day rest;
          let y := 1000 * a + 100 * b + 10 * c + d in
          if bool_decide (rest = []) && (1 <=? y) && (dd <=? days_in_month y m)
          then Some (mkDate y m dd) else None
      | _ => None
      end
  | _ => None
  end.

(** [round(x, n)] for [0 <= n] and a float small enough for [x * 10^n] to
    stay below 2^53: the exact value is rounded to the nearest multiple of
    [10^-n], ties to even, and the float nearest to that decimal is
    returned. *)
Definition round_small (x : float) (n : Z) : float :=
  match Prim2SF x with
  | S754_finite sign m e =>
      if 0 <=? e then x
      else
        let num := Z.pos m * 10 ^ n in
        let den := 2 ^ (- e) in
        let q := num / den in
        let r := num mod den in
        let q := if 2 * r <? den then q
                 else if den <? 2 * r then q + 1
                 else if Z.even q then q else q + 1 in
        let y := int_truediv q (10 ^ n) in
        if sign then PrimFloat.opp y else y
  | _ => x
  end.

Definition quoted (s : pystr) : pystr := dquote ++ s ++ dquote.

(** A generated object whose method name is the empty string:
    [{"method_name": ""}]. *)
Definition json_empty_name : pystr :=
  py "{" ++ quoted (py "method_name") ++ py ": " ++ quoted [] ++ py "}".

(** A scoring reply: [[0.9, 0.4]]. *)
Definition json_two_scores : pystr := py "[0.9, 0.4]".

(** [json.loads] on the documents of the examples. Any other text is taken
    to be malformed, which the examples only rely on for plain prose. *)
Definition json_documents : list (pystr * pyval) :=
  [(json_empty_name, PDict [(py "method_name", PStr [])]);
   (json_two_scores, PList [PFloat 0.9%float; PFloat 0.4%float])].

Definition json_loads_sample (s : pystr) : option pyval := assoc_get s json_documents.

(** One order for [list(s)]: that of [elements]. *)
Definition list_of_set_sample (s : set_expr) : list pystr := elements (set_value s).

(** One choice for the sort of keys that are not ordered totally: numbers
    are placed by insertion, comparisons with NaN being false; other keys
    are refused. *)
Definition sort_choice_sample (keys : list pyval) : option (list nat) :=
  if forallb is_number keys
  then Some (sort_desc (fun a b => default false (py_lt a b))
               (fun i => default PNone (keys !! i)) (seq 0 (length keys)))
  else None.

Definition ascii_builtins : PyBuiltins :=
  {| str_lower := ascii_lower;
     chr_isdigit := ascii_isdigit;
     json_loads := json_loads_sample;
     strptime := strptime_ascii;
     py_round := round_small;
     list_of_set := list_of_set_sample;
     sort_choice := sort_choice_sample |}.

(** Services that answer every call the same way. *)
Definition constant_services (reply : outcome pystr) (found : outcome (list paper))
    (metrics_reply : scholar_reply) : services :=
  {| generation := fun _ _ => reply;
     arxiv := fun _ _ _ _ _ => found;
     scholar := fun _ _ => metrics_reply |}.

Definition service_unavailable : exn := RequestException (py "503 Service Unavailable").

Definition candidate (id_ title_ abstract_ : pystr) (published : option pystr) : paper :=
  {| paper_id := py "arXiv:" ++ id_; arxiv_id := id_; title := title_;
     abstract := abstract_; authors := [py "A. Author"];
     published_date := published; updated_date := published;
     categories := [py "cs.LG"]; url := py "http://arxiv.org/abs/" ++ id_;
     pdf_url := None; score := None; semantic_scholar_id := None;
     citation_count := None; influential_citation_count := None;
     reference_count := None; fields_of_study := None; s2_year := None |}.


Definition sample_candidates : list paper :=
  [candidate (py "2401.00001") (py "Graph neural networks for molecules")
     (py "We study molecule generation.") (Some (py "2024-01-15"));
   candidate (py "2301.00002") (py "Diffusion models")
     (py "Image synthesis with graph priors.") (Some (py "2023-01-15"))].

(** The search answers with two candidates, the generation service is down,
    the metrics service knows neither paper. *)
Definition generation_down : services :=
  constant_services (Raise service_unavailable) (Ok sample_candidates) ScholarNotFound.

(** A run of the SOTA pipeline on those services, on 1 July 2024. *)
Definition sota_run_generation_down : outcome sota_result * list event :=
  @identify_sota ascii_builtins generation_down (py "key") (mkDate 2024 7 1)
    (py "graph neural networks") 20 2 None None true [].

(** Four candidates: inside the year 2024, before it, with a date that
    cannot be read, and without a date. *)
Definition dated_candidates : list paper :=
  [candidate (py "2403.00001") (py "Inside") (py "a") (Some (py "2024-03-10"));
   candidate (py "2212.00002") (py "Before") (py "b") (Some (py "2022-12-31"));
   candidate (py "0000.00003") (py "Unreadable") (py "c") (Some (py "March 2024"));
   candidate (py "0000.00004") (py "Undated") (py "d") None].

(** An entry of [scored_papers] with the given id and stored final score. *)
Definition scored_entry (id_ : pystr) (stored : float) : ranked_paper :=
  {| r_paper_id := id_; r_arxiv_id := id_; r_title := []; r_abstract := [];
     r_authors := []; r_url := []; r_pdf_url := None; r_published_date := None;
     r_categories := []; relevance_score := 0.5%float; final_score := stored;
     metrics := mkMetrics (PInt 0) (PInt 0) (PInt 0) 0.5%float 0%float;
     sota_rank := None; relevance_reason := None |}.

(** Three scored papers, the last two tied. *)
Definition scored_sample : list ranked_paper :=
  [scored_entry (py "a") 0.5%float; scored_entry (py "b") 0.9%float;
   scored_entry (py "c") 0.9%float].

(** A reply that is prose, not JSON, and services that always give it. *)
Definition prose_reply : pystr := py "Sorry, I cannot compare these lists.".
Definition prose_services : services :=
  constant_services (Ok prose_reply) (Ok []) ScholarNotFound.

(** Services whose generation always replies [{"method_name": ""}]. *)
Definition empty_name_services : services :=
  constant_services (Ok json_empty_name) (Ok []) ScholarNotFound.

(** Services whose generation answers the first two calls and is down from
    the third on. *)
Definition flaky_services : services :=
  {| generation := fun log _ =>
       if (length log <? 2)%nat then Ok prose_reply else Raise service_unavailable;
     arxiv := fun _ _ _ _ _ => Ok [];
     scholar := fun _ _ => ScholarNotFound |}.

Definition weaknesses_sample_a : list pystr :=
  [py "Limited evaluation scope"; py "No ablation study is reported"].
Definition weaknesses_sample_b : list pystr :=
  [py "No ablation study is reported"; py "High computational cost at scale"].

Definition no_weaknesses : WeaknessAnalysis :=
  mkWeaknessAnalysis (PList []) (PList []) (PList []).

(** The text of a short paper, and a parsed paper whose only text is a
    short abstract. *)
Definition sample_text : pystr := py "We propose a method. It has limits.".
Definition short_paper : ParsedPaper :=
  mkParsedPaper (py "A") (PStr (py "A short note")) (PStr (py "Only a short abstract."))
    PNone PNone PNone.

(** Services whose generation always replies [[0.9, 0.4]], the search
    finding the two sample candidates. *)
Definition list_reply_services : services :=
  constant_services (Ok json_two_scores) (Ok sample_candidates) ScholarNotFound.

(** An analysis whose first field is a string where a list was asked for. *)
Definition mixed_analysis : WeaknessAnalysis :=
  mkWeaknessAnalysis (PStr (py "none")) (PList []) (PList []).

(** A proposed method whose components are a number. *)
Definition unjoinable_method : ProposedMethod :=
  mkProposedMethod (PStr (py "Method")) (PStr (py "Idea")) (PInt 3) (PStr (py "All")).

(** A run of the relevance ranking on the sample candidates, without a key,
    asking for one paper. *)
Definition rank_run_without_key : outcome (list paper) * list event :=
  @rank_papers ascii_builtins generation_down [] (py "graph neural networks")
    sample_candidates 1 [].

(* ===================================================================== *)
(** * Properties the theorems state *)
(* ===================================================================== *)

(** ** Runs and their logs *)

Definition is_generation_call (ev : event) : bool :=
  match ev_request ev with GroqPost _ | EnginePost _ => true | _ => false end.

Definition succeeded (ev : event) : Prop := ev_failed ev = false.

(** A computation stops at the first failed generation call: from any log,
    either no call it makes fails, or its last call is a failed call of
    [GroqClient], nothing is called after it, and the computation raises the
    exception of that call. *)
Definition fail_fast {A} (env : services) (m : M A) : Prop :=
  forall log, exists evs,
    (m log).2 = log ++ evs
    /\ (Forall succeeded evs
        \/ exists pre req e,
            evs = pre ++ [mkEvent (GroqPost req) true]
            /\ Forall succeeded pre
            /\ generation env (log ++ pre) req = Raise e
            /\ (m log).1 = Raise e).

(** ** The date window *)

(** [a <= b] on datetimes at midnight. *)
Definition date_leb (a b : date) : bool := negb (date_ltb b a).

(** A filter bound that is given can be read as a date. *)
Definition bound_ok `{PyBuiltins} (bound : option pystr) : Prop :=
  opt_truthy bound = true -> is_Some (strptime (default [] bound)).

(** A filter bound that is given but cannot be read as a date. *)
Definition bound_unreadable `{PyBuiltins} (bound : option pystr) : Prop :=
  opt_truthy bound = true /\ strptime (default [] bound) = None.

(** [pub] lies in the inclusive window of the bounds that are given and can
    be read. *)
Definition in_window `{PyBuiltins} (pub : date) (start_date end_date : option pystr) : Prop :=
  (forall start, opt_truthy start_date = true ->
                 strptime (default [] start_date) = Some start -> date_leb start pub = true)
  /\ (forall end_, opt_truthy end_date = true ->
                   strptime (default [] end_date) = Some end_ -> date_leb pub end_ = true).

(** ** The order of final scores *)

(** The place of a float that is not NaN on the number line, as a triple
    to be compared lexicographically: sign class, then exponent, then
    mantissa (both negated for negative numbers). The two zeros share a
    place. *)
Definition sf_rank (x : spec_float) : Z * Z * Z :=
  match x with
  | S754_nan | S754_zero _ => (0, 0, 0)
  | S754_infinity true => (-2, 0, 0)
  | S754_infinity false => (2, 0, 0)
  | S754_finite true m e => (-1, - e, - Z.pos m)
  | S754_finite false m e => (1, e, Z.pos m)
  end.

Definition lex_lt (a b : Z * Z * Z) : Prop :=
  a.1.1 < b.1.1
  \/ (a.1.1 = b.1.1 /\ (a.1.2 < b.1.2 \/ (a.1.2 = b.1.2 /\ a.2 < b.2))).

Definition float_rank (x : float) : Z * Z * Z := sf_rank (Prim2SF x).

(** [b <= a] on stored final scores: [a] may come before [b] in a ranking. *)
Definition score_geq (a b : ranked_paper) : Prop :=
  PrimFloat.leb (final_score b) (final_score a) = true.

Definition not_nan (p : ranked_paper) : Prop := PrimFloat.is_nan (final_score p) = false.

(** The papers whose stored final score equals [v]. *)
Definition with_score (v : float) (l : list ranked_paper) : list ranked_paper :=
  List.filter (fun p => PrimFloat.eqb (final_score p) v) l.

(** ** The keyword score in the words of the specification *)

(** The distinct words of a text, in the order of their first occurrence. *)
Definition distinct_words (s : pystr) : list pystr := remove_dups (split_ws s).

(** How many of the words [ws] occur among [others]. *)
Definition count_in (ws others : list pystr) : nat :=
  length (filter (fun w => w ∈ others) ws).

(** [min(1, 0.7 * (overlap / count) + 0.3 * (title_overlap / count) + 0.1)],
    and 0.5 when the topic has no word. *)
Definition overlap_score (topic_word_count topic_word_overlap title_word_overlap : nat)
  : float :=
  if (topic_word_count =? 0)%nat then 0.5%float
  else py_min 1%float
         (0.7 * int_truediv (Z.of_nat topic_word_overlap) (Z.of_nat topic_word_count)
          + 0.3 * int_truediv (Z.of_nat title_word_overlap) (Z.of_nat topic_word_count)
          + 0.1)%float.

(** ** What a computation adds to the log *)

(** From any log, the computation extends the log by calls that satisfy
    [R]. *)
Definition emits {A} (m : M A) (R : list event -> Prop) : Prop :=
  forall log, exists evs, (m log).2 = log ++ evs /\ R evs.

(** The generation service answers every request, and never with text that
    [json.loads] accepts once cleaned. *)
Definition answers_without_json `{PyBuiltins} (env : services) : Prop :=
  forall log req, exists response,
    generation env log req = Ok response /\ json_loads (clean_response response) = None.

(** [analysis] is the set algebra on the two lists, each set listed in some
    order: no field repeats a string, [shared] holds the strings of both
    lists, [paper_a_only] those of the first list only, [paper_b_only] those
    of the second only. *)
Definition set_algebra_of (weaknesses_a weaknesses_b : list pystr)
    (analysis : WeaknessAnalysis) : Prop :=
  exists s a b : list pystr,
    analysis
    = mkWeaknessAnalysis (PList (PStr <$> s)) (PList (PStr <$> a)) (PList (PStr <$> b))
    /\ NoDup s /\ NoDup a /\ NoDup b
    /\ (forall x, x ∈ s <-> x ∈ weaknesses_a /\ x ∈ weaknesses_b)
    /\ (forall x, x ∈ a <-> x ∈ weaknesses_a /\ x ∉ weaknesses_b)
    /\ (forall x, x ∈ b <-> x ∈ weaknesses_b /\ x ∉ weaknesses_a).

(** A value that is [None] or a string: what the debug lines of [parse_pdf]
    can slice and measure. *)
Definition textual (v : pyval) : bool :=
  match v with PNone | PStr _ => true | _ => false end.

(** How many times a character occurs in a string. *)
Definition count_chr (c : codepoint) (s : list codepoint) : nat :=
  length (filter (fun x => x = c) s).

(** The backtick, of which code fences are made. *)
Definition backtick : codepoint := 96%N.

(** At most [n] calls, each satisfying [Q]. *)
Definition at_most (n : nat) (Q : event -> Prop) (evs : list event) : Prop :=
  (length evs <= n)%nat /\ Forall Q evs.

(** A call of [_extract_from_section]: a weakness prompt at temperature 0.4
    and 1000 tokens, showing at most 3000 characters (or items). *)
Definition weakness_request (ev : event) : Prop :=
  exists section_name shown n,
    ev_request ev = GroqPost (mkChat (WeaknessPrompt section_name shown) 0.4%float 1000)
    /\ py_len shown = Ok n /\ (n <= 3000)%nat.

(** A section that is absent or holds at most 50 characters. *)
Definition short_text (v : pyval) : bool :=
  match v with PNone => true | PStr s => (length s <=? 50)%nat | _ => false end.

(** The record [parse_pdf] builds when the reply is not JSON. *)
Definition unparsed_paper (text paper_id : pystr) : ParsedPaper :=
  mkParsedPaper paper_id (PStr (py "Unknown"))
    (if bool_decide (text = []) then PNone else PStr (take 500 text))
    (if bool_decide (text = []) then PNone else PStr (take 2000 text))
    PNone PNone.

(** Whether a value is a list, or a string. *)
Definition is_list (v : pyval) : bool := match v with PList _ => true | _ => false end.
Definition is_str (v : pyval) : bool := match v with PStr _ => true | _ => false end.

(** Kinds of calls. *)
Definition is_groq_call (ev : event) : bool :=
  match ev_request ev with GroqPost _ => true | _ => false end.
Definition is_scholar_call (ev : event) : bool :=
  match ev_request ev with ScholarGet _ => true | _ => false end.

(* ===================================================================== *)
(** * Proofs: the monad, and what a generation call leaves in the log *)
(* ===================================================================== *)

Ltac unfold_monad :=
  unfold bind, ret, raise, lift, try_except in *.

Lemma fold_left_invariant {A S} (P : S -> Prop) (step : S -> A -> S) (xs : list A) (acc : S) :
  P acc -> (forall a x, P a -> P (step a x)) -> P (fold_left step xs acc).
Proof.
  revert acc. induction xs as [|x xs IH]; intros acc Hacc Hstep; simpl; auto.
Qed.

(** [chat_completion] makes exactly one call and hands back its outcome. *)
Lemma chat_completion_run env p t n log :
  chat_completion env p t n log
  = (generation env log (mkChat p t n),
     log ++ [mkEvent (GroqPost (mkChat p t n))
               (match generation env log (mkChat p t n) with
                | Ok _ => false | Raise _ => true end)]).
Proof.
  unfold chat_completion, groq_post. unfold_monad.
  destruct (generation env log (mkChat p t n)); reflexivity.
Qed.

(* ===================================================================== *)
(** * Bullet lists *)
(* ===================================================================== *)

Lemma normalize_step_long (acc : list pystr) (line : pystr) :
  Forall (fun w => 11 <= length w)%nat acc ->
  Forall (fun w => 11 <= length w)%nat (normalize_step acc line).
Proof.
  intros Hacc. unfold normalize_step.
  destruct (is_bullet_line (strip line)); [|assumption].
  destruct (negb _ && (10 <? _)%nat) eqn:E; [|assumption].
  apply andb_true_iff in E as [_ E]. apply Nat.ltb_lt in E.
  apply Forall_app. split; [assumption|].
  constructor; [lia|constructor].
Qed.

Lemma parse_normalized_long (response : pystr) :
  Forall (fun w => 11 <= length w)%nat (parse_normalized response).
Proof.
  unfold parse_normalized.
  apply (fold_left_invariant (Forall (fun w => 11 <= length w)%nat)).
  - constructor.
  - intros a x Ha. now apply normalize_step_long.
Qed.

Lemma fold_left_append {A B} (step : list B -> A -> list B) (f : A -> list B)
    (xs : list A) (acc : list B) :
  (forall a x, step a x = a ++ f x) ->
  fold_left step xs acc = acc ++ concat (f <$> xs).
Proof.
  intros Hstep. revert acc. induction xs as [|x xs IH]; intros acc; simpl.
  - now rewrite app_nil_r.
  - rewrite IH, Hstep. now rewrite <- app_assoc.
Qed.

Lemma concat_keep_omap {A B} (g : A -> option B) (keep : B -> bool) (xs : list A) :
  concat ((fun x => match g x with
                    | Some y => if keep y then [y] else []
                    | None => []
                    end) <$> xs)
  = List.filter keep (omap g xs).
Proof.
  induction xs as [|x xs IH]; [reflexivity|].
  cbn [fmap list_fmap concat omap list_omap]. rewrite IH.
  destruct (g x) as [y|]; [|reflexivity].
  cbn [List.filter]. destruct (keep y); reflexivity.
Qed.

Lemma parse_normalized_filter (response : pystr) :
  parse_normalized response
  = List.filter (fun w => (10 <? length w)%nat) (bullet_items response).
Proof.
  unfold parse_normalized, bullet_items.
  rewrite <- concat_keep_omap.
  rewrite (fold_left_append normalize_step
             (fun x => match (let line := strip x in
                              if is_bullet_line line
                              then Some (strip (lstrip_chars bullet_chars line)) else None) with
                       | Some y => if (10 <? length y)%nat then [y] else []
                       | None => []
                       end)); [reflexivity|].
  intros a x. unfold normalize_step. cbv zeta.
  destruct (is_bullet_line (strip x)); [|now rewrite app_nil_r].
  destruct (strip (lstrip_chars bullet_chars (strip x))) as [|c w].
  - simpl. now rewrite app_nil_r.
  - rewrite bool_decide_eq_false_2 by discriminate. simpl negb. rewrite andb_true_l.
    destruct (10 <? length (c :: w))%nat; [reflexivity|now rewrite app_nil_r].
Qed.

(** C9. [normalize] on the empty list returns the empty list and leaves the
    log of service calls as it was. On any input, every string it returns
    has at least 11 characters: when the generation call answers, the result
    is the bulleted items of the reply without those of 10 characters or
    fewer. *)
Theorem normalize_contract (env : services) :
  (forall log, normalize env [] log = (Ok [], log)) /\
  (forall raw log out,
      (normalize env raw log).1 = Ok out ->
      Forall (fun w => 11 <= length w)%nat out) /\
  (forall raw log response,
      raw <> [] ->
      generation env log (mkChat (NormalizePrompt raw) 0.2%float 800) = Ok response ->
      (normalize env raw log).1
      = Ok (List.filter (fun w => (10 <? length w)%nat) (bullet_items response))).
Proof.
  split; [reflexivity|]. split.
  - intros raw log out Hrun. destruct raw as [|w raw].
    + simpl in Hrun. injection Hrun as <-. constructor.
    + unfold normalize in Hrun. unfold bind in Hrun.
      rewrite chat_completion_run in Hrun.
      destruct (generation env log _) as [response|e]; simpl in Hrun; [|discriminate].
      injection Hrun as <-. apply parse_normalized_long.
  - intros raw log response Hne Hgen. destruct raw as [|w raw]; [congruence|].
    unfold normalize, bind. rewrite chat_completion_run, Hgen. simpl.
    now rewrite parse_normalized_filter.
Qed.

(** [normalize] on one raw weakness, the reply holding a long and a short
    bullet. *)
Lemma normalize_contract_witness :
  (normalize (constant_services
                (Ok (py "- Limited evaluation scope" ++ [LF] ++ py "- Too small"))
                (Ok []) ScholarNotFound)
     [py "small benchmark"] []).1
  = Ok [py "Limited evaluation scope"]
  /\ Forall (fun w => 11 <= length w)%nat [py "Limited evaluation scope"].
Proof.
  pose proof (normalize_contract
                (constant_services
                   (Ok (py "- Limited evaluation scope" ++ [LF] ++ py "- Too small"))
                   (Ok []) ScholarNotFound)) as [_ [Hlong Hfilter]].
  assert (Hrun : (normalize (constant_services
                (Ok (py "- Limited evaluation scope" ++ [LF] ++ py "- Too small"))
                (Ok []) ScholarNotFound)
     [py "small benchmark"] []).1
  = Ok [py "Limited evaluation scope"]).
  { rewrite (Hfilter [py "small benchmark"] []
               (py "- Limited evaluation scope" ++ [LF] ++ py "- Too small")).
    - vm_compute. reflexivity.
    - discriminate.
    - reflexivity. }
  split; [exact Hrun|].
  exact (Hlong _ _ _ Hrun).
Defined.

(** C5, at the input that shows the defect. The numbered branch of the line
    loop of [_extract_from_section] tests the item against "none" and "n/a"
    only, so the one-line reply [1. Not applicable] yields the item
    [Not applicable]; the bullet branch, on [- Not applicable], discards
    it. *)
Theorem numbered_not_applicable_is_kept :
  @parse_weaknesses ascii_builtins (py "1. Not applicable") = [py "Not applicable"]
  /\ @parse_weaknesses ascii_builtins (py "- Not applicable") = [].
Proof. split; vm_compute; reflexivity. Qed.

(** The same holds for any builtins that agree with Python on the two facts
    used: the character [1] is a digit, and the lower case of
    [Not applicable] is [not applicable]. *)
Lemma numbered_not_applicable_general `{PyBuiltins} :
  chr_isdigit 49%N = true ->
  str_lower (py "Not applicable") = py "not applicable" ->
  parse_weaknesses (py "1. Not applicable") = [py "Not applicable"]
  /\ parse_weaknesses (py "- Not applicable") = [].
Proof.
  intros Hdigit Hlower. split.
  - unfold parse_weaknesses.
    change (split_chr LF (py "1. Not applicable")) with [py "1. Not applicable"].
    cbn [fold_left]. unfold weakness_step.
    change (strip (py "1. Not applicable")) with (py "1. Not applicable").
    change (is_bullet_line (py "1. Not applicable")) with false. cbv iota.
    change (nth 0 (py "1. Not applicable") 0%N) with 49%N. rewrite Hdigit.
    change (strip (drop 2 (py "1. Not applicable"))) with (py "Not applicable").
    rewrite Hlower. reflexivity.
  - unfold parse_weaknesses.
    change (split_chr LF (py "- Not applicable")) with [py "- Not applicable"].
    cbn [fold_left]. unfold weakness_step.
    change (strip (py "- Not applicable")) with (py "- Not applicable").
    change (is_bullet_line (py "- Not applicable")) with true. cbv iota.
    change (strip (lstrip_chars bullet_chars (py "- Not applicable")))
      with (py "Not applicable").
    rewrite Hlower. reflexivity.
Qed.

(** The four-line example of the specification is parsed as it says. *)
Lemma parse_weaknesses_example :
  @parse_weaknesses ascii_builtins
    (py "- Weak sample size" ++ [LF] ++ py "* N/A" ++ [LF]
       ++ py "1. Missing baseline" ++ [LF] ++ py "random prose")
  = [py "Weak sample size"; py "Missing baseline"].
Proof. vm_compute. reflexivity. Qed.

(* ===================================================================== *)
(** * Weakness fusion *)
(* ===================================================================== *)

Section Fusion.
Context `{PyBuiltins} (env : services).

(** Whatever order the interpreter lists a set in, the list holds exactly the
    elements of the set, each once. *)
Lemma py_list_of_set_elements (s : set_expr) :
  NoDup (py_list_of_set s) /\ forall x, x ∈ py_list_of_set s <-> x ∈ set_value s.
Proof.
  unfold py_list_of_set. cbv zeta.
  destruct (bool_decide (NoDup (list_of_set s) /\ list_to_set (list_of_set s) = set_value s))
    eqn:E.
  - apply bool_decide_eq_true in E as [Hnd Heq]. split; [exact Hnd|].
    intros x. rewrite <- Heq. symmetry. apply elem_of_list_to_set.
  - split; [apply NoDup_elements|]. intros x. apply elem_of_elements.
Qed.

Lemma analyze_on_parse_failure weaknesses_a weaknesses_b log response :
  generation env log (mkChat (FusionPrompt weaknesses_a weaknesses_b) 0.2%float 1500)
  = Ok response ->
  json_loads (clean_response response) = None ->
  (analyze env weaknesses_a weaknesses_b log).1
  = Ok (set_fallback weaknesses_a weaknesses_b).
Proof.
  intros Hgen Hjson. unfold analyze, bind.
  rewrite chat_completion_run, Hgen. unfold lift, analyze_decode, loads.
  rewrite Hjson. reflexivity.
Qed.

Lemma set_fallback_algebra (weaknesses_a weaknesses_b : list pystr) :
  set_algebra_of weaknesses_a weaknesses_b (set_fallback weaknesses_a weaknesses_b).
Proof.
  exists (py_list_of_set (SetAnd weaknesses_a weaknesses_b)),
    (py_list_of_set (SetMinus weaknesses_a weaknesses_b)),
    (py_list_of_set (SetMinus weaknesses_b weaknesses_a)).
  destruct (py_list_of_set_elements (SetAnd weaknesses_a weaknesses_b)) as [Ns Es].
  destruct (py_list_of_set_elements (SetMinus weaknesses_a weaknesses_b)) as [Na Ea].
  destruct (py_list_of_set_elements (SetMinus weaknesses_b weaknesses_a)) as [Nb Eb].
  split; [reflexivity|]. split; [exact Ns|]. split; [exact Na|]. split; [exact Nb|].
  split; [|split]; intros x; rewrite ?Es, ?Ea, ?Eb; cbn [set_value];
    rewrite ?elem_of_intersection, ?elem_of_difference, !elem_of_list_to_set; tauto.
Qed.

(** C1. When [json.loads] rejects the reply of the fusion stage, [analyze]
    returns three lists of strings: [shared] holds exactly the strings that
    are in both inputs, [paper_a_only] those of the first input that are not
    in the second, [paper_b_only] those of the second that are not in the
    first. No list repeats a string, no string is in two of the lists, and
    together they hold exactly the strings of the two inputs. *)
Theorem analyze_fallback_partition weaknesses_a weaknesses_b log response :
  generation env log (mkChat (FusionPrompt weaknesses_a weaknesses_b) 0.2%float 1500)
  = Ok response ->
  json_loads (clean_response response) = None ->
  exists s a b : list pystr,
    (analyze env weaknesses_a weaknesses_b log).1
    = Ok (mkWeaknessAnalysis (PList (PStr <$> s)) (PList (PStr <$> a)) (PList (PStr <$> b)))
    /\ (forall x, x ∈ s <-> x ∈ weaknesses_a /\ x ∈ weaknesses_b)
    /\ (forall x, x ∈ a <-> x ∈ weaknesses_a /\ x ∉ weaknesses_b)
    /\ (forall x, x ∈ b <-> x ∈ weaknesses_b /\ x ∉ weaknesses_a)
    /\ NoDup s /\ NoDup a /\ NoDup b
    /\ (forall x, ~ (x ∈ s /\ x ∈ a))
    /\ (forall x, ~ (x ∈ s /\ x ∈ b))
    /\ (forall x, ~ (x ∈ a /\ x ∈ b))
    /\ (forall x, x ∈ s ++ a ++ b <-> x ∈ weaknesses_a \/ x ∈ weaknesses_b).
Proof.
  intros Hgen Hjson.
  set (A := list_to_set weaknesses_a : gset pystr).
  set (B := list_to_set weaknesses_b : gset pystr).
  exists (py_list_of_set (SetAnd weaknesses_a weaknesses_b)),
    (py_list_of_set (SetMinus weaknesses_a weaknesses_b)),
    (py_list_of_set (SetMinus weaknesses_b weaknesses_a)).
  split; [now apply (analyze_on_parse_failure _ _ _ response)|].
  destruct (py_list_of_set_elements (SetAnd weaknesses_a weaknesses_b)) as [Ns Es].
  destruct (py_list_of_set_elements (SetMinus weaknesses_a weaknesses_b)) as [Na Ea].
  destruct (py_list_of_set_elements (SetMinus weaknesses_b weaknesses_a)) as [Nb Eb].
  assert (HA : forall x, x ∈ A <-> x ∈ weaknesses_a) by (intros; apply elem_of_list_to_set).
  assert (HB : forall x, x ∈ B <-> x ∈ weaknesses_b) by (intros; apply elem_of_list_to_set).
  assert (Hs : forall x, x ∈ py_list_of_set (SetAnd weaknesses_a weaknesses_b)
                         <-> x ∈ weaknesses_a /\ x ∈ weaknesses_b).
  { intros x. rewrite Es. cbn [set_value]. fold A B.
    rewrite elem_of_intersection, HA, HB. tauto. }
  assert (Ha : forall x, x ∈ py_list_of_set (SetMinus weaknesses_a weaknesses_b)
                         <-> x ∈ weaknesses_a /\ x ∉ weaknesses_b).
  { intros x. rewrite Ea. cbn [set_value]. fold A B.
    rewrite elem_of_difference, HA, HB. tauto. }
  assert (Hb : forall x, x ∈ py_list_of_set (SetMinus weaknesses_b weaknesses_a)
                         <-> x ∈ weaknesses_b /\ x ∉ weaknesses_a).
  { intros x. rewrite Eb. cbn [set_value]. fold A B.
    rewrite elem_of_difference, HA, HB. tauto. }
  split; [exact Hs|]. split; [exact Ha|]. split; [exact Hb|].
  split; [exact Ns|]. split; [exact Na|].
  split; [exact Nb|].
  split; [intros x; rewrite Hs, Ha; tauto|].
  split; [intros x; rewrite Hs, Hb; tauto|].
  split; [intros x; rewrite Ha, Hb; tauto|].
  intros x. rewrite !elem_of_app, Hs, Ha, Hb.
  destruct (decide (x ∈ weaknesses_a)), (decide (x ∈ weaknesses_b)); tauto.
Qed.
End Fusion.

(* ===================================================================== *)
(** * Method synthesis *)
(* ===================================================================== *)

Lemma default_method_populated :
  method_name default_method = PStr (py "Unified Adaptive Hybrid Framework")
  /\ (exists l, components default_method = PList l /\ length l = 4%nat
                /\ Forall (fun c => exists s, c = PStr s /\ s <> []) l)
  /\ (exists s, core_idea default_method = PStr s /\ s <> [])
  /\ (exists s, addresses_weaknesses default_method = PStr s /\ s <> []).
Proof.
  split; [reflexivity|]. split.
  - eexists. split; [reflexivity|]. split; [reflexivity|].
    repeat constructor; eexists; (split; [reflexivity|discriminate]).
  - split; eexists; (split; [reflexivity|discriminate]).
Qed.

Section Synthesis.
Context `{PyBuiltins} (env : services).

(** What the [try] block of [synthesize] yields, by the shape of the parsed
    reply. *)
Lemma synthesize_decode_cases (response : pystr) :
  otry (synthesize_decode response) is_Exception (fun _ => Ok default_method)
  = Ok match json_loads (clean_response response) with
       | Some (PDict d) =>
           mkProposedMethod
             (default (PStr (py "Unified Adaptive Framework")) (assoc_get (py "method_name") d))
             (default (PStr []) (assoc_get (py "core_idea") d))
             (default (PList []) (assoc_get (py "components") d))
             (default (PStr []) (assoc_get (py "addresses_weaknesses") d))
       | _ => default_method
       end.
Proof.
  unfold synthesize_decode, loads.
  destruct (json_loads (clean_response response)) as [[| | | | | |d]|]; reflexivity.
Qed.

(** C7, as the code has it. Whenever [synthesize] returns, the generation
    call answered, and the record is one of two. When [json.loads] rejects
    the cleaned reply, or yields something that is not an object, it is the
    fixed default record, whose name is not empty and which has four
    components. Otherwise it is the record of the object's own values, the
    name being "Unified Adaptive Framework" when the object has no
    [method_name]: the name is then as empty or not as the object's. *)
Theorem synthesize_returns (analysis : WeaknessAnalysis) (title_a title_b : pyval)
    (log : list event) (pm : ProposedMethod) :
  (synthesize env analysis title_a title_b log).1 = Ok pm ->
  exists response,
    generation env log (mkChat (SynthesisPrompt title_a title_b analysis) 0.5%float 2500)
    = Ok response
    /\ match json_loads (clean_response response) with
       | Some (PDict d) =>
           pm = mkProposedMethod
                  (default (PStr (py "Unified Adaptive Framework"))
                     (assoc_get (py "method_name") d))
                  (default (PStr []) (assoc_get (py "core_idea") d))
                  (default (PList []) (assoc_get (py "components") d))
                  (default (PStr []) (assoc_get (py "addresses_weaknesses") d))
       | _ =>
           pm = default_method
           /\ method_name pm = PStr (py "Unified Adaptive Hybrid Framework")
           /\ exists l, components pm = PList l /\ length l = 4%nat
       end.
Proof.
  intros Hrun.
  unfold synthesize, bind, lift in Hrun.
  destruct (obind (py_add _ _) _); [|discriminate].
  destruct (bullets_of (shared analysis)); [|discriminate].
  destruct (bullets_of (paper_a_only analysis)); [|discriminate].
  destruct (bullets_of (paper_b_only analysis)); [|discriminate].
  rewrite chat_completion_run in Hrun.
  destruct (generation env log _) as [response|e]; [|discriminate].
  exists response. split; [reflexivity|].
  rewrite synthesize_decode_cases in Hrun. simpl in Hrun. injection Hrun as <-.
  destruct (json_loads (clean_response response)) as [[| | | | | |d]|];
    try reflexivity;
    (split; [reflexivity|split; [reflexivity|eexists; split; reflexivity]]).
Qed.
End Synthesis.

(* ===================================================================== *)
(** * Failed generation calls in the synthesis pipeline *)
(* ===================================================================== *)

Section FailFast.
Context (env : services).

Lemma fail_fast_pure {A} (o : outcome A) : fail_fast env (lift o).
Proof.
  intros log. exists []. split; [now rewrite app_nil_r|]. left. constructor.
Qed.

Lemma fail_fast_ret {A} (a : A) : fail_fast env (ret a).
Proof. apply (fail_fast_pure (Ok a)). Qed.

Lemma fail_fast_chat p t n : fail_fast env (chat_completion env p t n).
Proof.
  intros log. rewrite chat_completion_run.
  eexists. split; [reflexivity|].
  destruct (generation env log (mkChat p t n)) as [text|e] eqn:E.
  - left. repeat constructor.
  - right. exists [], (mkChat p t n), e.
    split; [reflexivity|]. split; [constructor|].
    split; [now rewrite app_nil_r|reflexivity].
Qed.

Lemma fail_fast_bind {A B} (m : M A) (k : A -> M B) :
  fail_fast env m -> (forall a, fail_fast env (k a)) -> fail_fast env (bind m k).
Proof.
  intros Hm Hk log. unfold bind.
  destruct (Hm log) as (evs1 & Hlog1 & Hcase1).
  destruct (m log) as [[a|e] log1] eqn:Em; simpl in *; subst log1.
  - destruct Hcase1 as [Hok1|(pre & req & e & _ & _ & _ & Hraise)]; [|discriminate].
    destruct (Hk a (log ++ evs1)) as (evs2 & Hlog2 & Hcase2).
    exists (evs1 ++ evs2). split; [now rewrite Hlog2, app_assoc|].
    destruct Hcase2 as [Hok2|(pre & req & e & -> & Hpre & Hgen & Hraise)].
    + left. now apply Forall_app.
    + right. exists (evs1 ++ pre), req, e.
      split; [now rewrite app_assoc|]. split; [now apply Forall_app|].
      split; [now rewrite app_assoc|assumption].
  - exists evs1. split; [reflexivity|].
    destruct Hcase1 as [Hok1|(pre & req & e' & Hevs & Hpre & Hgen & Hraise)];
      [now left|].
    right. exists pre, req, e'. injection Hraise as ->. auto.
Qed.

Lemma fail_fast_for_each {A S} (body : S -> A -> M S) (xs : list A) (acc : S) :
  (forall a x, fail_fast env (body a x)) -> fail_fast env (for_each body xs acc).
Proof.
  intros Hbody. revert acc. induction xs as [|x xs IH]; intros acc; simpl.
  - apply fail_fast_ret.
  - apply fail_fast_bind; [apply Hbody|apply IH].
Qed.
End FailFast.

Ltac fail_fast_step :=
  match goal with
  | |- fail_fast _ (bind _ _) => apply fail_fast_bind; [|intros ?]
  | |- fail_fast _ (lift _) => apply fail_fast_pure
  | |- fail_fast _ (ret _) => apply fail_fast_ret
  | |- fail_fast _ (chat_completion _ _ _ _) => apply fail_fast_chat
  | |- fail_fast _ (if ?c then _ else _) => destruct c
  | |- fail_fast _ (match ?x with _ => _ end) => destruct x
  end.

Section Pipeline.
Context `{PyBuiltins} (env : services).

Lemma fail_fast_parse_pdf text paper_id : fail_fast env (parse_pdf env text paper_id).
Proof. unfold parse_pdf. repeat fail_fast_step. Qed.

Lemma fail_fast_extract_from_section name text :
  fail_fast env (_extract_from_section env name text).
Proof. unfold _extract_from_section. repeat fail_fast_step. Qed.

Lemma fail_fast_extract_from_paper p : fail_fast env (extract_from_paper env p).
Proof.
  unfold extract_from_paper.
  apply fail_fast_bind.
  - apply fail_fast_for_each. intros a [name text]. unfold section_step.
    destruct (truthy text); [|apply fail_fast_ret].
    apply fail_fast_bind; [apply fail_fast_pure|]. intros n.
    destruct (50 <? n)%nat; [|apply fail_fast_ret].
    apply fail_fast_bind; [apply fail_fast_extract_from_section|].
    intros. apply fail_fast_ret.
  - intros ws. apply fail_fast_bind; [|intros; apply fail_fast_ret].
    destruct (_ && _); [|apply fail_fast_ret].
    apply fail_fast_bind; [apply fail_fast_extract_from_section|].
    intros. apply fail_fast_ret.
Qed.

Lemma fail_fast_normalize raw : fail_fast env (normalize env raw).
Proof. unfold normalize. destruct raw; repeat fail_fast_step. Qed.

Lemma fail_fast_analyze a b : fail_fast env (analyze env a b).
Proof. unfold analyze. repeat fail_fast_step. Qed.

Lemma fail_fast_synthesize analysis ta tb : fail_fast env (synthesize env analysis ta tb).
Proof. unfold synthesize. repeat fail_fast_step. Qed.

Lemma fail_fast_generate_comparison pa pb wa wb pm :
  fail_fast env (generate_comparison env pa pb wa wb pm).
Proof. unfold generate_comparison. repeat fail_fast_step. Qed.

Lemma fail_fast_process text_a text_b : fail_fast env (process env text_a text_b).
Proof.
  unfold process.
  apply fail_fast_bind; [apply fail_fast_parse_pdf|intros paper_a].
  apply fail_fast_bind; [apply fail_fast_parse_pdf|intros paper_b].
  apply fail_fast_bind; [apply fail_fast_extract_from_paper|intros weaknesses_a].
  apply fail_fast_bind; [apply fail_fast_extract_from_paper|intros weaknesses_b].
  apply fail_fast_bind; [apply fail_fast_normalize|intros normalized_a].
  apply fail_fast_bind; [apply fail_fast_normalize|intros normalized_b].
  apply fail_fast_bind; [apply fail_fast_analyze|intros analysis].
  apply fail_fast_bind; [apply fail_fast_synthesize|intros proposed].
  apply fail_fast_bind; [apply fail_fast_generate_comparison|intros comparison].
  apply fail_fast_ret.
Qed.
End Pipeline.

Section Fatal.
Context `{PyBuiltins} (env : services).

(** A failed call during [process] is the last call of the run, and the
    run raises its exception. *)
Lemma process_stops_at_failed_call (text_a text_b : pystr)
    (log pre post : list event) (ev : event) :
  (process env text_a text_b log).2 = log ++ pre ++ ev :: post ->
  ev_failed ev = true ->
  post = []
  /\ exists req e,
      ev = mkEvent (GroqPost req) true
      /\ generation env (log ++ pre) req = Raise e
      /\ (process env text_a text_b log).1 = Raise e.
Proof.
  intros Hlog Hfailed.
  destruct (fail_fast_process env text_a text_b log) as (evs & Hevs & Hcase).
  rewrite Hevs in Hlog. apply app_inv_head in Hlog. subst evs.
  destruct Hcase as [Hok|(pre' & req & e & Heq & Hpre & Hgen & Hraise)].
  - apply Forall_app in Hok as [_ Hok]. inversion Hok as [|? ? Hev _]; subst.
    unfold succeeded in Hev. congruence.
  - destruct post as [|z post _] using rev_ind.
    + apply app_inj_tail in Heq as [-> ->].
      split; [reflexivity|]. exists req, e. auto.
    + exfalso. change (pre ++ ev :: post ++ [z]) with (pre ++ (ev :: post) ++ [z]) in Heq.
      rewrite app_assoc in Heq. apply app_inj_tail in Heq as [<- _].
      apply Forall_app in Hpre as [_ Hpre]. inversion Hpre as [|? ? Hev _]; subst.
      unfold succeeded in Hev. congruence.
Qed.

(** In the SOTA pipeline the relevance scorer recovers from a failed
    generation call: it returns the keyword scores. *)
Lemma score_papers_recovers (api_key query : pystr) (papers : list paper)
    (log : list event) (e : exn) :
  api_key <> [] ->
  generation env log (mkChat (RelevancePrompt query (title <$> take 15 papers)) 0.1%float 200)
  = Raise e ->
  _score_papers env api_key query papers log
  = (Ok (_keyword_score_papers query papers),
     log ++ [mkEvent (EnginePost (mkChat (RelevancePrompt query (title <$> take 15 papers))
                                    0.1%float 200)) true]).
Proof.
  intros Hkey Hgen. unfold _score_papers.
  rewrite bool_decide_eq_false_2 by assumption.
  unfold try_except, _llm_score_papers, bind, engine_post. rewrite Hgen. reflexivity.
Qed.

(** It also returns the keyword scores when the reply is not JSON. *)
Lemma score_papers_on_malformed_reply (api_key query : pystr) (papers : list paper)
    (log : list event) (reply : pystr) :
  api_key <> [] ->
  generation env log (mkChat (RelevancePrompt query (title <$> take 15 papers)) 0.1%float 200)
  = Ok reply ->
  json_loads (strip (str_replace (py "```") []
                       (str_replace (py "```json") [] (strip reply)))) = None ->
  (_score_papers env api_key query papers log).1 = Ok (_keyword_score_papers query papers).
Proof.
  intros Hkey Hgen Hjson. unfold _score_papers.
  rewrite bool_decide_eq_false_2 by assumption.
  unfold try_except, _llm_score_papers, bind, engine_post. rewrite Hgen. simpl.
  unfold lift, apply_scores, loads. rewrite Hjson. reflexivity.
Qed.

(** So does the explanation step: it returns a fixed sentence. *)
Lemma explanation_recovers (api_key query : pystr) (p : ranked_paper)
    (log : list event) (e : exn) :
  api_key <> [] ->
  generation env log
    (mkChat (ExplanationPrompt query (r_title p) (take 500 (r_abstract p))) 0.3%float 100)
  = Raise e ->
  (compute_relevance_explanation env api_key query p log).1 = Ok explanation_on_failure.
Proof.
  intros Hkey Hgen. unfold compute_relevance_explanation.
  rewrite bool_decide_eq_false_2 by assumption.
  unfold try_except, bind, engine_post. rewrite Hgen. reflexivity.
Qed.

(** C4, as the code has it. In the synthesis pipeline a failed generation
    call is fatal: if a call made during [ResearchPipeline.process] fails,
    it is a generation call of [GroqClient], it is the last call of the run
    (nothing is retried and no later stage runs), and [process] raises the
    exception of that call instead of returning results. In the SOTA
    pipeline a failed generation call is recovered: the relevance scorer
    returns the keyword scores and the explanation step a fixed sentence. *)
Theorem generation_failure_handling :
  (forall text_a text_b log pre post ev,
      (process env text_a text_b log).2 = log ++ pre ++ ev :: post ->
      ev_failed ev = true ->
      post = []
      /\ exists req e,
          ev = mkEvent (GroqPost req) true
          /\ generation env (log ++ pre) req = Raise e
          /\ (process env text_a text_b log).1 = Raise e)
  /\ (forall api_key query papers log e,
        api_key <> [] ->
        generation env log
          (mkChat (RelevancePrompt query (title <$> take 15 papers)) 0.1%float 200)
        = Raise e ->
        (_score_papers env api_key query papers log).1
        = Ok (_keyword_score_papers query papers))
  /\ (forall api_key query p log e,
        api_key <> [] ->
        generation env log
          (mkChat (ExplanationPrompt query (r_title p) (take 500 (r_abstract p)))
             0.3%float 100)
        = Raise e ->
        (compute_relevance_explanation env api_key query p log).1
        = Ok explanation_on_failure).
Proof.
  split; [apply process_stops_at_failed_call|]. split.
  - intros api_key query papers log e Hkey Hgen.
    now rewrite (score_papers_recovers api_key query papers log e Hkey Hgen).
  - apply explanation_recovers.
Qed.
End Fatal.

(** C4 as stated fails in the SOTA pipeline: with the generation service
    down, every generation call of the run fails, and [identify_sota] still
    returns its two ranked papers. *)
Lemma generation_failure_not_fatal_for_sota :
  match sota_run_generation_down.1 with
  | Ok result => length (sota_papers result) = 2%nat
  | Raise _ => False
  end
  /\ existsb (fun ev => is_generation_call ev && ev_failed ev) sota_run_generation_down.2
     = true.
Proof. vm_compute. split; reflexivity. Qed.

(* ===================================================================== *)
(** * The published-date filter *)
(* ===================================================================== *)

Section DateFilter.
Context `{PyBuiltins}.

Lemma date_window_read (pub_date : pystr) (pub : date) (start_date end_date : option pystr) :
  strptime pub_date = Some pub ->
  match date_window pub_date start_date end_date with
  | Ok b => b = true <-> in_window pub start_date end_date
  | Raise e => e = ValueError
               /\ (bound_unreadable start_date \/ in_window pub start_date end_date)
  end.
Proof.
  intros Hpub.
  assert (Hlo : forall start,
             strptime (default [] start_date) = Some start ->
             date_ltb pub start = false ->
             forall d, opt_truthy start_date = true ->
                       strptime (default [] start_date) = Some d ->
                       date_leb d pub = true).
  { intros start Hstart Lt d _ Hd. unfold date_leb. rewrite Hstart in Hd.
    injection Hd as <-. now rewrite Lt. }
  assert (Hhi : forall after : bool,
             match (after' <-! (if opt_truthy end_date
                                then end_ <-! parse_date (default [] end_date);;
                                     Ok (date_ltb end_ pub)
                                else Ok false);;
                    Ok (negb after')) with
             | Ok b =>
                 b = true
                 <-> (forall end_, opt_truthy end_date = true ->
                                   strptime (default [] end_date) = Some end_ ->
                                   date_leb pub end_ = true)
             | Raise e =>
                 e = ValueError
                 /\ (forall end_, opt_truthy end_date = true ->
                                  strptime (default [] end_date) = Some end_ ->
                                  date_leb pub end_ = true)
             end).
  { intros _. unfold parse_date.
    destruct (opt_truthy end_date) eqn:Te; cbn [obind].
    - destruct (strptime (default [] end_date)) as [end_|] eqn:Hend; cbn [obind].
      + unfold date_leb. split.
        * intros Hb d _ [= <-]. exact Hb.
        * intros Hall. exact (Hall end_ eq_refl eq_refl).
      + split; [reflexivity|]. intros d _ Hd. discriminate.
    - split; [intros _ d Ht; discriminate|reflexivity]. }
  specialize (Hhi false).
  unfold date_window, in_window, bound_unreadable.
  unfold parse_date at 1. rewrite Hpub. cbn [obind].
  destruct (opt_truthy start_date) eqn:Ts.
  - unfold parse_date at 1.
    destruct (strptime (default [] start_date)) as [start|] eqn:Hstart; cbn [obind].
    + destruct (date_ltb pub start) eqn:Lt.
      * split; [discriminate|]. intros [Hs _].
        specialize (Hs start eq_refl eq_refl). unfold date_leb in Hs.
        rewrite Lt in Hs. discriminate.
      * destruct (_ <-! _;; Ok (negb _)) as [b|e].
        -- rewrite Hhi. split; [intros Hb; split; [now apply (Hlo start)|exact Hb]|].
           intros [_ Hb]. exact Hb.
        -- destruct Hhi as [-> Hb]. split; [reflexivity|]. right.
           split; [now apply (Hlo start)|exact Hb].
    + split; [reflexivity|]. left. split; reflexivity.
  - cbn [obind].
    destruct (_ <-! _;; Ok (negb _)) as [b|e].
    + rewrite Hhi. split; [intros Hb; split; [intros d Ht; discriminate|exact Hb]|].
      intros [_ Hb]. exact Hb.
    + destruct Hhi as [-> Hb]. split; [reflexivity|]. right.
      split; [intros d Ht; discriminate|exact Hb].
Qed.

Lemma keeps_spec (start_date end_date : option pystr) (p : paper) :
  keeps start_date end_date p = true
  <-> exists s, published_date p = Some s /\ s <> []
                /\ match strptime s with
                   | None => True
                   | Some pub =>
                       bound_unreadable start_date \/ in_window pub start_date end_date
                   end.
Proof.
  unfold keeps.
  destruct (published_date p) as [[|c s]|] eqn:Ep; simpl.
  - split; [discriminate|]. intros (s & Hs' & Hne & _). injection Hs' as <-. congruence.
  - destruct (strptime (c :: s)) as [pub|] eqn:Epub.
    + pose proof (date_window_read (c :: s) pub start_date end_date Epub) as Hread.
      destruct (date_window (c :: s) start_date end_date) as [b|e] eqn:Ew.
      * simpl. rewrite Hread. split.
        -- intros Hwin. exists (c :: s). rewrite Epub.
           split; [reflexivity|]. split; [discriminate|]. now right.
        -- intros (s' & Hs' & _ & Hwin). injection Hs' as <-. rewrite Epub in Hwin.
           destruct Hwin as [[Ht Hnone]|Hwin]; [|exact Hwin].
           exfalso. unfold date_window, parse_date in Ew.
           rewrite Epub, Ht, Hnone in Ew. discriminate.
      * destruct Hread as [-> Hcase]. simpl. split; [|reflexivity].
        intros _. exists (c :: s). rewrite Epub.
        split; [reflexivity|]. split; [discriminate|exact Hcase].
    + unfold date_window, parse_date. rewrite Epub. simpl.
      split; [|reflexivity]. intros _. exists (c :: s). rewrite Epub.
      repeat split. discriminate.
  - split; [discriminate|]. intros (s & Hs' & _). discriminate.
Qed.

(** C8. [_filter_by_date] keeps exactly the candidates that have a published
    date which either cannot be read as a date, or lies in the inclusive
    window of the bounds, or is judged against a start date that is given
    but cannot be read; a candidate without a published date is dropped. In
    the window, a bound that is absent and an end date that cannot be read
    leave their side open. So with bounds that are absent or readable the
    candidates kept are exactly those with an unreadable date or a date in
    the window. The kept candidates stay in their order. [search] applies
    the filter exactly when a bound is given. *)
Theorem filter_by_date_window (papers : list paper) (start_date end_date : option pystr) :
  (forall p,
      p ∈ _filter_by_date papers start_date end_date
      <-> p ∈ papers
          /\ exists s, published_date p = Some s /\ s <> []
                       /\ match strptime s with
                          | None => True
                          | Some pub =>
                              bound_unreadable start_date
                              \/ in_window pub start_date end_date
                          end)
  /\ (bound_ok start_date -> bound_ok end_date ->
      forall p,
        p ∈ _filter_by_date papers start_date end_date
        <-> p ∈ papers
            /\ exists s, published_date p = Some s /\ s <> []
                         /\ match strptime s with
                            | None => True
                            | Some pub => in_window pub start_date end_date
                            end)
  /\ sublist (_filter_by_date papers start_date end_date) papers
  /\ (forall env query max_results sort_by sort_order log,
         arxiv env log (_build_query query) max_results sort_by sort_order = Ok papers ->
         (search env query start_date end_date max_results sort_by sort_order log).1
         = Ok (if opt_truthy start_date || opt_truthy end_date
               then _filter_by_date papers start_date end_date else papers)).
Proof.
  assert (Hkept : forall p,
             p ∈ _filter_by_date papers start_date end_date
             <-> p ∈ papers
                 /\ exists s, published_date p = Some s /\ s <> []
                              /\ match strptime s with
                                 | None => True
                                 | Some pub =>
                                     bound_unreadable start_date
                                     \/ in_window pub start_date end_date
                                 end).
  { intros p. unfold _filter_by_date. rewrite list_elem_of_filter.
    rewrite (keeps_spec start_date end_date p). tauto. }
  split; [exact Hkept|]. split; [|split].
  - intros Hs _ p. rewrite Hkept. split; intros (Hp & s & Hpub & Hne & Hwin);
      (split; [exact Hp|]); exists s; (split; [exact Hpub|]); (split; [exact Hne|]);
      destruct (strptime s) as [pub|]; try exact I.
    + destruct Hwin as [[Ht Hnone]|Hwin]; [|exact Hwin].
      destruct (Hs Ht) as [start Hstart]. congruence.
    + now right.
  - apply sublist_filter.
  - intros env query max_results sort_by sort_order log Harxiv.
    unfold search, try_except, bind, arxiv_get. rewrite Harxiv. reflexivity.
Qed.
End DateFilter.

(* ===================================================================== *)
(** * The order of floats *)
(* ===================================================================== *)

Lemma sf_not_nan (x : float) : PrimFloat.is_nan x = false -> Prim2SF x <> S754_nan.
Proof.
  unfold PrimFloat.is_nan. rewrite FloatAxioms.eqb_spec. intros Hx Hnan.
  rewrite Hnan in Hx. discriminate.
Qed.

Ltac rank_goal :=
  intros; unfold lex_lt, sf_rank in *; simpl in *;
  first [ reflexivity | discriminate | lia | exfalso; lia
        | match goal with
          | E : (_, _, _) = (_, _, _) |- _ => injection E; intros; exfalso; lia
          end
        | repeat f_equal; lia ].

Lemma sf_compare_rank (x y : spec_float) :
  x <> S754_nan -> y <> S754_nan ->
  exists c, SFcompare x y = Some c
            /\ (c = Lt <-> lex_lt (sf_rank x) (sf_rank y))
            /\ (c = Gt <-> lex_lt (sf_rank y) (sf_rank x))
            /\ (c = Eq <-> sf_rank x = sf_rank y).
Proof.
  intros Hx Hy.
  destruct x as [[]|[]| |[] mx ex], y as [[]|[]| |[] my ey]; try congruence;
    simpl; (eexists; split; [reflexivity|]);
    rewrite ?Pos.compare_cont_spec; simpl;
    try (destruct (Z.compare_spec ex ey) as [->|Hlt|Hgt];
         [destruct (Pos.compare_spec mx my) as [->|Hm|Hm]|..]; simpl);
    repeat split; rank_goal.
Qed.

Lemma float_compare_rank (x y : float) :
  PrimFloat.is_nan x = false -> PrimFloat.is_nan y = false ->
  (PrimFloat.ltb x y = true <-> lex_lt (float_rank x) (float_rank y))
  /\ (PrimFloat.leb x y = true <-> ~ lex_lt (float_rank y) (float_rank x))
  /\ (PrimFloat.eqb x y = true <-> float_rank x = float_rank y).
Proof.
  intros Hx%sf_not_nan Hy%sf_not_nan.
  rewrite ltb_spec, leb_spec, FloatAxioms.eqb_spec. unfold SFltb, SFleb, SFeqb, float_rank.
  destruct (sf_compare_rank _ _ Hx Hy) as (c & -> & Hlt & Hgt & Heq).
  assert (Hirr : forall a b, lex_lt a b -> lex_lt b a -> False) by (unfold lex_lt; lia).
  assert (Hne : forall a, ~ lex_lt a a) by (unfold lex_lt; lia).
  destruct c; (split; [|split]); split; intros Hc; try discriminate; try reflexivity;
    try (apply Hlt; reflexivity); try (apply Heq; reflexivity);
    try (exfalso; apply Hlt in Hc; discriminate);
    try (exfalso; apply Heq in Hc; discriminate).
  - intros Hyx. apply Hgt in Hyx. discriminate.
  - intros Hyx. apply Hgt in Hyx. discriminate.
  - exfalso. apply Hc. apply Hgt. reflexivity.
Qed.

Lemma float_eqb_not_nan (x y : float) :
  PrimFloat.eqb x y = true -> PrimFloat.is_nan x = false /\ PrimFloat.is_nan y = false.
Proof.
  unfold PrimFloat.is_nan. rewrite !FloatAxioms.eqb_spec. unfold SFeqb.
  destruct (Prim2SF x) as [[]|[]| |[] mx ex], (Prim2SF y) as [[]|[]| |[] my ey];
    simpl; try discriminate; intros _; rewrite ?Pos.compare_cont_spec, ?Z.compare_refl,
      ?Pos.compare_refl; auto.
Qed.

(** Two floats equal to a third are not strictly ordered. *)
Lemma float_tie_not_lt (a b v : float) :
  PrimFloat.eqb a v = true -> PrimFloat.eqb b v = true -> PrimFloat.ltb a b = false.
Proof.
  intros Ha Hb.
  destruct (float_eqb_not_nan _ _ Ha) as [Na Nv], (float_eqb_not_nan _ _ Hb) as [Nb _].
  apply (float_compare_rank a v Na Nv) in Ha. apply (float_compare_rank b v Nb Nv) in Hb.
  destruct (PrimFloat.ltb a b) eqn:E; [|reflexivity].
  apply (float_compare_rank a b Na Nb) in E. rewrite Ha, Hb in E.
  exfalso. revert E. unfold lex_lt. lia.
Qed.

Lemma float_not_lt_geq (x y : float) :
  PrimFloat.is_nan x = false -> PrimFloat.is_nan y = false ->
  PrimFloat.ltb x y = false -> PrimFloat.leb y x = true.
Proof.
  intros Nx Ny Hlt. apply (float_compare_rank y x Ny Nx).
  intros Hxy. apply (float_compare_rank x y Nx Ny) in Hxy. congruence.
Qed.

Lemma float_lt_leq (x y : float) :
  PrimFloat.is_nan x = false -> PrimFloat.is_nan y = false ->
  PrimFloat.ltb x y = true -> PrimFloat.leb x y = true.
Proof.
  intros Nx Ny Hlt. apply (float_compare_rank x y Nx Ny).
  apply (float_compare_rank x y Nx Ny) in Hlt. revert Hlt. unfold lex_lt. lia.
Qed.

Lemma float_leb_trans (x y z : float) :
  PrimFloat.is_nan x = false -> PrimFloat.is_nan y = false -> PrimFloat.is_nan z = false ->
  PrimFloat.leb x y = true -> PrimFloat.leb y z = true -> PrimFloat.leb x z = true.
Proof.
  intros Nx Ny Nz Hxy Hyz.
  apply (float_compare_rank x y Nx Ny) in Hxy. apply (float_compare_rank y z Ny Nz) in Hyz.
  apply (float_compare_rank x z Nx Nz). revert Hxy Hyz. unfold lex_lt. lia.
Qed.

(** Multiplication of floats commutes, so [0.7 * x] and [x * 0.7] are the
    same float. *)
Lemma float_mul_comm (x y : float) : PrimFloat.mul x y = PrimFloat.mul y x.
Proof.
  apply Prim2SF_inj. rewrite !mul_spec. unfold SF64mul, SFmul.
  destruct (Prim2SF x) as [sx|sx| |sx mx ex], (Prim2SF y) as [sy|sy| |sy my ey];
    try reflexivity; rewrite (xorb_comm sx sy); try reflexivity.
  now rewrite (Pos.mul_comm mx my), (Z.add_comm ex ey).
Qed.

(* ===================================================================== *)
(** * The final ranking *)
(* ===================================================================== *)

Section SortFacts.
Context {A K : Type} (lt : K -> K -> bool) (key : A -> K).

Lemma insert_desc_perm (x : A) (l : list A) : insert_desc lt key x l ≡ₚ x :: l.
Proof.
  induction l as [|y l IH]; simpl; [reflexivity|].
  destruct (lt (key x) (key y)); [|reflexivity].
  rewrite IH. apply Permutation_swap.
Qed.

Lemma sort_desc_perm (l : list A) : sort_desc lt key l ≡ₚ l.
Proof.
  induction l as [|x l IH]; simpl; [reflexivity|].
  rewrite insert_desc_perm. now rewrite IH.
Qed.

(** Stability, in general: the elements satisfying [same], none of which
    is strictly below another, keep their order. *)
Lemma insert_desc_filter (same : A -> bool) (x : A) (l : list A) :
  (forall a b, same a = true -> same b = true -> lt (key a) (key b) = false) ->
  List.filter same (insert_desc lt key x l) = List.filter same (x :: l).
Proof.
  intros Htie. induction l as [|y l IH]; [reflexivity|].
  simpl. destruct (lt (key x) (key y)) eqn:E; [|reflexivity].
  simpl. rewrite IH. simpl.
  destruct (same x) eqn:Sx, (same y) eqn:Sy; try reflexivity.
  rewrite (Htie x y Sx Sy) in E. discriminate.
Qed.

Lemma sort_desc_filter (same : A -> bool) (l : list A) :
  (forall a b, same a = true -> same b = true -> lt (key a) (key b) = false) ->
  List.filter same (sort_desc lt key l) = List.filter same l.
Proof.
  intros Htie. induction l as [|x l IH]; [reflexivity|].
  simpl. rewrite insert_desc_filter by assumption. simpl. now rewrite IH.
Qed.
End SortFacts.

(** ** What [list.sort] leaves *)

Lemma insert_desc_ext {A K K'} (lt : K -> K -> bool) (lt' : K' -> K' -> bool)
    (key : A -> K) (key' : A -> K') (x : A) (l : list A) :
  (forall a b, lt (key a) (key b) = lt' (key' a) (key' b)) ->
  insert_desc lt key x l = insert_desc lt' key' x l.
Proof.
  intros Hext. induction l as [|y l IH]; [reflexivity|].
  simpl. rewrite Hext, IH. reflexivity.
Qed.

Lemma sort_desc_ext {A K K'} (lt : K -> K -> bool) (lt' : K' -> K' -> bool)
    (key : A -> K) (key' : A -> K') (l : list A) :
  (forall a b, lt (key a) (key b) = lt' (key' a) (key' b)) ->
  sort_desc lt key l = sort_desc lt' key' l.
Proof.
  intros Hext. induction l as [|x l IH]; [reflexivity|].
  simpl. fold (sort_desc lt key l). fold (sort_desc lt' key' l).
  rewrite IH. now apply insert_desc_ext.
Qed.

Lemma sort_desc_short {A K} (lt : K -> K -> bool) (key : A -> K) (l : list A) :
  (length l < 2)%nat -> sort_desc lt key l = l.
Proof. destruct l as [|x [|y l]]; simpl; intros; [reflexivity|reflexivity|lia]. Qed.

Lemma omap_lookup_seq {A} (k l : list A) :
  omap (fun i => (k ++ l) !! i) (seq (length k) (length l)) = l.
Proof.
  revert k. induction l as [|x l IH]; intros k; [reflexivity|].
  simpl. rewrite list_lookup_middle by reflexivity. f_equal.
  specialize (IH (k ++ [x])). rewrite length_app, Nat.add_1_r in IH.
  rewrite <- app_assoc in IH. exact IH.
Qed.

Lemma reorder_perm {A} (l : list A) (order : list nat) : reorder l order ≡ₚ l.
Proof.
  unfold reorder. case_bool_decide as Hok; [|reflexivity].
  destruct Hok as (Hnodup & Hlen & Hlt).
  assert (Hperm : order ≡ₚ seq 0 (length l)).
  { apply submseteq_length_Permutation.
    - apply NoDup_submseteq; [assumption|].
      intros i Hi. rewrite Forall_forall in Hlt. apply elem_of_seq.
      specialize (Hlt i Hi). lia.
    - rewrite length_seq. lia. }
  rewrite Hperm. now rewrite (omap_lookup_seq [] l : omap (fun i => l !! i) (seq 0 (length l)) = l).
Qed.

Section PySort.
Context `{PyBuiltins} {A : Type} (key : A -> pyval).

Lemma py_sort_desc_perm (l out : list A) : py_sort_desc key l = Ok out -> out ≡ₚ l.
Proof.
  unfold py_sort_desc.
  destruct (length l <? 2)%nat; [intros [= <-]; reflexivity|].
  destruct (orderable _); [intros [= <-]; apply sort_desc_perm|].
  destruct (forallb is_number _); [intros [= <-]; apply reorder_perm|].
  destruct (sort_choice _); [intros [= <-]; apply reorder_perm|discriminate].
Qed.

Lemma py_sort_desc_raises (l : list A) (e : exn) :
  py_sort_desc key l = Raise e ->
  e = TypeError /\ (2 <= length l)%nat /\ forallb is_number (key <$> l) = false.
Proof.
  unfold py_sort_desc.
  destruct (Nat.ltb_spec (length l) 2); [discriminate|].
  destruct (orderable _); [discriminate|].
  destruct (forallb is_number _); [discriminate|].
  destruct (sort_choice _); [discriminate|]. intros [= <-]. auto.
Qed.

Lemma py_sort_desc_ordered (l : list A) :
  orderable (key <$> l) = true ->
  py_sort_desc key l = Ok (sort_desc (fun a b => default false (py_lt a b)) key l).
Proof.
  intros Hord. unfold py_sort_desc. rewrite Hord.
  destruct (Nat.ltb_spec (length l) 2); [|reflexivity].
  now rewrite sort_desc_short.
Qed.
End PySort.

Section FloatSort.
Context `{PyBuiltins} {A : Type} (key : A -> float).

Lemma py_sort_desc_floats (l : list A) :
  exists out, py_sort_desc (fun x => PFloat (key x)) l = Ok out /\ out ≡ₚ l.
Proof.
  destruct (py_sort_desc (fun x => PFloat (key x)) l) as [out|e] eqn:E.
  - exists out. split; [reflexivity|]. now apply py_sort_desc_perm in E.
  - apply py_sort_desc_raises in E as (_ & _ & Hnum). exfalso.
    assert (Hall : forallb is_number ((fun x => PFloat (key x)) <$> l) = true).
    { clear. induction l; simpl; auto. }
    congruence.
Qed.

Lemma py_sort_desc_real (l : list A) :
  Forall (fun x => PrimFloat.is_nan (key x) = false) l ->
  py_sort_desc (fun x => PFloat (key x)) l = Ok (sort_desc PrimFloat.ltb key l).
Proof.
  intros Hreal. rewrite py_sort_desc_ordered.
  - apply (f_equal Ok). apply sort_desc_ext. reflexivity.
  - unfold orderable. apply orb_true_iff. left.
    induction Hreal as [|x l Hx Hl IH]; [reflexivity|].
    simpl. rewrite Hx. exact IH.
Qed.
End FloatSort.


Lemma insert_desc_sorted (x : ranked_paper) (l : list ranked_paper) :
  not_nan x -> Forall not_nan l -> StronglySorted score_geq l ->
  StronglySorted score_geq (insert_desc PrimFloat.ltb final_score x l).
Proof.
  intros Nx Nl Hsorted. induction Hsorted as [|y l Hl IH Hy]; simpl.
  - repeat constructor.
  - apply Forall_cons in Nl as [Ny Nl].
    destruct (PrimFloat.ltb (final_score x) (final_score y)) eqn:E.
    + constructor; [now apply IH|].
      rewrite insert_desc_perm. constructor; [|assumption].
      now apply float_lt_leq.
    + assert (Hxy : score_geq x y) by now apply float_not_lt_geq.
      constructor; [now constructor|].
      constructor; [assumption|].
      rewrite Forall_forall in Hy, Nl. apply Forall_forall. intros z Hz.
      unfold score_geq in *.
      apply (float_leb_trans _ (final_score y)); auto.
      apply Nl. assumption.
Qed.

Lemma sort_desc_sorted (l : list ranked_paper) :
  Forall not_nan l -> StronglySorted score_geq (sort_desc PrimFloat.ltb final_score l).
Proof.
  induction l as [|x l IH]; intros Nl; simpl; [constructor|].
  apply Forall_cons in Nl as [Nx Nl].
  apply insert_desc_sorted; [assumption| |now apply IH].
  now rewrite sort_desc_perm.
Qed.

Lemma sort_desc_stable (v : float) (l : list ranked_paper) :
  with_score v (sort_desc PrimFloat.ltb final_score l) = with_score v l.
Proof.
  unfold with_score. apply sort_desc_filter.
  intros a b Ha Hb. now apply (float_tie_not_lt _ _ v).
Qed.

Lemma enumerate_from_lookup {A} (start : Z) (l : list A) (i : nat) :
  enumerate_from start l !! i = (fun x => (start + Z.of_nat i, x)) <$> l !! i.
Proof.
  revert start i. induction l as [|x l IH]; intros start i; [now destruct i|].
  destruct i as [|i]; simpl.
  - now rewrite Z.add_0_r.
  - rewrite IH. destruct (l !! i); simpl; [|reflexivity].
    do 2 f_equal. lia.
Qed.

Lemma enumerate_from_length {A} (start : Z) (l : list A) :
  length (enumerate_from start l) = length l.
Proof. revert start. induction l; intros; simpl; auto. Qed.

Lemma py_take_prefix {A} (k : Z) (l : list A) : exists n, py_take k l = take n l.
Proof. unfold py_take. destruct (0 <=? k); eexists; reflexivity. Qed.

Lemma py_take_count {A} (k : Z) (l : list A) :
  0 <= k -> py_take k l = take (Z.to_nat k) l.
Proof. intros Hk. unfold py_take. destruct (0 <=? k) eqn:E; [reflexivity|lia]. Qed.

Lemma rank_top_lookup (sorted : list ranked_paper) (top_k : Z) (i : nat) :
  rank_top sorted top_k !! i
  = (fun p => set_rank p (Z.of_nat i + 1)) <$> py_take top_k sorted !! i.
Proof.
  unfold rank_top. rewrite list_lookup_fmap, enumerate_from_lookup.
  destruct (py_take top_k _ !! i); reflexivity.
Qed.

Lemma rank_top_length (sorted : list ranked_paper) (top_k : Z) :
  length (rank_top sorted top_k) = length (py_take top_k sorted).
Proof. unfold rank_top. now rewrite length_fmap, enumerate_from_length. Qed.

Lemma rank_top_ranks (sorted : list ranked_paper) (top_k : Z) :
  sota_rank <$> rank_top sorted top_k
  = (fun r => Some (Z.of_nat r)) <$> seq 1 (length (rank_top sorted top_k)).
Proof.
  apply list_eq. intros i.
  rewrite !list_lookup_fmap, rank_top_lookup.
  destruct (decide (i < length (rank_top sorted top_k))%nat) as [Hi|Hi].
  - rewrite lookup_seq_lt by assumption.
    destruct (lookup_lt_is_Some_2 _ _ Hi) as [p Hp].
    rewrite rank_top_lookup in Hp.
    destruct (py_take top_k _ !! i) as [q|]; [|discriminate].
    simpl. do 2 f_equal. lia.
  - rewrite lookup_seq_ge by lia.
    assert (Hnone : rank_top sorted top_k !! i = None) by (apply lookup_ge_None; lia).
    rewrite rank_top_lookup in Hnone.
    destruct (py_take top_k _ !! i); [discriminate|reflexivity].
Qed.

Lemma ranked_scores (start : Z) (l : list ranked_paper) (r : ranked_paper) :
  r ∈ (fun ip : Z * ranked_paper => set_rank ip.2 (ip.1 + 1)) <$> enumerate_from start l ->
  exists q, q ∈ l /\ final_score r = final_score q.
Proof.
  revert start. induction l as [|p l IH]; intros start Hr; simpl in Hr.
  - now apply elem_of_nil in Hr.
  - apply elem_of_cons in Hr as [->|Hr].
    + exists p. split; [left|reflexivity].
    + destruct (IH _ Hr) as (q & Hq & Heq). exists q. split; [now right|assumption].
Qed.

Lemma ranked_sorted (start : Z) (l : list ranked_paper) :
  StronglySorted score_geq l ->
  StronglySorted score_geq
    ((fun ip : Z * ranked_paper => set_rank ip.2 (ip.1 + 1)) <$> enumerate_from start l).
Proof.
  intros Hsorted. revert start.
  induction Hsorted as [|p l Hl IH Hp]; intros start; simpl; [constructor|].
  constructor; [apply IH|].
  apply Forall_forall. intros r Hr.
  destruct (ranked_scores _ _ _ Hr) as (q & Hq & Heq).
  rewrite Forall_forall in Hp. specialize (Hp q Hq).
  unfold score_geq in *. simpl. now rewrite Heq.
Qed.

Lemma rank_top_sorted (sorted : list ranked_paper) (top_k : Z) :
  StronglySorted score_geq sorted -> StronglySorted score_geq (rank_top sorted top_k).
Proof.
  intros Hsorted. unfold rank_top. apply ranked_sorted.
  destruct (py_take_prefix top_k sorted) as [n ->].
  apply (StronglySorted_app_1_l _ _ (drop n sorted)). now rewrite take_drop.
Qed.

Section FinalRanking.
Context `{PyBuiltins}.

(** The sort of [_compute_final_ranking] never raises: its keys are floats. *)
Lemma rank_and_select_run (scored_papers : list ranked_paper) (top_k : Z) :
  exists sorted,
    py_sort_desc (fun p => PFloat (final_score p)) scored_papers = Ok sorted
    /\ sorted ≡ₚ scored_papers
    /\ rank_and_select scored_papers top_k = Ok (rank_top sorted top_k).
Proof.
  destruct (py_sort_desc_floats final_score scored_papers) as (sorted & Hrun & Hperm).
  exists sorted. split; [exact Hrun|]. split; [exact Hperm|].
  unfold rank_and_select. rewrite Hrun. reflexivity.
Qed.

(** C3. For every list of scored papers and every [top_k], the final
    ranking returns: the result is the slice [[:top_k]] of a list [sorted]
    that is a permutation of the scored papers, the [i]-th returned paper
    (from 0) being the [i]-th of the slice with [sota_rank = i + 1], so the
    ranks are exactly 1, 2, ... up to the number returned. When [top_k] is a
    count ([0 <= top_k]) the slice is the first [top_k] papers of [sorted]
    and at most [top_k] papers are returned. When the stored final scores
    are numbers (none is NaN), [sorted] is the stable descending sort: papers
    with equal final scores keep their input order, and every paper has a
    final score at least that of every later one, in [sorted] and among the
    returned papers. *)
Theorem final_ranking_sorted_and_ranked (scored_papers : list ranked_paper) (top_k : Z) :
  exists sorted out,
    rank_and_select scored_papers top_k = Ok out
    /\ sorted ≡ₚ scored_papers
    /\ (forall i, out !! i
                  = (fun p => set_rank p (Z.of_nat i + 1)) <$> py_take top_k sorted !! i)
    /\ sota_rank <$> out = (fun r => Some (Z.of_nat r)) <$> seq 1 (length out)
    /\ (0 <= top_k ->
        Z.of_nat (length out) <= top_k
        /\ forall i, out !! i
                     = (fun p => set_rank p (Z.of_nat i + 1))
                         <$> take (Z.to_nat top_k) sorted !! i)
    /\ (Forall not_nan scored_papers ->
        (forall v, with_score v sorted = with_score v scored_papers)
        /\ StronglySorted score_geq sorted
        /\ StronglySorted score_geq out).
Proof.
  destruct (rank_and_select_run scored_papers top_k) as (sorted & Hsort & Hperm & Hrun).
  exists sorted, (rank_top sorted top_k).
  split; [exact Hrun|]. split; [exact Hperm|].
  split; [intros i; apply rank_top_lookup|].
  split; [apply rank_top_ranks|].
  split.
  - intros Hk. split.
    + rewrite rank_top_length, py_take_count, length_take by assumption. lia.
    + intros i. now rewrite rank_top_lookup, py_take_count.
  - intros Hnum.
    rewrite (py_sort_desc_real final_score scored_papers) in Hsort by exact Hnum.
    injection Hsort as <-.
    split; [intros v; apply sort_desc_stable|].
    split; [now apply sort_desc_sorted|].
    apply rank_top_sorted. now apply sort_desc_sorted.
Qed.
End FinalRanking.


(** C3 as stated fails outside counts and numbers. For [top_k = -1] the
    slice [[:top_k]] drops the last paper: of two scored papers one is
    returned, which is more than [top_k]. And a final score that is NaN (the
    relevance of a generated reply can be NaN, which [round] keeps) is below
    and above no number: the papers with final scores 0.5 and NaN are
    returned in this order, and NaN is not at most 0.5. *)
Lemma final_ranking_beyond_counts_and_numbers :
  (exists out,
      @rank_and_select ascii_builtins
        [scored_entry (py "a") 0.9%float; scored_entry (py "b") 0.5%float] (-1) = Ok out
      /\ length out = 1%nat
      /\ ~ (Z.of_nat (length out) <= -1))
  /\ (exists out,
         @rank_and_select ascii_builtins
           [scored_entry (py "a") 0.5%float; scored_entry (py "b") PrimFloat.nan] 2 = Ok out
         /\ final_score <$> out = [0.5%float; PrimFloat.nan]
         /\ ~ StronglySorted score_geq out).
Proof.
  split.
  - eexists. split; [vm_compute; reflexivity|]. split; [reflexivity|].
    simpl. lia.
  - eexists. split; [vm_compute; reflexivity|]. split; [reflexivity|].
    intros Hsorted. apply StronglySorted_inv in Hsorted as [_ Hhd].
    apply Forall_cons in Hhd as [Hhd _]. vm_compute in Hhd. discriminate.
Qed.

(* ===================================================================== *)
(** * Keyword-overlap relevance *)
(* ===================================================================== *)

Lemma split_ws_aux_space (cur a b : pystr) :
  split_ws_aux cur (a ++ py " " ++ b) = split_ws_aux cur a ++ split_ws b.
Proof.
  revert cur. induction a as [|c a IH]; intros cur; simpl.
  - destruct cur; reflexivity.
  - destruct (isspace c); [destruct cur|]; simpl; now rewrite IH.
Qed.

(** The words of [title + ' ' + abstract] are those of the title followed by
    those of the abstract. *)
Lemma split_ws_space (a b : pystr) :
  split_ws (a ++ py " " ++ b) = split_ws a ++ split_ws b.
Proof. apply split_ws_aux_space. Qed.

Lemma word_set_size (s : pystr) : size (word_set s) = length (distinct_words s).
Proof.
  unfold word_set, distinct_words.
  rewrite <- (size_list_to_set (C:=gset pystr) (remove_dups (split_ws s)))
    by apply NoDup_remove_dups.
  f_equal. apply set_eq. intros x.
  now rewrite !elem_of_list_to_set, elem_of_remove_dups.
Qed.

Lemma word_set_overlap (s : pystr) (others : list pystr) :
  size (word_set s ∩ list_to_set others) = count_in (distinct_words s) others.
Proof.
  unfold word_set, distinct_words, count_in.
  rewrite <- (size_list_to_set (C:=gset pystr))
    by (apply NoDup_filter, NoDup_remove_dups).
  f_equal. apply set_eq. intros x.
  rewrite elem_of_intersection, !elem_of_list_to_set, list_elem_of_filter,
    elem_of_remove_dups.
  tauto.
Qed.

Lemma word_set_words (s t : pystr) :
  size (word_set s ∩ word_set t) = count_in (distinct_words s) (split_ws t).
Proof. apply word_set_overlap. Qed.

Section Keywords.
Context `{PyBuiltins}.

Lemma keyword_score_formula (query : pystr) (p : paper) :
  keyword_score (word_set (str_lower query)) p
  = overlap_score
      (length (distinct_words (str_lower query)))
      (count_in (distinct_words (str_lower query))
         (split_ws (str_lower (title p)) ++ split_ws (str_lower (abstract p))))
      (count_in (distinct_words (str_lower query)) (split_ws (str_lower (title p)))).
Proof.
  unfold keyword_score, overlap_score. cbv zeta.
  rewrite !word_set_words, split_ws_space, !word_set_size.
  destruct (length (distinct_words (str_lower query))) as [|n] eqn:E; [reflexivity|].
  change (0 <? S n)%nat with true. change (S n =? 0)%nat with false. cbv iota.
  now rewrite !(float_mul_comm _ 0.7%float), !(float_mul_comm _ 0.3%float).
Qed.

(** C6. Under the keyword fallback every paper keeps its fields and gets the
    score [min(1, 0.7 * (overlap / count) + 0.3 * (title_overlap / count) +
    0.1)], where [count] is the number of distinct words of the lower-cased
    topic, [overlap] is how many of them are words of the lower-cased title
    or abstract, and [title_overlap] how many are words of the lower-cased
    title. When the topic has no word, every score is 0.5. The fallback is
    what [_score_papers] returns without an API key. *)
Theorem keyword_scores (query : pystr) (papers : list paper) :
  _keyword_score_papers query papers
  = (fun p =>
       set_score p
         (PFloat
            (overlap_score
               (length (distinct_words (str_lower query)))
               (count_in (distinct_words (str_lower query))
                  (split_ws (str_lower (title p)) ++ split_ws (str_lower (abstract p))))
               (count_in (distinct_words (str_lower query))
                  (split_ws (str_lower (title p)))))))
      <$> papers
  /\ (length (distinct_words (str_lower query)) = 0%nat ->
      Forall (fun p => score p = Some (PFloat 0.5%float))
        (_keyword_score_papers query papers))
  /\ (forall env log,
        _score_papers env [] query papers log
        = (Ok (_keyword_score_papers query papers), log)).
Proof.
  assert (Hall : _keyword_score_papers query papers
                 = (fun p =>
                      set_score p
                        (PFloat
                           (overlap_score
                              (length (distinct_words (str_lower query)))
                              (count_in (distinct_words (str_lower query))
                                 (split_ws (str_lower (title p))
                                    ++ split_ws (str_lower (abstract p))))
                              (count_in (distinct_words (str_lower query))
                                 (split_ws (str_lower (title p)))))))
                     <$> papers).
  { unfold _keyword_score_papers. apply list_fmap_ext. intros i p _.
    now rewrite keyword_score_formula. }
  split; [exact Hall|]. split; [|reflexivity].
  intros Hzero. rewrite Hall. apply Forall_fmap, Forall_forall. intros p _.
  simpl. unfold overlap_score. now rewrite Hzero.
Qed.
End Keywords.

(* ===================================================================== *)
(** * Composite scores *)
(* ===================================================================== *)


Section SubScores.
Context `{PyBuiltins} (today : date).



End SubScores.

(* ===================================================================== *)
(** * The SOTA pipeline on an empty search *)
(* ===================================================================== *)

Section EmptySearch.
Context `{PyBuiltins} (env : services) (api_key : pystr) (today : date).

Lemma search_log (query : pystr) (start_date end_date : option pystr)
    (max_results : Z) (sort_by sort_order : pystr) (log : list event) :
  exists failed,
    (search env query start_date end_date max_results sort_by sort_order log).2
    = log ++ [mkEvent (ArxivGet (_build_query query) max_results sort_by sort_order) failed].
Proof.
  unfold search, try_except, bind, arxiv_get.
  destruct (arxiv env log _ _ _ _) as [papers|e]; simpl.
  - eexists; reflexivity.
  - destruct (is_RequestException e); eexists; reflexivity.
Qed.

(** The search returns no candidate when the service finds none, and when
    the request fails. *)
Lemma search_empty (query : pystr) (start_date end_date : option pystr)
    (max_results : Z) (sort_by sort_order : pystr) (log : list event) :
  arxiv env log (_build_query query) max_results sort_by sort_order = Ok []
  \/ (exists detail,
         arxiv env log (_build_query query) max_results sort_by sort_order
         = Raise (RequestException detail)) ->
  (search env query start_date end_date max_results sort_by sort_order log).1 = Ok [].
Proof.
  unfold search, try_except, bind, arxiv_get.
  intros [->|[detail ->]]; simpl; [|reflexivity].
  destruct (opt_truthy start_date || opt_truthy end_date); reflexivity.
Qed.

(** C10. When the search returns no candidate, [identify_sota] returns the
    record it started from: the topic, [total_found = 0], the requested
    [top_k], no paper, and the search parameters. The only call of the run
    is the search request: nothing is sent to the generation service or to
    the metrics service. *)
Theorem identify_sota_no_candidates (topic : pystr) (max_results top_k : Z)
    (start_date end_date : option pystr) (include_metrics : bool) (log : list event) :
  (search env topic start_date end_date max_results (py "relevance") (py "descending")
     log).1 = Ok [] ->
  (identify_sota env api_key today topic max_results top_k start_date end_date
     include_metrics log).1
  = Ok (mkSotaResult topic 0 top_k [] max_results start_date end_date)
  /\ exists failed,
      (identify_sota env api_key today topic max_results top_k start_date end_date
         include_metrics log).2
      = log ++ [mkEvent (ArxivGet (_build_query topic) max_results (py "relevance")
                           (py "descending")) failed].
Proof.
  intros Hsearch.
  destruct (search_log topic start_date end_date max_results (py "relevance")
              (py "descending") log) as [failed Hlog].
  unfold identify_sota, bind.
  destruct (search env topic start_date end_date max_results (py "relevance")
              (py "descending") log) as [o log'] eqn:E.
  simpl in Hsearch, Hlog. subst o log'. simpl.
  split; [reflexivity|]. exists failed. reflexivity.
Qed.
End EmptySearch.

(* ===================================================================== *)
(** * The theorems at concrete inputs *)
(* ===================================================================== *)

(** The partition on the two sample lists, the reply being prose. *)
Lemma analyze_fallback_partition_witness :
  generation prose_services []
    (mkChat (FusionPrompt weaknesses_sample_a weaknesses_sample_b) 0.2%float 1500)
  = Ok prose_reply
  /\ @json_loads ascii_builtins (clean_response prose_reply) = None
  /\ exists s a b : list pystr,
      (@analyze ascii_builtins prose_services weaknesses_sample_a weaknesses_sample_b []).1
      = Ok (mkWeaknessAnalysis (PList (PStr <$> s)) (PList (PStr <$> a))
              (PList (PStr <$> b)))
      /\ (forall x, x ∈ s <-> x ∈ weaknesses_sample_a /\ x ∈ weaknesses_sample_b)
      /\ (forall x, x ∈ a <-> x ∈ weaknesses_sample_a /\ x ∉ weaknesses_sample_b)
      /\ (forall x, x ∈ b <-> x ∈ weaknesses_sample_b /\ x ∉ weaknesses_sample_a)
      /\ NoDup s /\ NoDup a /\ NoDup b
      /\ (forall x, ~ (x ∈ s /\ x ∈ a))
      /\ (forall x, ~ (x ∈ s /\ x ∈ b))
      /\ (forall x, ~ (x ∈ a /\ x ∈ b))
      /\ (forall x, x ∈ s ++ a ++ b <-> x ∈ weaknesses_sample_a \/ x ∈ weaknesses_sample_b).
Proof.
  split; [reflexivity|]. split; [vm_compute; reflexivity|].
  apply (@analyze_fallback_partition ascii_builtins prose_services
           weaknesses_sample_a weaknesses_sample_b [] prose_reply).
  - reflexivity.
  - vm_compute. reflexivity.
Defined.

(** The fallback of the fusion stage on the two sample lists. *)
Lemma analyze_fallback_example :
  (@analyze ascii_builtins prose_services weaknesses_sample_a weaknesses_sample_b []).1
  = Ok (mkWeaknessAnalysis
          (PList [PStr (py "No ablation study is reported")])
          (PList [PStr (py "Limited evaluation scope")])
          (PList [PStr (py "High computational cost at scale")])).
Proof. vm_compute. reflexivity. Qed.

(** C7 as stated fails: when the generated object gives the empty string as
    [method_name], [synthesize] returns a method whose name is empty. *)
Lemma synthesize_can_return_empty_name :
  exists pm,
    (@synthesize ascii_builtins empty_name_services no_weaknesses
       (PStr (py "Paper A")) (PStr (py "Paper B")) []).1 = Ok pm
    /\ method_name pm = PStr [].
Proof. eexists. split; [vm_compute; reflexivity|reflexivity]. Qed.

(** [synthesize] when the reply is prose: the default record. *)
Lemma synthesize_returns_witness :
  (@synthesize ascii_builtins prose_services no_weaknesses
     (PStr (py "Paper A")) (PStr (py "Paper B")) []).1 = Ok default_method
  /\ exists response,
      generation prose_services []
        (mkChat (SynthesisPrompt (PStr (py "Paper A")) (PStr (py "Paper B")) no_weaknesses)
           0.5%float 2500)
      = Ok response
      /\ match @json_loads ascii_builtins (clean_response response) with
         | Some (PDict d) =>
             default_method
             = mkProposedMethod
                 (default (PStr (py "Unified Adaptive Framework"))
                    (assoc_get (py "method_name") d))
                 (default (PStr []) (assoc_get (py "core_idea") d))
                 (default (PList []) (assoc_get (py "components") d))
                 (default (PStr []) (assoc_get (py "addresses_weaknesses") d))
         | _ =>
             default_method = default_method
             /\ method_name default_method = PStr (py "Unified Adaptive Hybrid Framework")
             /\ exists l, components default_method = PList l /\ length l = 4%nat
         end.
Proof.
  assert (Hrun : (@synthesize ascii_builtins prose_services no_weaknesses
                    (PStr (py "Paper A")) (PStr (py "Paper B")) []).1 = Ok default_method)
    by (vm_compute; reflexivity).
  split; [exact Hrun|].
  exact (@synthesize_returns ascii_builtins prose_services no_weaknesses
           (PStr (py "Paper A")) (PStr (py "Paper B")) [] default_method Hrun).
Defined.

(** [process] on services that fail at the third call: two calls succeed,
    the third fails, is the last, and its exception is raised. *)
Lemma generation_failure_handling_witness :
  (@process ascii_builtins flaky_services (py "Short text.") (py "Another short text.")
     []).2
  = [] ++ [mkEvent (GroqPost (mkChat (ExtractSectionsPrompt (py "Short text."))
                                0.1%float 3000)) false;
           mkEvent (GroqPost (mkChat (ExtractSectionsPrompt (py "Another short text."))
                                0.1%float 3000)) false]
       ++ mkEvent (GroqPost (mkChat (WeaknessPrompt (py "paper_content")
                                       (PStr (py "Short text.")))
                               0.4%float 1000)) true :: []
  /\ ev_failed (mkEvent (GroqPost (mkChat (WeaknessPrompt (py "paper_content")
                                             (PStr (py "Short text.")))
                                     0.4%float 1000)) true) = true
  /\ (@nil event = []
      /\ exists req e,
          mkEvent (GroqPost (mkChat (WeaknessPrompt (py "paper_content")
                                       (PStr (py "Short text.")))
                               0.4%float 1000)) true
          = mkEvent (GroqPost req) true
          /\ generation flaky_services
               ([] ++ [mkEvent (GroqPost (mkChat (ExtractSectionsPrompt (py "Short text."))
                                            0.1%float 3000)) false;
                       mkEvent (GroqPost (mkChat (ExtractSectionsPrompt
                                                    (py "Another short text."))
                                            0.1%float 3000)) false]) req
             = Raise e
          /\ (@process ascii_builtins flaky_services (py "Short text.")
                (py "Another short text.") []).1 = Raise e).
Proof.
  assert (Hlog : (@process ascii_builtins flaky_services (py "Short text.")
                    (py "Another short text.") []).2
                 = [] ++ [mkEvent (GroqPost (mkChat (ExtractSectionsPrompt (py "Short text."))
                                               0.1%float 3000)) false;
                          mkEvent (GroqPost (mkChat (ExtractSectionsPrompt
                                                       (py "Another short text."))
                                               0.1%float 3000)) false]
                      ++ mkEvent (GroqPost (mkChat (WeaknessPrompt (py "paper_content")
                                                      (PStr (py "Short text.")))
                                              0.4%float 1000)) true :: [])
    by (vm_compute; reflexivity).
  split; [exact Hlog|]. split; [reflexivity|].
  exact (proj1 (@generation_failure_handling ascii_builtins flaky_services)
           (py "Short text.") (py "Another short text.") [] _ [] _ Hlog eq_refl).
Defined.

(** The ranking of the three sample papers for [top_k = 2]: the tied papers
    [b] and [c] come first, in their input order. *)
Lemma final_ranking_sorted_and_ranked_witness :
  0 <= 2
  /\ Forall not_nan scored_sample
  /\ @rank_and_select ascii_builtins scored_sample 2
     = Ok [set_rank (scored_entry (py "b") 0.9%float) 1;
           set_rank (scored_entry (py "c") 0.9%float) 2]
  /\ exists sorted out,
      @rank_and_select ascii_builtins scored_sample 2 = Ok out
      /\ sorted ≡ₚ scored_sample
      /\ (forall i, out !! i
                    = (fun p => set_rank p (Z.of_nat i + 1)) <$> py_take 2 sorted !! i)
      /\ sota_rank <$> out = (fun r => Some (Z.of_nat r)) <$> seq 1 (length out)
      /\ (0 <= 2 ->
          Z.of_nat (length out) <= 2
          /\ forall i, out !! i
                       = (fun p => set_rank p (Z.of_nat i + 1))
                           <$> take (Z.to_nat 2) sorted !! i)
      /\ (Forall not_nan scored_sample ->
          (forall v, with_score v sorted = with_score v scored_sample)
          /\ StronglySorted score_geq sorted
          /\ StronglySorted score_geq out).
Proof.
  split; [lia|]. split; [repeat constructor|]. split; [vm_compute; reflexivity|].
  exact (@final_ranking_sorted_and_ranked ascii_builtins scored_sample 2).
Defined.

(** Keyword scores for a blank topic, and for a topic of three words. *)
Lemma keyword_scores_witness :
  length (distinct_words (@str_lower ascii_builtins (py "   "))) = 0%nat
  /\ Forall (fun p => score p = Some (PFloat 0.5%float))
       (@_keyword_score_papers ascii_builtins (py "   ") sample_candidates)
  /\ score <$> @_keyword_score_papers ascii_builtins (py "Graph Neural networks")
                 sample_candidates
     = [Some (PFloat 1%float);
        Some (PFloat (py_min 1%float (0.7 * int_truediv 1 3 + 0.3 * int_truediv 0 3 + 0.1)%float))].
Proof.
  assert (Hzero : length (distinct_words (@str_lower ascii_builtins (py "   "))) = 0%nat)
    by reflexivity.
  split; [exact Hzero|]. split.
  - exact (proj1 (proj2 (@keyword_scores ascii_builtins (py "   ") sample_candidates)) Hzero).
  - rewrite (proj1 (@keyword_scores ascii_builtins (py "Graph Neural networks")
                      sample_candidates)).
    vm_compute. reflexivity.
Defined.

(** The filter for the year 2024 on the four dated candidates. *)
Lemma filter_by_date_window_witness :
  @bound_ok ascii_builtins (Some (py "2024-01-01"))
  /\ @bound_ok ascii_builtins (Some (py "2024-12-31"))
  /\ @_filter_by_date ascii_builtins dated_candidates (Some (py "2024-01-01"))
       (Some (py "2024-12-31"))
     = [candidate (py "2403.00001") (py "Inside") (py "a") (Some (py "2024-03-10"));
        candidate (py "0000.00003") (py "Unreadable") (py "c") (Some (py "March 2024"))]
  /\ (forall p,
         p ∈ @_filter_by_date ascii_builtins dated_candidates (Some (py "2024-01-01"))
               (Some (py "2024-12-31"))
         <-> p ∈ dated_candidates
             /\ exists s, published_date p = Some s /\ s <> []
                          /\ match @strptime ascii_builtins s with
                             | None => True
                             | Some pub =>
                                 @in_window ascii_builtins pub (Some (py "2024-01-01"))
                                   (Some (py "2024-12-31"))
                             end)
  /\ sublist (@_filter_by_date ascii_builtins dated_candidates (Some (py "2024-01-01"))
               (Some (py "2024-12-31"))) dated_candidates.
Proof.
  assert (Hs : @bound_ok ascii_builtins (Some (py "2024-01-01")))
    by (intros _; vm_compute; eexists; reflexivity).
  assert (He : @bound_ok ascii_builtins (Some (py "2024-12-31")))
    by (intros _; vm_compute; eexists; reflexivity).
  split; [exact Hs|]. split; [exact He|]. split; [vm_compute; reflexivity|].
  split.
  - exact (proj1 (proj2 (@filter_by_date_window ascii_builtins dated_candidates
                           (Some (py "2024-01-01")) (Some (py "2024-12-31")))) Hs He).
  - exact (proj1 (proj2 (proj2 (@filter_by_date_window ascii_builtins dated_candidates
                                  (Some (py "2024-01-01")) (Some (py "2024-12-31")))))).
Defined.

(** C8 as stated fails when the start date cannot be read. With the start
    date [2024/01/01], which is not in the form the code reads, and the end
    date [2023-01-01], the filter keeps every candidate that has a published
    date: the candidate published on 2024-03-10 is kept although it is after
    the end date, and the one published on 2022-12-31 as well. *)
Lemma unreadable_start_keeps_outside_window :
  @strptime ascii_builtins (py "2024/01/01") = None
  /\ @strptime ascii_builtins (py "2023-01-01") = Some (mkDate 2023 1 1)
  /\ @strptime ascii_builtins (py "2024-03-10") = Some (mkDate 2024 3 10)
  /\ @_filter_by_date ascii_builtins dated_candidates (Some (py "2024/01/01"))
       (Some (py "2023-01-01"))
     = [candidate (py "2403.00001") (py "Inside") (py "a") (Some (py "2024-03-10"));
        candidate (py "2212.00002") (py "Before") (py "b") (Some (py "2022-12-31"));
        candidate (py "0000.00003") (py "Unreadable") (py "c") (Some (py "March 2024"))]
  /\ date_leb (mkDate 2024 3 10) (mkDate 2023 1 1) = false
  /\ ~ @in_window ascii_builtins (mkDate 2024 3 10) (Some (py "2024/01/01"))
         (Some (py "2023-01-01")).
Proof.
  split; [reflexivity|]. split; [reflexivity|]. split; [reflexivity|].
  split; [vm_compute; reflexivity|]. split; [reflexivity|].
  intros [_ Hhi]. specialize (Hhi (mkDate 2023 1 1) eq_refl eq_refl). discriminate.
Qed.

(** [identify_sota] when the search finds nothing. *)
Lemma identify_sota_no_candidates_witness :
  (@search ascii_builtins prose_services (py "quantum error correction") None None 20
     (py "relevance") (py "descending") []).1 = Ok []
  /\ (@identify_sota ascii_builtins prose_services (py "key") (mkDate 2024 7 1)
        (py "quantum error correction") 20 2 None None true []).1
     = Ok (mkSotaResult (py "quantum error correction") 0 2 [] 20 None None)
  /\ exists failed,
      (@identify_sota ascii_builtins prose_services (py "key") (mkDate 2024 7 1)
         (py "quantum error correction") 20 2 None None true []).2
      = [] ++ [mkEvent (ArxivGet (_build_query (py "quantum error correction")) 20
                          (py "relevance") (py "descending")) failed].
Proof.
  assert (Hsearch : (@search ascii_builtins prose_services (py "quantum error correction")
                       None None 20 (py "relevance") (py "descending") []).1 = Ok [])
    by reflexivity.
  split; [exact Hsearch|].
  exact (@identify_sota_no_candidates ascii_builtins prose_services (py "key")
           (mkDate 2024 7 1) (py "quantum error correction") 20 2 None None true []
           Hsearch).
Defined.



(* ===================================================================== *)
(** * Further properties: strings *)
(* ===================================================================== *)

Lemma lstrip_split (s : pystr) :
  exists ws, s = ws ++ lstrip s /\ Forall (fun c => isspace c = true) ws.
Proof.
  induction s as [|c s (ws & Hs & Hws)]; [exists []; split; [reflexivity|constructor]|].
  simpl. destruct (isspace c) eqn:E.
  - exists (c :: ws). split; [simpl; congruence|now constructor].
  - exists []. split; [reflexivity|constructor].
Qed.

Lemma lstrip_head (s : pystr) (c : codepoint) (t : pystr) :
  lstrip s = c :: t -> isspace c = false.
Proof.
  induction s as [|d s IH]; simpl; [discriminate|].
  destruct (isspace d) eqn:E; [assumption|]. intros [= <- <-]. exact E.
Qed.

Lemma lstrip_fixed (c : codepoint) (t : pystr) :
  isspace c = false -> lstrip (c :: t) = c :: t.
Proof. intros E. simpl. now rewrite E. Qed.

(** A string is trimmed when neither its first nor its last character is
    whitespace. *)
Lemma rstrip_of_headed (c : codepoint) (t : pystr) :
  isspace c = false ->
  exists v l, rstrip (c :: t) = c :: v /\ last (c :: v) = Some l /\ isspace l = false.
Proof.
  intros Hc. unfold rstrip.
  destruct (lstrip_split (rev (c :: t))) as (ws & Hrev & Hws).
  destruct (lstrip (rev (c :: t))) as [|l u] eqn:Hu.
  - exfalso. rewrite app_nil_r in Hrev. simpl in Hrev.
    assert (Hin : c ∈ ws) by (rewrite <- Hrev; apply elem_of_app; right; left).
    rewrite Forall_forall in Hws. specialize (Hws c Hin). congruence.
  - pose proof (lstrip_head _ _ _ Hu) as Hl.
    assert (Hlast : last (l :: u) = Some c).
    { assert (H0 : last (rev (c :: t)) = Some c) by (simpl; apply last_snoc).
      rewrite Hrev in H0. rewrite last_app in H0. simpl in H0.
      destruct (last (l :: u)) eqn:E; [now simpl in H0|].
      apply last_None in E. discriminate. }
    destruct (rev (l :: u)) as [|c' v] eqn:Hr.
    + apply (f_equal (@rev codepoint)) in Hr. rewrite rev_involutive in Hr. discriminate.
    + assert (c' = c).
      { apply (f_equal (@rev codepoint)) in Hr. rewrite rev_involutive in Hr. simpl in Hr.
        rewrite Hr, last_snoc in Hlast. congruence. }
      subst c'. exists v, l. split; [reflexivity|]. split; [|assumption].
      rewrite <- Hr. simpl. apply last_snoc.
Qed.

Lemma rstrip_fixed (s : pystr) (l : codepoint) :
  last s = Some l -> isspace l = false -> rstrip s = s.
Proof.
  intros Hlast Hl. unfold rstrip.
  destruct (rev s) as [|c u] eqn:Hr.
  - apply (f_equal (@rev codepoint)) in Hr. rewrite rev_involutive in Hr. now subst.
  - assert (c = l).
    { apply (f_equal (@rev codepoint)) in Hr. rewrite rev_involutive in Hr. simpl in Hr.
      rewrite Hr, last_snoc in Hlast. congruence. }
    subst c. rewrite lstrip_fixed by assumption. rewrite <- Hr. apply rev_involutive.
Qed.

(** [strip] leaves a stripped string as it is. *)
Lemma strip_strip (s : pystr) : strip (strip s) = strip s.
Proof.
  unfold strip at 2 3.
  destruct (lstrip s) as [|c t] eqn:Hs; [reflexivity|].
  pose proof (lstrip_head _ _ _ Hs) as Hc.
  destruct (rstrip_of_headed c t Hc) as (v & l & Hr & Hlast & Hl).
  rewrite Hr. unfold strip. rewrite lstrip_fixed by assumption.
  now apply (rstrip_fixed _ l).
Qed.

Lemma split_chr_nonempty (sep : codepoint) (s : pystr) : split_chr sep s <> [].
Proof.
  destruct s as [|c s]; simpl; [discriminate|].
  destruct (c =? sep)%N; [discriminate|]. destruct (split_chr sep s); discriminate.
Qed.

(** Splitting at a separator splits both sides. *)
Lemma split_chr_app (sep : codepoint) (a b : pystr) :
  split_chr sep (a ++ sep :: b) = split_chr sep a ++ split_chr sep b.
Proof.
  induction a as [|c a IH]; simpl.
  - now rewrite N.eqb_refl.
  - destruct (c =? sep)%N; [now rewrite IH|].
    rewrite IH. pose proof (split_chr_nonempty sep a) as Hne.
    destruct (split_chr sep a); [congruence|reflexivity].
Qed.

(* ===================================================================== *)
(** * Further properties: the parsers of generated text *)
(* ===================================================================== *)

Section Parsers.
Context `{PyBuiltins}.

Lemma weakness_step_appends (acc : list pystr) (line : pystr) :
  weakness_step acc line = acc ++ weakness_step [] line.
Proof.
  unfold weakness_step. cbv zeta.
  repeat match goal with
         | |- context [if ?b then _ else _] => destruct b
         end; simpl; now rewrite ?app_nil_r.
Qed.

(** X1. Every weakness the line loop of [_extract_from_section] returns is
    non-empty, carries no whitespace at either end, and is not "none" or
    "n/a" in any letter case: this holds for bulleted and for numbered
    lines alike. *)
Theorem extracted_weaknesses_are_clean (response : pystr) :
  Forall (fun w => w <> [] /\ strip w = w
                   /\ str_in (str_lower w) [py "none"; py "n/a"] = false)
    (parse_weaknesses response).
Proof.
  unfold parse_weaknesses. apply fold_left_invariant; [constructor|].
  intros acc line Hacc. unfold weakness_step. cbv zeta.
  destruct (is_bullet_line (strip line)).
  - destruct (negb _ && negb _) eqn:E; [|assumption].
    apply andb_true_iff in E as [E1 E2].
    apply Forall_app. split; [assumption|]. constructor; [|constructor].
    split; [|split].
    + apply negb_true_iff, bool_decide_eq_false in E1. exact E1.
    + apply strip_strip.
    + apply negb_true_iff in E2. unfold str_in in *. simpl in *.
      repeat (apply orb_false_iff in E2 as [? E2]).
      repeat (apply orb_false_iff; split); assumption.
  - destruct (_ && _ && _); [|assumption].
    destruct (negb _ && negb _) eqn:E; [|assumption].
    apply andb_true_iff in E as [E1 E2].
    apply Forall_app. split; [assumption|]. constructor; [|constructor].
    split; [|split].
    + apply negb_true_iff, bool_decide_eq_false in E1. exact E1.
    + apply strip_strip.
    + apply negb_true_iff in E2. exact E2.
Qed.

(** X2. The line loop of [_extract_from_section] reads the reply one line
    at a time and keeps no state between lines: the weaknesses of two texts
    joined by a line break are those of the first followed by those of the
    second. *)
Theorem weaknesses_are_parsed_line_by_line (a b : pystr) :
  parse_weaknesses (a ++ LF :: b) = parse_weaknesses a ++ parse_weaknesses b.
Proof.
  unfold parse_weaknesses.
  rewrite !(fold_left_append weakness_step (weakness_step [])) by apply weakness_step_appends.
  rewrite split_chr_app, fmap_app, concat_app. reflexivity.
Qed.
End Parsers.

(* ===================================================================== *)
(** * Further properties: code fences around a reply *)
(* ===================================================================== *)

Lemma lstrip_elem (s : pystr) (x : codepoint) : x ∈ lstrip s -> x ∈ s.
Proof.
  destruct (lstrip_split s) as (ws & Hs & _). intros Hx.
  rewrite Hs. apply elem_of_app. now right.
Qed.

Lemma strip_elem (s : pystr) (x : codepoint) : x ∈ strip s -> x ∈ s.
Proof.
  unfold strip, rstrip. intros Hx.
  apply list_elem_of_In, in_rev, list_elem_of_In, lstrip_elem in Hx.
  apply list_elem_of_In, in_rev, list_elem_of_In in Hx. now apply lstrip_elem.
Qed.

Lemma strip_fixed (c l : codepoint) (t : pystr) :
  isspace c = false -> last (c :: t) = Some l -> isspace l = false ->
  strip (c :: t) = c :: t.
Proof.
  intros Hc Hlast Hl. unfold strip. rewrite lstrip_fixed by assumption.
  now apply (rstrip_fixed _ l).
Qed.

Lemma find_fence_absent (s : pystr) :
  backtick ∉ s -> find_sub (py "```") s = None.
Proof.
  induction s as [|c s IH]; intros Hs; [reflexivity|].
  apply not_elem_of_cons in Hs as [Hc Hs].
  cbn [find_sub]. rewrite (IH Hs).
  change (py "```") with [backtick; backtick; backtick].
  cbn [startswith]. destruct (N.eqb_spec backtick c) as [E|_]; [now destruct Hc|reflexivity].
Qed.

Lemma find_fence_close (body : pystr) :
  backtick ∉ body -> find_sub (py "```") (body ++ py "```") = Some (body, []).
Proof.
  induction body as [|c body IH]; intros Hs; [reflexivity|].
  apply not_elem_of_cons in Hs as [Hc Hs].
  cbn [app find_sub]. rewrite (IH Hs).
  change (py "```") with [backtick; backtick; backtick].
  cbn [startswith]. destruct (N.eqb_spec backtick c) as [E|_]; [now destruct Hc|reflexivity].
Qed.

Lemma find_json_fence_absent (body : pystr) :
  backtick ∉ body -> find_sub (py "```json") (body ++ py "```") = None.
Proof.
  induction body as [|c body IH]; intros Hs; [reflexivity|].
  apply not_elem_of_cons in Hs as [Hc Hs].
  cbn [app find_sub]. rewrite (IH Hs).
  change (py "```json") with [backtick; backtick; backtick; 106; 115; 111; 110]%N.
  cbn [startswith]. destruct (N.eqb_spec backtick c) as [E|_]; [now destruct Hc|reflexivity].
Qed.

Lemma last_fenced (s : pystr) : last (s ++ py "```") = Some backtick.
Proof.
  change (py "```") with ([backtick; backtick] ++ [backtick]).
  rewrite app_assoc. apply last_snoc.
Qed.

(** X3. The cleaning applied before [json.loads] takes a reply out of its
    code fence: for a body without backticks, the reply made of the opening
    fence, the body and the closing fence is cleaned to the body itself,
    whether the opening fence is the one marked json or (when the reply does
    not contain that marker) the bare one. A reply without backticks is
    only trimmed. *)
Theorem clean_response_unwraps_fences (body : pystr) :
  backtick ∉ body ->
  clean_response (py "```json" ++ body ++ py "```") = body
  /\ (contains (py "```json") (py "```" ++ body ++ py "```") = false ->
      clean_response (py "```" ++ body ++ py "```") = body)
  /\ clean_response body = strip body.
Proof.
  intros Hbody. split; [|split].
  - unfold clean_response.
    assert (Hstrip : strip (py "```json" ++ body ++ py "```")
                     = py "```json" ++ body ++ py "```").
    { apply (strip_fixed _ backtick); [reflexivity| |reflexivity].
      change (last ((py "```json" ++ body) ++ py "```") = Some backtick).
      apply last_fenced. }
    rewrite Hstrip.
    assert (Hfind : find_sub (py "```json") (py "```json" ++ body ++ py "```")
                    = Some ([], body ++ py "```")) by reflexivity.
    unfold contains, split_item1. rewrite Hfind.
    unfold split_item0 at 2. rewrite (find_json_fence_absent _ Hbody).
    unfold split_item0. now rewrite (find_fence_close _ Hbody).
  - intros Hplain. unfold clean_response.
    assert (Hstrip : strip (py "```" ++ body ++ py "```") = py "```" ++ body ++ py "```").
    { apply (strip_fixed _ backtick); [reflexivity| |reflexivity].
      change (last ((py "```" ++ body) ++ py "```") = Some backtick).
      apply last_fenced. }
    rewrite Hstrip, Hplain.
    assert (Hfind : find_sub (py "```") (py "```" ++ body ++ py "```")
                    = Some ([], body ++ py "```")) by reflexivity.
    unfold contains, split_item1. rewrite Hfind.
    unfold split_item0. rewrite (find_fence_close _ Hbody).
    now rewrite (find_fence_absent _ Hbody).
  - unfold clean_response.
    assert (Hs : backtick ∉ strip body) by (intros Hin; now apply Hbody, strip_elem).
    assert (Hnone : find_sub (py "```") (strip body) = None) by now apply find_fence_absent.
    assert (Hjson : find_sub (py "```json") (strip body) = None).
    { clear Hnone. induction (strip body) as [|c s IH]; [reflexivity|].
      apply not_elem_of_cons in Hs as [Hc Hs].
      cbn [find_sub]. rewrite (IH Hs).
      change (py "```json") with [backtick; backtick; backtick; 106; 115; 111; 110]%N.
      cbn [startswith]. destruct (N.eqb_spec backtick c) as [E|_]; [now destruct Hc|reflexivity]. }
    unfold contains. now rewrite Hjson, Hnone.
Qed.

(* ===================================================================== *)
(** * Further properties: the stages of the synthesis pipeline *)
(* ===================================================================== *)

Section Emits.
Context {A B : Type}.

Lemma emits_ret (a : A) (R : list event -> Prop) : R [] -> emits (ret a) R.
Proof. intros HR log. exists []. split; [now rewrite app_nil_r|assumption]. Qed.

Lemma emits_lift (o : outcome A) (R : list event -> Prop) : R [] -> emits (lift o) R.
Proof. intros HR log. exists []. split; [now rewrite app_nil_r|assumption]. Qed.

Lemma emits_weaken (m : M A) (R R' : list event -> Prop) :
  emits m R -> (forall evs, R evs -> R' evs) -> emits m R'.
Proof. intros Hm HR log. destruct (Hm log) as (evs & E & HRe). exists evs. auto. Qed.

Lemma emits_bind (m : M A) (k : A -> M B) (R1 R2 R : list event -> Prop) :
  emits m R1 -> (forall a, emits (k a) R2) ->
  (forall e1, R1 e1 -> R e1) ->
  (forall e1 e2, R1 e1 -> R2 e2 -> R (e1 ++ e2)) ->
  emits (bind m k) R.
Proof.
  intros Hm Hk Hleft Hboth log. unfold bind.
  destruct (Hm log) as (e1 & E1 & H1). destruct (m log) as [[a|e] log1]; simpl in E1; subst log1.
  - destruct (Hk a (log ++ e1)) as (e2 & E2 & H2). exists (e1 ++ e2).
    rewrite E2, app_assoc. auto.
  - exists e1. simpl. auto.
Qed.

Lemma emits_try_except (m : M A) (h : exn -> M A) (R : list event -> Prop) :
  emits m R -> (forall e, emits (h e) (fun evs => evs = [])) -> emits (try_except m h) R.
Proof.
  intros Hm Hh log. unfold try_except.
  destruct (Hm log) as (e1 & E1 & H1). destruct (m log) as [[a|e] log1]; simpl in E1; subst log1.
  - exists e1. auto.
  - destruct (Hh e (log ++ e1)) as (e2 & E2 & ->). exists e1.
    rewrite E2, app_nil_r. auto.
Qed.
End Emits.

Lemma at_most_nil (n : nat) (Q : event -> Prop) : at_most n Q [].
Proof. split; [simpl; lia|constructor]. Qed.

Lemma at_most_app (n1 n2 : nat) (Q : event -> Prop) (e1 e2 : list event) :
  at_most n1 Q e1 -> at_most n2 Q e2 -> at_most (n1 + n2) Q (e1 ++ e2).
Proof.
  intros [L1 F1] [L2 F2]. split; [rewrite length_app; lia|now apply Forall_app].
Qed.

Lemma at_most_more (n n' : nat) (Q : event -> Prop) (evs : list event) :
  (n <= n')%nat -> at_most n Q evs -> at_most n' Q evs.
Proof. intros Hn [L F]. split; [lia|assumption]. Qed.

Lemma emits_bind_at_most {A B} (m : M A) (k : A -> M B) (n1 n2 : nat) (Q : event -> Prop) :
  emits m (at_most n1 Q) -> (forall a, emits (k a) (at_most n2 Q)) ->
  emits (bind m k) (at_most (n1 + n2) Q).
Proof.
  intros Hm Hk. apply (emits_bind m k (at_most n1 Q) (at_most n2 Q)); auto.
  - intros e1. apply at_most_more. lia.
  - intros e1 e2. apply at_most_app.
Qed.

Lemma emits_for_each {A S} (body : S -> A -> M S) (n : nat) (Q : event -> Prop)
    (xs : list A) (acc : S) :
  (forall acc x, emits (body acc x) (at_most n Q)) ->
  emits (for_each body xs acc) (at_most (length xs * n) Q).
Proof.
  intros Hbody. revert acc. induction xs as [|x xs IH]; intros acc.
  - apply emits_ret, at_most_nil.
  - cbn [for_each length]. apply (emits_weaken _ (at_most (n + length xs * n) Q)).
    + apply emits_bind_at_most; [apply Hbody|apply IH].
    + intros evs. apply at_most_more. lia.
Qed.

Section Stages.
Context `{PyBuiltins} (env : services).

Lemma debug_title_textual (d : list (pystr * pyval)) :
  textual (default PNone (assoc_get (py "title") d)) = true ->
  debug_title (PDict d) = Ok tt.
Proof.
  unfold debug_title, py_get, obind.
  destruct (assoc_get (py "title") d) as [[| | | |s| |]|]; simpl; try discriminate;
    try reflexivity.
  intros _. destruct (negb _); reflexivity.
Qed.

Lemma debug_section_textual (d : list (pystr * pyval)) (key : pystr) :
  textual (default PNone (assoc_get key d)) = true ->
  debug_section (PDict d) key = Ok tt.
Proof.
  unfold debug_section, py_get, obind.
  destruct (assoc_get key d) as [[| | | |s| |]|]; simpl; try discriminate;
    try reflexivity.
  intros _. destruct (negb _); reflexivity.
Qed.

(** X4. What [parse_pdf] does with the reply of the generation service.
    When [json.loads] rejects the cleaned reply, the paper falls back to the
    title "Unknown", the first 500 characters of the text as abstract and the
    first 2000 as method (both [None] for an empty text), without
    experiments or limitations. When the reply is an object whose five
    fields are strings or null, these are the fields of the paper, a missing
    one being [None]; a title that is a non-zero number raises [TypeError].
    When the reply is JSON but not an object, [AttributeError] is raised:
    only the decoding error is handled. *)
Theorem parse_pdf_outcomes (text paper_id : pystr) (log : list event) (response : pystr) :
  generation env log (mkChat (ExtractSectionsPrompt (take 8000 text)) 0.1%float 3000)
  = Ok response ->
  match json_loads (clean_response response) with
  | None => (parse_pdf env text paper_id log).1 = Ok (unparsed_paper text paper_id)
  | Some (PDict d) =>
      let field key := default PNone (assoc_get key d) in
      (textual (field (py "title")) = true ->
       textual (field (py "abstract")) = true ->
       textual (field (py "method")) = true ->
       textual (field (py "experiments")) = true ->
       textual (field (py "limitations")) = true ->
       (parse_pdf env text paper_id log).1
       = Ok (mkParsedPaper paper_id (field (py "title")) (field (py "abstract"))
               (field (py "method")) (field (py "experiments"))
               (field (py "limitations"))))
      /\ (forall z, z <> 0 -> field (py "title") = PInt z ->
          (parse_pdf env text paper_id log).1 = Raise TypeError)
  | Some _ => (parse_pdf env text paper_id log).1 = Raise AttributeError
  end.
Proof.
  intros Hgen. unfold parse_pdf, bind. rewrite chat_completion_run, Hgen.
  unfold lift, parse_pdf_decode, loads.
  destruct (json_loads (clean_response response)) as [[| | | | | |d]|]; try reflexivity.
  cbv zeta. split.
  - intros Ht Ha Hm He Hl. cbn [obind fst].
    rewrite (debug_title_textual d Ht), !debug_section_textual by assumption.
    reflexivity.
  - intros z Hz Htitle. cbn [obind fst]. unfold debug_title, py_get. cbn [obind].
    destruct (assoc_get (py "title") d) as [v|]; simpl in Htitle; [|discriminate].
    subst v. simpl.
    destruct (Z.eqb_spec z 0) as [|_]; [contradiction|reflexivity].
Qed.

Lemma emits_chat (p : prompt) (t : float) (n : Z) :
  emits (chat_completion env p t n)
    (fun evs => exists failed, evs = [mkEvent (GroqPost (mkChat p t n)) failed]).
Proof.
  intros log. rewrite chat_completion_run. eexists. split; [reflexivity|].
  eexists. reflexivity.
Qed.

Lemma emits_extract_from_section (name : pystr) (text : pyval) :
  emits (_extract_from_section env name text) (at_most 1 weakness_request).
Proof.
  intros log. unfold _extract_from_section, bind, lift.
  destruct (py_slice 3000 text) as [shown|e] eqn:E.
  - rewrite chat_completion_run.
    exists [mkEvent (GroqPost (mkChat (WeaknessPrompt name shown) 0.4%float 1000))
              (match generation env log (mkChat (WeaknessPrompt name shown) 0.4%float 1000)
               with Ok _ => false | Raise _ => true end)].
    split; [now destruct (generation env log _)|].
    split; [simpl; lia|]. constructor; [|constructor].
    destruct text; try discriminate; injection E as <-.
    + exists name, (PStr (take 3000 s)), (length (take 3000 s)).
      split; [reflexivity|]. split; [reflexivity|]. rewrite length_take. lia.
    + exists name, (PList (take 3000 items)), (length (take 3000 items)).
      split; [reflexivity|]. split; [reflexivity|]. rewrite length_take. lia.
  - exists []. split; [simpl; now rewrite app_nil_r|apply at_most_nil].
Qed.

Lemma emits_section_step (acc : list pystr) (section : pystr * pyval) :
  emits (section_step env acc section) (at_most 1 weakness_request).
Proof.
  destruct section as [name text]. unfold section_step.
  destruct (truthy text); [|apply emits_ret, at_most_nil].
  apply (emits_bind_at_most _ _ 0 1); [apply emits_lift, at_most_nil|].
  intros n. destruct (50 <? n)%nat; [|apply emits_ret, at_most_nil].
  apply (emits_bind_at_most _ _ 1 0); [apply emits_extract_from_section|].
  intros found. apply emits_ret, at_most_nil.
Qed.

Lemma emits_forced_pass (p : ParsedPaper) (found : list pystr) :
  emits (if bool_decide (found = []) && truthy (pp_abstract p)
         then more <- _extract_from_section env (py "paper_content") (pp_abstract p);;
              ret (found ++ more)
         else ret found)
    (at_most 1 weakness_request).
Proof.
  destruct (bool_decide (found = []) && truthy (pp_abstract p));
    [|apply emits_ret, at_most_nil].
  apply (emits_bind_at_most _ _ 1 0); [apply emits_extract_from_section|].
  intros more. apply emits_ret, at_most_nil.
Qed.

(** X5. [extract_from_paper] makes at most five calls to the generation
    service for one paper (one per section, and one more on the abstract
    when nothing was found), all of them weakness prompts at temperature 0.4
    and 1000 tokens, none showing more than 3000 characters of a section. *)
Theorem extract_from_paper_call_bound (p : ParsedPaper) (log : list event) :
  exists evs,
    (extract_from_paper env p log).2 = log ++ evs
    /\ (length evs <= 5)%nat
    /\ Forall weakness_request evs.
Proof.
  revert log. change (emits (extract_from_paper env p) (at_most 5 weakness_request)).
  unfold extract_from_paper.
  apply (emits_bind_at_most _ _ 4 1).
  - apply (emits_for_each (section_step env) 1 weakness_request
             [(py "method", pp_method p); (py "experiments", pp_experiments p);
              (py "limitations", pp_limitations p); (py "abstract", pp_abstract p)] []).
    apply emits_section_step.
  - intros found.
    apply (emits_bind_at_most _ _ 1 0); [apply emits_forced_pass|].
    intros all_weaknesses. apply emits_ret, at_most_nil.
Qed.

Lemma section_step_short (acc : list pystr) (name : pystr) (text : pyval) (log : list event) :
  short_text text = true -> section_step env acc (name, text) log = (Ok acc, log).
Proof.
  unfold section_step. destruct text as [| | | |s| |]; try discriminate; [reflexivity|].
  simpl. intros Hs. apply Nat.leb_le in Hs.
  destruct (negb _); [|reflexivity].
  unfold bind, lift. simpl.
  destruct (Nat.ltb_spec 50 (length s)); [lia|reflexivity].
Qed.

(** X6. A paper whose sections are all absent or at most 50 characters long
    is not mined section by section. If its abstract is empty or absent,
    [extract_from_paper] returns no weakness and calls nothing. Otherwise it
    makes exactly one call, on the abstract under the name paper_content,
    and returns the weaknesses read from the reply, or raises what the call
    raised. *)
Theorem extract_from_paper_short_sections (p : ParsedPaper) (log : list event) :
  short_text (pp_method p) = true ->
  short_text (pp_experiments p) = true ->
  short_text (pp_limitations p) = true ->
  short_text (pp_abstract p) = true ->
  extract_from_paper env p log
  = if truthy (pp_abstract p) then
      let req := mkChat (WeaknessPrompt (py "paper_content") (pp_abstract p))
                   0.4%float 1000 in
      (match generation env log req with
       | Ok response => Ok (mkPaperWeaknesses (pp_paper_id p) (parse_weaknesses response))
       | Raise e => Raise e
       end,
       log ++ [mkEvent (GroqPost req)
                 (match generation env log req with Ok _ => false | Raise _ => true end)])
    else (Ok (mkPaperWeaknesses (pp_paper_id p) []), log).
Proof.
  intros Hm He Hl Ha. unfold extract_from_paper. cbv zeta. cbn [for_each].
  unfold bind.
  rewrite (section_step_short _ _ _ _ Hm). cbv iota beta.
  rewrite (section_step_short _ _ _ _ He). cbv iota beta.
  rewrite (section_step_short _ _ _ _ Hl). cbv iota beta.
  rewrite (section_step_short _ _ _ _ Ha). cbv iota beta.
  unfold ret at 1. cbv iota beta.
  rewrite bool_decide_eq_true_2 by reflexivity. rewrite andb_true_l.
  destruct (truthy (pp_abstract p)) eqn:Ht; [|reflexivity].
  destruct (pp_abstract p) as [| | | |s| |] eqn:Eabs; try discriminate.
  simpl in Ha. apply Nat.leb_le in Ha.
  cbv zeta. unfold _extract_from_section, bind, lift. cbn [py_slice].
  rewrite take_ge by lia. rewrite chat_completion_run.
  destruct (generation env log _); reflexivity.
Qed.

(** X7. Once the generation call has answered, [WeaknessFusion.analyze]
    always returns: the handler covers every exception. An object gives its
    own three values unchecked, a missing key giving the empty list; any
    other reply (not JSON, or JSON that is not an object) gives the set
    algebra on the two input lists, each set listed in some order. *)
Theorem analyze_recovers_from_any_reply (weaknesses_a weaknesses_b : list pystr)
    (log : list event) (response : pystr) :
  generation env log (mkChat (FusionPrompt weaknesses_a weaknesses_b) 0.2%float 1500)
  = Ok response ->
  exists analysis,
    (analyze env weaknesses_a weaknesses_b log).1 = Ok analysis
    /\ match json_loads (clean_response response) with
       | Some (PDict d) =>
           analysis
           = mkWeaknessAnalysis (default (PList []) (assoc_get (py "shared") d))
               (default (PList []) (assoc_get (py "paper_a_only") d))
               (default (PList []) (assoc_get (py "paper_b_only") d))
       | _ => set_algebra_of weaknesses_a weaknesses_b analysis
       end.
Proof.
  intros Hgen. unfold analyze, bind. rewrite chat_completion_run, Hgen.
  unfold lift, analyze_decode, loads.
  destruct (json_loads (clean_response response)) as [[| | | | | |d]|];
    (eexists; split; [reflexivity|]); try apply set_fallback_algebra.
  reflexivity.
Qed.

Lemma synthesize_on_lists (s a b : list pyval) (title_a title_b : pyval)
    (log : list event) (response : pystr) :
  generation env log
    (mkChat (SynthesisPrompt title_a title_b (mkWeaknessAnalysis (PList s) (PList a) (PList b)))
       0.5%float 2500) = Ok response ->
  synthesize env (mkWeaknessAnalysis (PList s) (PList a) (PList b)) title_a title_b log
  = (otry (synthesize_decode response) is_Exception (fun _ => Ok default_method),
     log ++ [mkEvent (GroqPost (mkChat (SynthesisPrompt title_a title_b
                                          (mkWeaknessAnalysis (PList s) (PList a) (PList b)))
                                  0.5%float 2500)) false]).
Proof.
  intros Hgen.
  assert (Hb : forall l, bullets_of (PList l) = Ok tt) by (intros [|? ?]; reflexivity).
  unfold synthesize, bind, lift.
  cbn [shared paper_a_only paper_b_only py_add obind]. rewrite !Hb.
  rewrite chat_completion_run, Hgen. reflexivity.
Qed.

(** X8. [MethodSynthesizer.synthesize] builds its prompt before it calls the
    service, from the three fields of the analysis as they are. When the
    three are lists, it makes exactly one call and, if the call answers,
    returns a method. When each is a list or a string but they are not all
    of one kind (a generated object may hold a string where a list was asked
    for), concatenating them raises [TypeError] and no call is made. *)
Theorem synthesize_needs_fields_of_one_kind (analysis : WeaknessAnalysis)
    (title_a title_b : pyval) (log : list event) :
  (is_list (shared analysis) = true -> is_list (paper_a_only analysis) = true ->
   is_list (paper_b_only analysis) = true ->
   forall response,
     generation env log (mkChat (SynthesisPrompt title_a title_b analysis) 0.5%float 2500)
     = Ok response ->
     exists pm,
       synthesize env analysis title_a title_b log
       = (Ok pm, log ++ [mkEvent (GroqPost (mkChat (SynthesisPrompt title_a title_b analysis)
                                              0.5%float 2500)) false]))
  /\ (is_list (shared analysis) || is_str (shared analysis) = true ->
      is_list (paper_a_only analysis) || is_str (paper_a_only analysis) = true ->
      is_list (paper_b_only analysis) || is_str (paper_b_only analysis) = true ->
      is_list (shared analysis) && is_list (paper_a_only analysis)
        && is_list (paper_b_only analysis) = false ->
      is_str (shared analysis) && is_str (paper_a_only analysis)
        && is_str (paper_b_only analysis) = false ->
      synthesize env analysis title_a title_b log = (Raise TypeError, log)).
Proof.
  split.
  - intros Hs Ha Hb response Hgen.
    destruct analysis as [s a b]; simpl in Hs, Ha, Hb.
    destruct s as [| | | | |s|]; try discriminate.
    destruct a as [| | | | |a|]; try discriminate.
    destruct b as [| | | | |b|]; try discriminate.
    rewrite (synthesize_on_lists _ _ _ _ _ _ _ Hgen), synthesize_decode_cases.
    eexists. reflexivity.
  - intros Hs Ha Hb Hlists Hstrs.
    destruct analysis as [s a b]; simpl in *.
    destruct s as [| | | |s|s|]; try discriminate;
      destruct a as [| | | |a|a|]; try discriminate;
      destruct b as [| | | |b|b|]; try discriminate; reflexivity.
Qed.

(** X9. [ComparativeAnalyzer.generate_comparison] joins the components of
    the proposed method before it calls the service: components that cannot
    be joined raise [TypeError] and no call is made. Otherwise, once the call
    has answered, it returns whatever value [json.loads] reads from the
    cleaned reply, unchecked, and the default table when the reply is not
    JSON. The default table has the five aspects as its keys, in order, and
    a non-empty text for paper_a, paper_b and proposed in every row. *)
Theorem generate_comparison_outcomes (paper_a paper_b : ParsedPaper)
    (weaknesses_a weaknesses_b : list pystr) (proposed : ProposedMethod)
    (log : list event) :
  (py_joinable (components proposed) = false ->
   generate_comparison env paper_a paper_b weaknesses_a weaknesses_b proposed log
   = (Raise TypeError, log))
  /\ (py_joinable (components proposed) = true ->
      forall response,
        generation env log
          (mkChat (ComparisonPrompt (py_or (pp_title paper_a) (PStr (py "Untitled Paper A")))
                     (py_or (pp_title paper_b) (PStr (py "Untitled Paper B")))
                     (take 4 weaknesses_a) (take 4 weaknesses_b) proposed)
             0.3%float 2500) = Ok response ->
        (generate_comparison env paper_a paper_b weaknesses_a weaknesses_b proposed log).1
        = Ok (default default_comparison (json_loads (clean_response response))))
  /\ exists rows,
      default_comparison = PDict rows
      /\ rows.*1 = aspects
      /\ Forall (fun row =>
                   Forall (fun column =>
                             exists text, py_get row column PNone = Ok (PStr text)
                                          /\ text <> [])
                     [py "paper_a"; py "paper_b"; py "proposed"])
           rows.*2.
Proof.
  split; [|split].
  - intros Hj. unfold generate_comparison, bind, lift. now rewrite Hj.
  - intros Hj response Hgen. unfold generate_comparison, bind, lift. rewrite Hj.
    rewrite chat_completion_run, Hgen. unfold loads.
    destruct (json_loads (clean_response response)); reflexivity.
  - eexists. split; [reflexivity|]. split; [reflexivity|].
    repeat constructor; eexists; (split; [reflexivity|discriminate]).
Qed.

(** ** The whole pipeline when no reply is JSON *)

Section WithoutJson.
Hypothesis Hanswers : answers_without_json env.

Lemma chat_answers (p : prompt) (t : float) (n : Z) (log : list event) :
  exists response,
    chat_completion env p t n log
    = (Ok response, log ++ [mkEvent (GroqPost (mkChat p t n)) false])
    /\ json_loads (clean_response response) = None.
Proof.
  destruct (Hanswers log (mkChat p t n)) as (response & Hgen & Hjson).
  exists response. rewrite chat_completion_run, Hgen. auto.
Qed.

Lemma parse_pdf_unparsed (text paper_id : pystr) (log : list event) :
  exists log', parse_pdf env text paper_id log = (Ok (unparsed_paper text paper_id), log').
Proof.
  unfold parse_pdf, bind.
  destruct (chat_answers (ExtractSectionsPrompt (take 8000 text)) 0.1%float 3000 log)
    as (response & -> & Hjson).
  unfold lift, parse_pdf_decode, loads. rewrite Hjson. eexists. reflexivity.
Qed.

Lemma section_step_answers (acc : list pystr) (name : pystr) (text : pyval)
    (log : list event) :
  textual text = true ->
  exists acc' log', section_step env acc (name, text) log = (Ok acc', log').
Proof.
  intros Ht. unfold section_step.
  destruct text as [| | | |s| |]; try discriminate; [eexists _, _; reflexivity|].
  destruct (truthy (PStr s)); [|eexists _, _; reflexivity].
  unfold bind, lift. cbn [py_len]. destruct (50 <? length s)%nat; [|eexists _, _; reflexivity].
  unfold _extract_from_section, bind, lift. cbn [py_slice].
  destruct (chat_answers (WeaknessPrompt name (PStr (take 3000 s))) 0.4%float 1000 log)
    as (response & -> & _).
  eexists _, _. reflexivity.
Qed.

Lemma extract_from_paper_answers (p : ParsedPaper) (log : list event) :
  textual (pp_method p) = true -> textual (pp_experiments p) = true ->
  textual (pp_limitations p) = true -> textual (pp_abstract p) = true ->
  exists found log',
    extract_from_paper env p log = (Ok (mkPaperWeaknesses (pp_paper_id p) found), log').
Proof.
  intros Hm He Hl Ha. unfold extract_from_paper. cbv zeta. cbn [for_each]. unfold bind.
  destruct (section_step_answers [] (py "method") _ log Hm) as (a1 & l1 & ->).
  destruct (section_step_answers a1 (py "experiments") _ l1 He) as (a2 & l2 & ->).
  destruct (section_step_answers a2 (py "limitations") _ l2 Hl) as (a3 & l3 & ->).
  destruct (section_step_answers a3 (py "abstract") _ l3 Ha) as (a4 & l4 & ->).
  unfold ret at 1.
  destruct (bool_decide (a4 = []) && truthy (pp_abstract p)) eqn:E;
    [|eexists _, _; reflexivity].
  apply andb_true_iff in E as [_ E].
  destruct (pp_abstract p) as [| | | |s| |]; try discriminate.
  unfold _extract_from_section, bind, lift. cbn [py_slice].
  destruct (chat_answers (WeaknessPrompt (py "paper_content") (PStr (take 3000 s)))
              0.4%float 1000 l4) as (response & -> & _).
  eexists _, _. reflexivity.
Qed.

Lemma normalize_answers (raw : list pystr) (log : list event) :
  exists out log', normalize env raw log = (Ok out, log').
Proof.
  destruct raw as [|w raw]; [eexists _, _; reflexivity|].
  unfold normalize, bind.
  destruct (chat_answers (NormalizePrompt (w :: raw)) 0.2%float 800 log) as (response & -> & _).
  eexists _, _. reflexivity.
Qed.

Lemma analyze_unparsed (weaknesses_a weaknesses_b : list pystr) (log : list event) :
  exists log',
    analyze env weaknesses_a weaknesses_b log
    = (Ok (set_fallback weaknesses_a weaknesses_b), log').
Proof.
  unfold analyze, bind.
  destruct (chat_answers (FusionPrompt weaknesses_a weaknesses_b) 0.2%float 1500 log)
    as (response & -> & Hjson).
  unfold lift, analyze_decode, loads. rewrite Hjson. eexists. reflexivity.
Qed.

Lemma synthesize_unparsed (weaknesses_a weaknesses_b : list pystr) (title_a title_b : pyval)
    (log : list event) :
  exists log',
    synthesize env (set_fallback weaknesses_a weaknesses_b) title_a title_b log
    = (Ok default_method, log').
Proof.
  unfold set_fallback.
  destruct (Hanswers log (mkChat (SynthesisPrompt title_a title_b
              (mkWeaknessAnalysis
                 (PList (PStr <$> py_list_of_set (SetAnd weaknesses_a weaknesses_b)))
                 (PList (PStr <$> py_list_of_set (SetMinus weaknesses_a weaknesses_b)))
                 (PList (PStr <$> py_list_of_set (SetMinus weaknesses_b weaknesses_a)))))
              0.5%float 2500)) as (response & Hgen & Hjson).
  rewrite (synthesize_on_lists _ _ _ _ _ _ _ Hgen), synthesize_decode_cases, Hjson.
  eexists. reflexivity.
Qed.

Lemma generate_comparison_unparsed (paper_a paper_b : ParsedPaper)
    (weaknesses_a weaknesses_b : list pystr) (log : list event) :
  exists log',
    generate_comparison env paper_a paper_b weaknesses_a weaknesses_b default_method log
    = (Ok default_comparison, log').
Proof.
  unfold generate_comparison, bind, lift. cbn [components default_method py_joinable forallb andb].
  destruct (chat_answers
              (ComparisonPrompt (py_or (pp_title paper_a) (PStr (py "Untitled Paper A")))
                 (py_or (pp_title paper_b) (PStr (py "Untitled Paper B")))
                 (take 4 weaknesses_a) (take 4 weaknesses_b) default_method)
              0.3%float 2500 log) as (response & -> & Hjson).
  unfold loads. rewrite Hjson. eexists. reflexivity.
Qed.

Lemma unparsed_paper_textual (text paper_id : pystr) :
  textual (pp_method (unparsed_paper text paper_id)) = true
  /\ textual (pp_experiments (unparsed_paper text paper_id)) = true
  /\ textual (pp_limitations (unparsed_paper text paper_id)) = true
  /\ textual (pp_abstract (unparsed_paper text paper_id)) = true.
Proof. unfold unparsed_paper. simpl. destruct (bool_decide (text = [])); auto. Qed.

(** X10. If the generation service answers every call but never with JSON,
    [ResearchPipeline.process] still returns a complete result: both papers
    are the fallback records cut from the extracted text, the analysis is
    the set algebra on the two normalized lists (each set listed in some
    order), the proposed method is the default method and the comparison is
    the default table. *)
Theorem process_completes_without_json (text_a text_b : pystr) (log : list event) :
  exists res,
    (process env text_a text_b log).1 = Ok res
    /\ res_paper_a res = unparsed_paper text_a (py "A")
    /\ res_paper_b res = unparsed_paper text_b (py "B")
    /\ set_algebra_of (res_weaknesses_a res) (res_weaknesses_b res)
         (res_weakness_analysis res)
    /\ res_proposed_method res = default_method
    /\ res_comparison_table res = default_comparison.
Proof.
  unfold process, bind.
  destruct (parse_pdf_unparsed text_a (py "A") log) as (l1 & ->).
  destruct (parse_pdf_unparsed text_b (py "B") l1) as (l2 & ->).
  destruct (unparsed_paper_textual text_a (py "A")) as (Hm & He & Hl & Ha).
  destruct (unparsed_paper_textual text_b (py "B")) as (Hm' & He' & Hl' & Ha').
  destruct (extract_from_paper_answers _ l2 Hm He Hl Ha) as (wa & l3 & ->).
  destruct (extract_from_paper_answers _ l3 Hm' He' Hl' Ha') as (wb & l4 & ->).
  cbn [weaknesses].
  destruct (normalize_answers wa l4) as (na & l5 & ->).
  destruct (normalize_answers wb l5) as (nb & l6 & ->).
  destruct (analyze_unparsed na nb l6) as (l7 & ->).
  destruct (synthesize_unparsed na nb
              (py_or (pp_title (unparsed_paper text_a (py "A"))) (PStr (py "Paper A")))
              (py_or (pp_title (unparsed_paper text_b (py "B"))) (PStr (py "Paper B")))
              l7) as (l8 & ->).
  destruct (generate_comparison_unparsed (unparsed_paper text_a (py "A"))
              (unparsed_paper text_b (py "B")) na nb l8) as (l9 & ->).
  eexists. split; [reflexivity|]. split; [reflexivity|]. split; [reflexivity|].
  split; [apply set_fallback_algebra|]. split; reflexivity.
Qed.
End WithoutJson.
End Stages.

(* ===================================================================== *)
(** * Further properties: the search and the metrics wrappers *)
(* ===================================================================== *)

Lemma count_chr_app (c : codepoint) (a b : pystr) :
  count_chr c (a ++ b) = (count_chr c a + count_chr c b)%nat.
Proof. unfold count_chr. now rewrite filter_app, length_app. Qed.

Lemma count_chr_absent (c : codepoint) (s : pystr) : c ∉ s -> count_chr c s = 0%nat.
Proof.
  intros Hs. unfold count_chr. induction s as [|x s IH]; [reflexivity|].
  apply not_elem_of_cons in Hs as [Hx Hs].
  rewrite filter_cons_False by congruence. now apply IH.
Qed.

Lemma replace_quote_absent (skip : nat) (s : pystr) :
  34%N ∉ replace_aux dquote [] skip s.
Proof.
  revert skip. induction s as [|c s IH]; intros skip; [apply not_elem_of_nil|].
  destruct skip as [|k]; cbn [replace_aux]; [|apply IH].
  unfold dquote at 1. cbn [startswith].
  destruct (N.eqb_spec 34 c) as [E|E]; cbn [andb app length Nat.sub].
  - apply IH.
  - apply not_elem_of_cons. split; [exact E|apply IH].
Qed.

Lemma replace_quote_fixed (s : pystr) : 34%N ∉ s -> str_replace dquote [] s = s.
Proof.
  unfold str_replace. induction s as [|c s IH]; intros Hs; [reflexivity|].
  apply not_elem_of_cons in Hs as [Hc Hs]. cbn [replace_aux].
  unfold dquote at 1. cbn [startswith].
  destruct (N.eqb_spec 34 c) as [E|E]; [contradiction|]. cbn [andb]. now rewrite IH.
Qed.

Section Wrappers.
Context `{PyBuiltins} (env : services).

(** X11. The search expression [_build_query] builds holds exactly six
    double quotes, the ones that delimit its three phrases, whatever the
    topic: quotes in the topic are removed and cannot close a phrase early.
    A topic without quotes and without whitespace at its ends is searched as
    it is, in all fields, in the title and in the abstract. *)
Theorem build_query_quotes (query : pystr) :
  count_chr 34%N (_build_query query) = 6%nat
  /\ (34%N ∉ query -> strip query = query ->
      _build_query query
      = py "all:" ++ quoted query ++ py " OR ti:" ++ quoted query
          ++ py " OR abs:" ++ quoted query).
Proof.
  split.
  - unfold _build_query. cbv zeta.
    assert (Hclean : count_chr 34%N (strip (str_replace dquote [] query)) = 0%nat).
    { apply count_chr_absent. intros Hin. apply strip_elem in Hin.
      now apply (replace_quote_absent 0 query). }
    rewrite !count_chr_app, Hclean. reflexivity.
  - intros Hq Hs. unfold _build_query, quoted. cbv zeta.
    rewrite (replace_quote_fixed _ Hq), Hs. now rewrite <- !app_assoc.
Qed.

Lemma keeps_unreadable_start (start_date end_date : option pystr) (p : paper) :
  opt_truthy start_date = true -> strptime (default [] start_date) = None ->
  keeps start_date end_date p = opt_truthy (published_date p).
Proof.
  intros Ht Hs. unfold keeps, date_window, parse_date.
  destruct (opt_truthy (published_date p)); [|reflexivity].
  destruct (strptime (default [] (published_date p))); [|reflexivity].
  cbn [obind]. rewrite Ht, Hs. reflexivity.
Qed.

Lemma keeps_unreadable_end (start_date end_date : option pystr) (p : paper) :
  opt_truthy end_date = true -> strptime (default [] end_date) = None ->
  keeps start_date end_date p = keeps start_date None p.
Proof.
  intros Ht Hs. unfold keeps, date_window, parse_date.
  destruct (opt_truthy (published_date p)); [|reflexivity].
  destruct (strptime (default [] (published_date p))) as [pub|]; [|reflexivity].
  cbn [obind]. rewrite Ht, Hs.
  destruct (opt_truthy start_date); [|reflexivity].
  destruct (strptime (default [] start_date)) as [start|]; [|reflexivity].
  cbn [obind]. destruct (date_ltb pub start); reflexivity.
Qed.

(** X12. A bound of the date filter that is given but cannot be read as a
    date switches filtering off instead of failing. With an unreadable start
    date, [_filter_by_date] keeps every candidate that has a publication
    date, the end date being ignored as well. With an unreadable end date,
    it filters as if no end date had been given. *)
Theorem unreadable_bound_disables_filter (papers : list paper)
    (start_date end_date : option pystr) :
  (opt_truthy start_date = true -> strptime (default [] start_date) = None ->
   _filter_by_date papers start_date end_date
   = filter (fun p => opt_truthy (published_date p) = true) papers)
  /\ (opt_truthy end_date = true -> strptime (default [] end_date) = None ->
      _filter_by_date papers start_date end_date = _filter_by_date papers start_date None).
Proof.
  unfold _filter_by_date. split; intros Ht Hs; apply list_filter_iff; intros p.
  - now rewrite (keeps_unreadable_start _ _ _ Ht Hs).
  - now rewrite (keeps_unreadable_end _ _ _ Ht Hs).
Qed.

(** X13. [ArxivWrapper.search] never raises a request failure: it returns
    the empty list instead. What it returns otherwise is the answer of the
    service with some candidates removed by the date filter, in the order
    of the service, and the whole answer when no date is given. *)
Theorem search_returns_service_order (query : pystr) (start_date end_date : option pystr)
    (max_results : Z) (sort_by sort_order : pystr) (log : list event) :
  (forall detail,
      (search env query start_date end_date max_results sort_by sort_order log).1
      <> Raise (RequestException detail))
  /\ (forall out,
        (search env query start_date end_date max_results sort_by sort_order log).1 = Ok out ->
        (exists detail,
            arxiv env log (_build_query query) max_results sort_by sort_order
            = Raise (RequestException detail) /\ out = [])
        \/ (exists papers,
               arxiv env log (_build_query query) max_results sort_by sort_order = Ok papers
               /\ sublist out papers
               /\ (opt_truthy start_date = false -> opt_truthy end_date = false ->
                   out = papers))).
Proof.
  unfold search, try_except, bind, arxiv_get.
  destruct (arxiv env log _ _ _ _) as [papers|e]; cbn [fst ret].
  - split; [discriminate|]. intros out [= <-]. right. exists papers.
    split; [reflexivity|]. split.
    + destruct (opt_truthy start_date || opt_truthy end_date); [|reflexivity].
      unfold _filter_by_date. apply sublist_filter.
    + intros -> ->. reflexivity.
  - destruct e; cbn; split; try discriminate; intros out [= <-].
    left. eexists. split; reflexivity.
Qed.

Lemma enrich_step_run (acc : list paper) (p : paper) (log : list event)
    (out : list paper) (log' : list event) :
  enrich_step env acc p log = (Ok out, log') ->
  exists q evs,
    out = acc ++ [q] /\ (q = p \/ exists m, q = update_metrics p m)
    /\ log' = log ++ evs
    /\ ev_request <$> evs
       = (fun p => ScholarGet (strip (str_replace (py "arXiv:") [] (arxiv_id p))))
           <$> filter (fun p => arxiv_id p <> []) [p].
Proof.
  unfold enrich_step.
  destruct (arxiv_id p) as [|c id_] eqn:Eid.
  - intros [= <- <-]. exists p, []. rewrite app_nil_r.
    rewrite filter_cons_False by (rewrite Eid; congruence). auto.
  - rewrite filter_cons_True by (rewrite Eid; congruence). rewrite filter_nil.
    cbn [fmap list_fmap]. rewrite Eid.
    unfold bind, get_paper_by_arxiv_id, bind, scholar_get.
    destruct (scholar env log _) as [|data|e].
    + intros [= <- <-]. exists p. eexists. repeat split; auto.
    + unfold lift, py_get. destruct data as [| | | | | |d]; try discriminate.
      intros [= <- <-]. eexists _, _. split; [reflexivity|]. split; [right; eexists; reflexivity|].
      split; reflexivity.
    + destruct (is_RequestException e); [|discriminate].
      intros [= <- <-]. exists p. eexists. repeat split; auto.
Qed.

Lemma enrich_loop_run (papers acc : list paper) (log : list event)
    (out : list paper) (log' : list event) :
  for_each (enrich_step env) papers acc log = (Ok out, log') ->
  exists added evs,
    out = acc ++ added
    /\ Forall2 (fun p q => q = p \/ exists m, q = update_metrics p m) papers added
    /\ log' = log ++ evs
    /\ ev_request <$> evs
       = (fun p => ScholarGet (strip (str_replace (py "arXiv:") [] (arxiv_id p))))
           <$> filter (fun p => arxiv_id p <> []) papers.
Proof.
  revert acc log. induction papers as [|p papers IH]; intros acc log.
  - intros [= <- <-]. exists [], []. rewrite !app_nil_r. repeat split; constructor.
  - cbn [for_each]. unfold bind.
    destruct (enrich_step env acc p log) as [[acc1|e] log1] eqn:E; [|discriminate].
    intros Hrest.
    destruct (enrich_step_run _ _ _ _ _ E) as (q & ev1 & -> & Hq & -> & Hev1).
    destruct (IH _ _ Hrest) as (added & ev2 & -> & Hadded & -> & Hev2).
    exists (q :: added), (ev1 ++ ev2).
    split; [now rewrite <- app_assoc|]. split; [now constructor|].
    split; [now rewrite <- app_assoc|].
    change (p :: papers) with ([p] ++ papers).
    now rewrite filter_app, !fmap_app, Hev1, Hev2.
Qed.

Lemma enrich_loop_unknown (papers acc : list paper) (log : list event) :
  (forall log clean_id,
      scholar env log clean_id = ScholarNotFound
      \/ exists detail, scholar env log clean_id = ScholarFailed (RequestException detail)) ->
  (for_each (enrich_step env) papers acc log).1 = Ok (acc ++ papers).
Proof.
  intros Hreply. revert acc log. induction papers as [|p papers IH]; intros acc log.
  - simpl. now rewrite app_nil_r.
  - cbn [for_each]. unfold bind.
    assert (Hstep : exists log1, enrich_step env acc p log = (Ok (acc ++ [p]), log1)).
    { unfold enrich_step. destruct (arxiv_id p) as [|c id_]; [eexists; reflexivity|].
      unfold bind, get_paper_by_arxiv_id, bind, scholar_get.
      destruct (Hreply log (strip (str_replace (py "arXiv:") [] (c :: id_))))
        as [->|[detail ->]]; eexists; reflexivity. }
    destruct Hstep as [log1 ->]. rewrite IH. now rewrite <- app_assoc.
Qed.

(** X14. [enrich_papers] returns the candidates it was given, in the same
    order and as many: each is unchanged or has received its citation
    metrics, the fields read from the search being left as they were. It
    asks the metrics service once per candidate that has an arXiv id, in
    order. A paper the service does not know, or a failed request, leaves
    the candidate as it was and does not stop the batch. *)
Theorem enrich_papers_keeps_candidates (papers : list paper) (log : list event) :
  (forall out log',
      enrich_papers env papers log = (Ok out, log') ->
      Forall2 (fun p q => q = p \/ exists m, q = update_metrics p m) papers out
      /\ exists evs,
          log' = log ++ evs
          /\ ev_request <$> evs
             = (fun p => ScholarGet (strip (str_replace (py "arXiv:") [] (arxiv_id p))))
                 <$> filter (fun p => arxiv_id p <> []) papers)
  /\ ((forall log clean_id,
          scholar env log clean_id = ScholarNotFound
          \/ exists detail,
              scholar env log clean_id = ScholarFailed (RequestException detail)) ->
      (enrich_papers env papers log).1 = Ok papers).
Proof.
  split.
  - intros out log' Hrun. unfold enrich_papers in Hrun.
    destruct (enrich_loop_run _ _ _ _ _ Hrun) as (added & evs & -> & Hadded & -> & Hevs).
    split; [exact Hadded|]. exists evs. auto.
  - intros Hreply. unfold enrich_papers. now rewrite enrich_loop_unknown.
Qed.
End Wrappers.

(* ===================================================================== *)
(** * Further properties: relevance scores *)
(* ===================================================================== *)

Lemma float_ltb_leb (x y : float) : PrimFloat.ltb x y = true -> PrimFloat.leb x y = true.
Proof.
  rewrite ltb_spec, leb_spec. unfold SFltb, SFleb.
  destruct (SFcompare (Prim2SF x) (Prim2SF y)) as [[| |]|]; congruence.
Qed.

Lemma py_min_upper (x : float) : PrimFloat.leb (py_min 1%float x) 1%float = true.
Proof.
  unfold py_min. destruct (PrimFloat.ltb x 1) eqn:E; [now apply float_ltb_leb|reflexivity].
Qed.

Lemma py_max_lower (x : float) : PrimFloat.leb 0.3%float (py_max 0.3%float x) = true.
Proof.
  unfold py_max. destruct (PrimFloat.ltb 0.3 x) eqn:E; [now apply float_ltb_leb|reflexivity].
Qed.

Section Scores.
Context `{PyBuiltins} (env : services) (api_key : pystr).

Lemma keyword_scored (query : pystr) (papers : list paper) :
  Forall2 (fun p q => exists v, q = set_score p v) papers (_keyword_score_papers query papers).
Proof.
  unfold _keyword_score_papers. apply Forall2_fmap_r, Forall_Forall2_diag, Forall_forall.
  intros p _. eexists. reflexivity.
Qed.

Lemma assign_scores_run (scores : list pyval) (i : nat) (papers : list paper) :
  (i + length papers <= length scores)%nat ->
  exists out,
    assign_scores (PList scores) i papers = Ok out
    /\ length out = length papers
    /\ forall j p, papers !! j = Some p ->
                   exists v, scores !! (i + j)%nat = Some v /\ out !! j = Some (set_score p v).
Proof.
  revert i. induction papers as [|p papers IH]; intros i Hlen.
  - exists []. split; [reflexivity|]. split; [reflexivity|]. intros j q Hj. discriminate.
  - cbn [length] in Hlen. destruct (IH (S i)) as (rest & Hrest & Hl & Hlook); [lia|].
    destruct (lookup_lt_is_Some_2 scores i) as [v Hv]; [lia|].
    exists (set_score p v :: rest). cbn [assign_scores py_index obind].
    rewrite Hv. cbn [obind]. rewrite Hrest. cbn [obind].
    split; [reflexivity|]. split; [simpl; now rewrite Hl|].
    intros [|j] q Hj.
    + injection Hj as <-. exists v. rewrite Nat.add_0_r. auto.
    + destruct (Hlook j q Hj) as (w & Hw & Hout). exists w.
      replace (i + S j)%nat with (S i + j)%nat by lia. auto.
Qed.

Lemma assign_scores_shape (scores : pyval) (i : nat) (papers out : list paper) :
  assign_scores scores i papers = Ok out ->
  Forall2 (fun p q => exists v, q = set_score p v) papers out.
Proof.
  revert i out. induction papers as [|p papers IH]; intros i out.
  - intros [= <-]. constructor.
  - cbn [assign_scores]. destruct (py_index scores i) as [v|e]; [|discriminate].
    cbn [obind]. destruct (assign_scores scores (S i) papers) as [rest|e] eqn:E; [|discriminate].
    intros [= <-]. constructor; [eexists; reflexivity|]. now apply (IH (S i)).
Qed.

Lemma apply_scores_shape (result : pystr) (papers out : list paper) :
  apply_scores result papers = Ok out ->
  Forall2 (fun p q => exists v, q = set_score p v) papers out.
Proof.
  unfold apply_scores. cbv zeta.
  destruct (loads _) as [scores|e]; [|discriminate]. cbn [obind].
  destruct (py_len scores) as [n|e]; [|discriminate]. cbn [obind].
  destruct (assign_scores scores 0 (take n papers)) as [scored|e] eqn:E; [|discriminate].
  intros [= <-]. rewrite <- (take_drop n papers) at 1.
  apply Forall2_app; [now apply (assign_scores_shape scores 0)|].
  apply Forall2_fmap_r, Forall_Forall2_diag, Forall_forall.
  intros p _. eexists. reflexivity.
Qed.

(** The scorer always returns: every exception of the generated path is
    handled by the keyword scores. *)
Lemma score_papers_run (query : pystr) (papers : list paper) (log : list event) :
  exists out evs,
    _score_papers env api_key query papers log = (Ok out, log ++ evs)
    /\ Forall2 (fun p q => exists v, q = set_score p v) papers out
    /\ (evs = []
        \/ api_key <> []
           /\ exists failed,
               evs = [mkEvent (EnginePost (mkChat (RelevancePrompt query
                                                     (title <$> take 15 papers))
                                             0.1%float 200)) failed]).
Proof.
  unfold _score_papers. destruct (bool_decide (api_key = [])) eqn:Ekey.
  - exists (_keyword_score_papers query papers), [].
    rewrite app_nil_r. split; [reflexivity|]. split; [apply keyword_scored|now left].
  - apply bool_decide_eq_false in Ekey.
    unfold try_except, _llm_score_papers, bind, engine_post.
    destruct (generation env log _) as [result|e].
    + unfold lift, otry.
      destruct (apply_scores (strip result) papers) as [out|e] eqn:E.
      * eexists out, _. split; [reflexivity|]. split; [now apply (apply_scores_shape (strip result))|].
        right. split; [assumption|]. eexists. reflexivity.
      * destruct (is_JSONDecodeError e); unfold ret;
          (eexists _, _; split; [reflexivity|]; split; [apply keyword_scored|]);
          right; (split; [assumption|]); eexists; reflexivity.
    + eexists _, _. unfold ret. split; [reflexivity|]. split; [apply keyword_scored|].
      right. split; [assumption|]. eexists. reflexivity.
Qed.

(** X15. [_score_papers] never raises: without a key it computes the keyword
    scores and calls nothing; with a key it makes exactly one call, and any
    failure of the call or of the reading of its reply ends in the keyword
    scores. It returns the papers it was given, in order, each with a score
    and otherwise unchanged. *)
Theorem score_papers_always_scores (query : pystr) (papers : list paper) (log : list event) :
  exists out evs,
    _score_papers env api_key query papers log = (Ok out, log ++ evs)
    /\ Forall2 (fun p q => exists v, q = set_score p v) papers out
    /\ (api_key = [] -> evs = [] /\ out = _keyword_score_papers query papers)
    /\ (api_key <> [] ->
        exists failed,
          evs = [mkEvent (EnginePost (mkChat (RelevancePrompt query (title <$> take 15 papers))
                                        0.1%float 200)) failed]).
Proof.
  destruct (score_papers_run query papers log) as (out & evs & Hrun & Hshape & Hevs).
  exists out, evs. split; [exact Hrun|]. split; [exact Hshape|]. split.
  - intros Hkey. unfold _score_papers in Hrun.
    rewrite bool_decide_eq_true_2 in Hrun by assumption.
    unfold ret in Hrun. injection Hrun as <- Hlog.
    split; [|reflexivity]. apply (app_inv_head log). now rewrite app_nil_r.
  - intros Hkey. destruct Hevs as [->|[_ Hev]]; [|exact Hev].
    exfalso. unfold _score_papers in Hrun.
    rewrite bool_decide_eq_false_2 in Hrun by assumption.
    unfold try_except, _llm_score_papers, bind, engine_post in Hrun.
    assert (Hlen : forall (o : outcome (list paper)) l, (o, l) = (Ok out, log ++ []) ->
                   length l = length log).
    { intros o l [= _ ->]. now rewrite app_nil_r. }
    destruct (generation env log _) as [result|e].
    + unfold lift, otry in Hrun.
      destruct (apply_scores (strip result) papers) as [o|e];
        [|destruct (is_JSONDecodeError e)]; unfold ret in Hrun;
        apply Hlen in Hrun; rewrite length_app in Hrun; simpl in Hrun; lia.
    + unfold ret in Hrun. apply Hlen in Hrun. rewrite length_app in Hrun. simpl in Hrun. lia.
Qed.

(** X16. When the reply to the relevance prompt is a JSON list, the scores
    are given by position, unchecked: the paper at index [i] receives the
    element at index [i], and the papers beyond the end of the list receive
    0.5. Elements beyond the number of papers are ignored. *)
Theorem generated_scores_go_by_position (query : pystr) (papers : list paper)
    (log : list event) (reply : pystr) (scores : list pyval) :
  api_key <> [] ->
  generation env log (mkChat (RelevancePrompt query (title <$> take 15 papers)) 0.1%float 200)
  = Ok reply ->
  json_loads (strip (str_replace (py "```") []
                       (str_replace (py "```json") [] (strip reply))))
  = Some (PList scores) ->
  exists out,
    (_score_papers env api_key query papers log).1 = Ok out
    /\ length out = length papers
    /\ forall i p, papers !! i = Some p ->
                   out !! i = Some (set_score p (default (PFloat 0.5%float) (scores !! i))).
Proof.
  intros Hkey Hgen Hjson. unfold _score_papers.
  rewrite bool_decide_eq_false_2 by assumption.
  unfold try_except, _llm_score_papers, bind, engine_post. rewrite Hgen.
  unfold lift, apply_scores, loads. cbv zeta. rewrite Hjson. cbn [obind py_len].
  destruct (assign_scores_run scores 0 (take (length scores) papers))
    as (scored & -> & Hl & Hlook); [rewrite length_take; lia|].
  cbn [obind otry fst]. eexists. split; [reflexivity|]. split.
  - rewrite length_app, length_fmap, Hl, length_take, length_drop. lia.
  - intros i p Hi. destruct (decide (i < length scores)%nat) as [Hlt|Hge].
    + assert (Htake : take (length scores) papers !! i = Some p)
        by now rewrite lookup_take_lt.
      destruct (Hlook i p Htake) as (v & Hv & Hout). simpl in Hv. rewrite Hv. simpl.
      rewrite lookup_app_l; [exact Hout|]. rewrite Hl. now apply lookup_lt_Some in Htake.
    + assert (Hp : (i < length papers)%nat) by now apply lookup_lt_Some in Hi.
      rewrite (lookup_ge_None_2 scores i) by lia. simpl.
      rewrite lookup_app_r by (rewrite Hl, length_take; lia).
      rewrite Hl, length_take, list_lookup_fmap, lookup_drop.
      replace (length scores + (i - length scores `min` length papers))%nat
        with i by lia.
      now rewrite Hi.
Qed.
End Scores.

(* ===================================================================== *)
(** * Further properties: the SOTA pipeline *)
(* ===================================================================== *)

Lemma py_take_lookup {A} (k : Z) (l : list A) (i : nat) (x : A) :
  py_take k l !! i = Some x -> l !! i = Some x.
Proof.
  unfold py_take. destruct (0 <=? k); intros Hx; now apply lookup_take_Some in Hx.
Qed.

Lemma py_take_length {A} (k : Z) (l : list A) : (length (py_take k l) <= length l)%nat.
Proof. unfold py_take. destruct (0 <=? k); rewrite length_take; lia. Qed.

Lemma sort_by_score_run `{PyBuiltins} (l : list paper) :
  match sort_by_score l with
  | Ok out => out ≡ₚ l
  | Raise e => e = TypeError /\ (2 <= length l)%nat
  end.
Proof.
  unfold sort_by_score. destruct (py_sort_desc score_key l) as [out|e] eqn:E.
  - now apply py_sort_desc_perm in E.
  - apply py_sort_desc_raises in E as (-> & Hlen & _). auto.
Qed.

Lemma py_float_is_number (v : pyval) (f : float) :
  py_float v = Ok f -> is_Some (py_number v).
Proof. destruct v; simpl; intros Hv; try discriminate; eexists; reflexivity. Qed.

Lemma citation_score_is_number (c : pyval) (s : float) :
  truthy c = true -> citation_score_of c = Ok s -> is_Some (py_number c).
Proof.
  unfold citation_score_of, div_500. intros ->.
  destruct c; simpl; intros Hs; try discriminate; eexists; reflexivity.
Qed.

Lemma scored_origin (papers out : list paper) (q : paper) :
  Forall2 (fun p q => exists v, q = set_score p v) papers out -> q ∈ out ->
  exists p v, p ∈ papers /\ q = set_score p v.
Proof.
  intros Hshape Hq. apply list_elem_of_lookup in Hq as [i Hi].
  destruct (Forall2_lookup_r _ _ _ _ _ Hshape Hi) as (p & Hp & v & ->).
  exists p, v. split; [|reflexivity]. apply list_elem_of_lookup. now exists i.
Qed.

Lemma map_outcome_shape {A B} (f : A -> outcome B) (l : list A) (out : list B) :
  map_outcome f l = Ok out -> Forall2 (fun x y => f x = Ok y) l out.
Proof.
  revert out. induction l as [|x l IH]; intros out.
  - intros [= <-]. constructor.
  - cbn [map_outcome]. destruct (f x) as [y|e] eqn:E; [|discriminate]. cbn [obind].
    destruct (map_outcome f l) as [ys|e]; [|discriminate]. intros [= <-].
    constructor; auto.
Qed.

Section Ranking.
Context `{PyBuiltins} (env : services) (api_key : pystr) (today : date).

Lemma rank_papers_run (query : pystr) (papers : list paper) (top_k : Z) (log : list event) :
  match (rank_papers env api_key query papers top_k log).1 with
  | Ok out =>
      (forall q, q ∈ out -> exists p v, p ∈ papers /\ q = set_score p v)
      /\ (length out <= length papers)%nat
      /\ (0 <= top_k -> length out = Nat.min (length papers) (Z.to_nat top_k))
  | Raise e => e = TypeError /\ top_k < Z.of_nat (length papers)
  end.
Proof.
  unfold rank_papers. destruct papers as [|p0 papers].
  { cbn. split; [intros q Hq; now apply elem_of_nil in Hq|]. split; [lia|]. intros; lia. }
  remember (p0 :: papers) as ps eqn:Eps.
  destruct (score_papers_run env api_key query ps log) as (scored & evs & Hrun & Hshape & _).
  pose proof (Forall2_length _ _ _ Hshape) as Hlen.
  destruct (Z.leb_spec (Z.of_nat (length ps)) top_k) as [Hle|Hgt].
  - rewrite Hrun. cbn [fst]. split; [intros q; now apply scored_origin|].
    split; [lia|]. intros _. lia.
  - unfold bind. rewrite Hrun. unfold lift.
    pose proof (sort_by_score_run scored) as Hsort.
    destruct (sort_by_score scored) as [sorted|e]; cbn [fst ret].
    + split; [|split].
      * intros q Hq. apply list_elem_of_lookup in Hq as [i Hi].
        apply py_take_lookup in Hi. apply (scored_origin ps scored); [assumption|].
        rewrite <- Hsort. apply list_elem_of_lookup. now exists i.
      * pose proof (py_take_length top_k sorted) as Htake.
        rewrite (Permutation_length Hsort) in Htake. lia.
      * intros Hk. unfold py_take. destruct (Z.leb_spec 0 top_k); [|lia].
        rewrite length_take, (Permutation_length Hsort). lia.
    + destruct Hsort as [-> _]. split; [reflexivity|lia].
Qed.

(** X17. [rank_papers] returns nothing and calls nothing for an empty list.
    Otherwise every paper it returns is one of the papers given, with a
    score set; for [top_k >= 0] it returns [min(len(papers), top_k)] of
    them. The only exception it can raise is the [TypeError] of the sort,
    when there are more papers than [top_k] and a score the reply gave
    cannot be compared. *)
Theorem rank_papers_selects (query : pystr) (papers : list paper) (top_k : Z)
    (log : list event) :
  rank_papers env api_key query [] top_k log = (Ok [], log)
  /\ (forall out,
        (rank_papers env api_key query papers top_k log).1 = Ok out ->
        (forall q, q ∈ out -> exists p v, p ∈ papers /\ q = set_score p v)
        /\ (0 <= top_k -> length out = Nat.min (length papers) (Z.to_nat top_k)))
  /\ (forall e,
        (rank_papers env api_key query papers top_k log).1 = Raise e ->
        e = TypeError /\ top_k < Z.of_nat (length papers)).
Proof.
  split; [reflexivity|].
  pose proof (rank_papers_run query papers top_k log) as Hrun.
  split.
  - intros out Hout. rewrite Hout in Hrun. destruct Hrun as (Horigin & _ & Hlen). auto.
  - intros e He. now rewrite He in Hrun.
Qed.

Lemma explanation_run (query : pystr) (p : ranked_paper) (log : list event) :
  exists text evs,
    compute_relevance_explanation env api_key query p log = (Ok text, log ++ evs)
    /\ ((api_key = [] /\ evs = [] /\ text = explanation_without_key)
        \/ (api_key <> []
            /\ exists failed,
                evs = [mkEvent (EnginePost (mkChat (ExplanationPrompt query (r_title p)
                                                      (take 500 (r_abstract p)))
                                              0.3%float 100)) failed]
                /\ (failed = true -> text = explanation_on_failure))).
Proof.
  unfold compute_relevance_explanation.
  destruct (bool_decide (api_key = [])) eqn:Ekey.
  - apply bool_decide_eq_true in Ekey. exists explanation_without_key, [].
    rewrite app_nil_r. split; [reflexivity|]. left. auto.
  - apply bool_decide_eq_false in Ekey.
    unfold try_except, bind, engine_post.
    destruct (generation env log _) as [text|e]; unfold ret.
    + eexists _, _. split; [reflexivity|]. right. split; [assumption|].
      eexists. split; [reflexivity|discriminate].
    + eexists _, _. split; [reflexivity|]. right. split; [assumption|].
      eexists. split; reflexivity.
Qed.

(** X18. [compute_relevance_explanation] always returns a text. Without a
    key it is a fixed sentence and nothing is called. With a key exactly one
    call is made, with the title and the first 500 characters of the
    abstract, and a failed call gives the other fixed sentence. *)
Theorem explanation_is_always_given (query : pystr) (p : ranked_paper) (log : list event) :
  exists text evs,
    compute_relevance_explanation env api_key query p log = (Ok text, log ++ evs)
    /\ (api_key = [] -> evs = [] /\ text = explanation_without_key)
    /\ (api_key <> [] ->
        exists failed,
          evs = [mkEvent (EnginePost (mkChat (ExplanationPrompt query (r_title p)
                                                (take 500 (r_abstract p)))
                                        0.3%float 100)) failed]
          /\ (failed = true -> text = explanation_on_failure)).
Proof.
  destruct (explanation_run query p log) as (text & evs & Hrun & Hcases).
  exists text, evs. split; [exact Hrun|].
  destruct Hcases as [(Hkey & -> & ->)|(Hkey & Hev)]; split; intros Hk;
    try contradiction; auto.
Qed.

(** X19. Whenever the loop body of [_compute_final_ranking] builds an entry,
    the relevance score of the paper was a number and its citation count was
    falsy or a number: a score that is a string or null, as a generated list
    may hold, makes the ranking fail. The entry keeps the id, title, link
    and date of the paper, at most five authors, and an abstract of at most
    503 characters: the abstract itself up to 500 characters, else its first
    500 characters and an ellipsis. It has no rank and no explanation yet. *)
Theorem score_paper_entry (p : paper) (r : ranked_paper) :
  score_paper today p = Ok r ->
  is_Some (py_number (default (PFloat 0.5%float) (score p)))
  /\ (truthy (default (PInt 0) (citation_count p)) = true ->
      is_Some (py_number (default (PInt 0) (citation_count p))))
  /\ r_paper_id r = paper_id p /\ r_arxiv_id r = arxiv_id p /\ r_title r = title p
  /\ r_url r = url p /\ r_published_date r = published_date p
  /\ r_authors r = take 5 (authors p) /\ (length (r_authors r) <= 5)%nat
  /\ (length (r_abstract r) <= 503)%nat
  /\ ((length (abstract p) <= 500)%nat -> r_abstract r = abstract p)
  /\ ((500 < length (abstract p))%nat ->
      r_abstract r = take 500 (abstract p) ++ py "...")
  /\ sota_rank r = None /\ relevance_reason r = None.
Proof.
  unfold score_paper. cbv zeta.
  destruct (citation_score_of (default (PInt 0) (citation_count p))) as [c|] eqn:Ec;
    [|discriminate].
  cbn [obind].
  destruct (py_float (default (PFloat 0.5%float) (score p))) as [s|] eqn:Es;
    [|discriminate].
  cbn [obind]. intros Hr. injection Hr as <-.
  split; [now apply py_float_is_number in Es|].
  split; [intros Ht; exact (citation_score_is_number _ _ Ht Ec)|].
  cbn [r_paper_id r_arxiv_id r_title r_url r_published_date r_authors r_abstract
         sota_rank relevance_reason].
  repeat (split; [reflexivity|]).
  split; [rewrite length_take; lia|].
  destruct (Nat.ltb_spec 500 (length (abstract p))) as [Hlong|Hshort].
  - split; [rewrite length_app, length_take; change (length (py "...")) with 3%nat; lia|].
    split; [intros; lia|]. split; [reflexivity|]. split; reflexivity.
  - split; [lia|]. split; [reflexivity|]. split; [intros; lia|]. split; reflexivity.
Qed.

(** X20. The keyword score and the citation score never exceed 1, and the
    recency score is never below 0.3, whatever the counts and the age of the
    paper: the code caps the first two with [min] and floors the third with
    [max]. *)
Theorem sub_scores_are_bounded :
  (forall query_words p, PrimFloat.leb (keyword_score query_words p) 1%float = true)
  /\ (forall citation_count s,
         citation_score_of citation_count = Ok s -> PrimFloat.leb s 1%float = true)
  /\ (forall days_old, PrimFloat.leb 0.3%float (recency_of_days days_old) = true)
  /\ (forall pub_date, PrimFloat.leb 0.3%float (recency_score_of today pub_date) = true).
Proof.
  assert (Hrec : forall days_old, PrimFloat.leb 0.3%float (recency_of_days days_old) = true).
  { intros d. unfold recency_of_days.
    destruct (d <? 180); [reflexivity|]. destruct (d <? 365); [reflexivity|].
    destruct (d <? 730); [reflexivity|]. apply py_max_lower. }
  split; [|split; [|split]].
  - intros qw p. unfold keyword_score. cbv zeta.
    destruct (0 <? size qw)%nat; [apply py_min_upper|reflexivity].
  - intros c s. unfold citation_score_of. destruct (truthy c).
    + destruct (div_500 c); [|discriminate]. intros [= <-]. apply py_min_upper.
    + intros [= <-]. reflexivity.
  - exact Hrec.
  - intros pub. unfold recency_score_of. destruct (opt_truthy pub); [|reflexivity].
    destruct (parse_date _); [apply Hrec|reflexivity].
Qed.
End Ranking.

Section Identify.
Context `{PyBuiltins} (env : services) (api_key : pystr) (today : date).

Lemma score_paper_ids (p : paper) (r : ranked_paper) :
  score_paper today p = Ok r ->
  r_paper_id r = paper_id p /\ r_title r = title p /\ relevance_reason r = None.
Proof.
  unfold score_paper. cbv zeta.
  destruct (citation_score_of _) as [c|]; [|discriminate]. cbn [obind].
  destruct (py_float _) as [s|]; [|discriminate]. cbn [obind].
  intros [= <-]. auto.
Qed.

Lemma final_ranking_entries (papers : list paper) (top_k : Z) (final : list ranked_paper) :
  _compute_final_ranking today papers top_k = Ok final ->
  (length final <= length papers)%nat
  /\ (0 <= top_k -> (length final <= Z.to_nat top_k)%nat)
  /\ forall i r, final !! i = Some r ->
                 sota_rank r = Some (Z.of_nat i + 1)
                 /\ exists p, p ∈ papers /\ r_paper_id r = paper_id p /\ r_title r = title p.
Proof.
  unfold _compute_final_ranking.
  destruct (map_outcome (score_paper today) papers) as [scored|e] eqn:E; [|discriminate].
  cbn [obind]. intros Hfinal.
  destruct (rank_and_select_run scored top_k) as (sorted & _ & Hperm & Hrun).
  rewrite Hrun in Hfinal. injection Hfinal as <-.
  apply map_outcome_shape in E. pose proof (Forall2_length _ _ _ E) as Hlen.
  pose proof (Permutation_length Hperm) as Hsorted.
  split; [|split].
  - rewrite rank_top_length.
    pose proof (py_take_length top_k sorted) as Ht. lia.
  - intros Hk. rewrite rank_top_length, py_take_count, length_take by assumption. lia.
  - intros i r Hi. rewrite rank_top_lookup in Hi.
    destruct (py_take top_k _ !! i) as [x|] eqn:Ex; [|discriminate].
    injection Hi as <-. split; [reflexivity|].
    apply py_take_lookup in Ex.
    assert (Hx : x ∈ scored).
    { rewrite <- Hperm. apply list_elem_of_lookup. now exists i. }
    apply list_elem_of_lookup in Hx as [j Hj].
    destruct (Forall2_lookup_r _ _ _ _ _ E Hj) as (p & Hp & Hscore).
    exists p. split; [apply list_elem_of_lookup; now exists j|].
    destruct (score_paper_ids _ _ Hscore) as (Hid & Htitle & _). auto.
Qed.

Lemma explain_loop_run (topic : pystr) (final acc : list ranked_paper) (log : list event) :
  exists added log',
    for_each (explain_step env api_key topic) final acc log = (Ok (acc ++ added), log')
    /\ Forall2 (fun r r' => exists text, r' = set_reason r text) final added.
Proof.
  revert acc log. induction final as [|r final IH]; intros acc log.
  - exists [], log. rewrite app_nil_r. split; [reflexivity|constructor].
  - cbn [for_each]. unfold bind at 1. unfold explain_step at 1. unfold bind at 1.
    destruct (explanation_run env api_key topic r log) as (text & evs & -> & _).
    unfold ret at 1.
    destruct (IH (acc ++ [set_reason r text]) (log ++ evs)) as (added & log' & -> & Hadded).
    exists (set_reason r text :: added), log'.
    split; [now rewrite <- app_assoc|]. constructor; [eexists; reflexivity|assumption].
Qed.

Lemma enriched_origin (papers out : list paper) (q : paper) :
  Forall2 (fun p q => q = p \/ exists m, q = update_metrics p m) papers out -> q ∈ out ->
  exists p, p ∈ papers /\ paper_id q = paper_id p /\ title q = title p.
Proof.
  intros Hshape Hq. apply list_elem_of_lookup in Hq as [i Hi].
  destruct (Forall2_lookup_r _ _ _ _ _ Hshape Hi) as (p & Hp & Hcase).
  exists p. split; [apply list_elem_of_lookup; now exists i|].
  destruct Hcase as [->|[m ->]]; auto.
Qed.

(** X21. What [identify_sota] returns, when it returns. The record echoes
    the topic and [top_k], and [total_found] is the number of candidates the
    search returned. The papers are no more than the candidates and, for
    [top_k >= 0], no more than [top_k]. The paper at position [i] (from 0)
    has rank [i + 1], carries an explanation, and is one of the candidates
    of the search: it has the id and the title of one of them. *)
Theorem identify_sota_result_shape (topic : pystr) (max_results top_k : Z)
    (start_date end_date : option pystr) (include_metrics : bool) (log : list event)
    (res : sota_result) :
  (identify_sota env api_key today topic max_results top_k start_date end_date
     include_metrics log).1 = Ok res ->
  exists found,
    (search env topic start_date end_date max_results (py "relevance") (py "descending")
       log).1 = Ok found
    /\ sr_topic res = topic /\ sr_top_k res = top_k
    /\ total_found res = Z.of_nat (length found)
    /\ (length (sota_papers res) <= length found)%nat
    /\ (0 <= top_k -> (length (sota_papers res) <= Z.to_nat top_k)%nat)
    /\ forall i r, sota_papers res !! i = Some r ->
                   sota_rank r = Some (Z.of_nat i + 1)
                   /\ is_Some (relevance_reason r)
                   /\ exists p, p ∈ found /\ r_paper_id r = paper_id p
                                /\ r_title r = title p.
Proof.
  unfold identify_sota. cbv zeta. unfold bind at 1.
  destruct (search env topic start_date end_date max_results (py "relevance")
              (py "descending") log) as [[found|e] l1]; [|discriminate].
  intros Hrun. exists found. split; [reflexivity|].
  destruct found as [|c found].
  { injection Hrun as <-. cbn.
    split; [reflexivity|]. split; [reflexivity|]. split; [reflexivity|].
    split; [lia|]. split; [intros; lia|]. intros i r Hi. discriminate. }
  remember (c :: found) as cands eqn:Ecands.
  unfold bind at 1 in Hrun.
  pose proof (rank_papers_run env api_key topic cands
                (Z.min (top_k * 2) (Z.of_nat (length cands))) l1) as Hrank.
  destruct (rank_papers env api_key topic cands _ l1) as [[ranked|e] l2]; [|discriminate].
  cbn [fst] in Hrank. destruct Hrank as (Horigin & Hranked & _).
  unfold bind at 1 in Hrun.
  assert (Henrich : forall enriched l3,
            (if include_metrics then enrich_papers env (py_take (top_k * 2) ranked)
             else ret ranked) l2 = (Ok enriched, l3) ->
            (length enriched <= length cands)%nat
            /\ forall q, q ∈ enriched ->
                         exists p, p ∈ cands /\ paper_id q = paper_id p /\ title q = title p).
  { intros enriched l3 He. destruct include_metrics.
    - destruct (enrich_loop_run env _ _ _ _ _ He) as (added & evs & -> & Hadded & _).
      pose proof (Forall2_length _ _ _ Hadded) as Hl.
      pose proof (py_take_length (top_k * 2) ranked) as Ht.
      split; [simpl; lia|]. intros q Hq.
      destruct (enriched_origin _ _ _ Hadded Hq) as (p & Hp & Hid & Htitle).
      apply list_elem_of_lookup in Hp as [i Hi]. apply py_take_lookup in Hi.
      destruct (Horigin p) as (p0 & v & Hp0 & ->); [apply list_elem_of_lookup; now exists i|].
      exists p0. auto.
    - injection He as <- <-. split; [exact Hranked|]. intros q Hq.
      destruct (Horigin q Hq) as (p0 & v & Hp0 & ->). exists p0. auto. }
  destruct ((if include_metrics then enrich_papers env (py_take (top_k * 2) ranked)
             else ret ranked) l2) as [[enriched|e] l3]; [|discriminate].
  destruct (Henrich enriched l3 eq_refl) as (Hlen & Hfrom).
  unfold bind at 1 in Hrun. unfold lift at 1 in Hrun.
  destruct (_compute_final_ranking today enriched top_k) as [final|e] eqn:Efinal;
    [|discriminate].
  destruct (final_ranking_entries _ _ _ Efinal) as (Hfl & Hfk & Hentries).
  unfold bind at 1 in Hrun.
  destruct (explain_loop_run topic final [] l3) as (explained & l4 & Hloop & Hexplained).
  rewrite Hloop in Hrun. unfold ret in Hrun. injection Hrun as <-. cbn.
  pose proof (Forall2_length _ _ _ Hexplained) as Hel.
  split; [reflexivity|]. split; [reflexivity|]. split; [reflexivity|].
  split; [lia|]. split; [intros Hk; specialize (Hfk Hk); lia|].
  intros i r Hi.
  destruct (Forall2_lookup_r _ _ _ _ _ Hexplained Hi) as (r0 & Hr0 & text & ->).
  destruct (Hentries i r0 Hr0) as (Hrank & q & Hq & Hid & Htitle).
  split; [exact Hrank|]. split; [eexists; reflexivity|].
  destruct (Hfrom q Hq) as (p & Hp & Hpid & Hptitle).
  exists p. cbn. split; [exact Hp|]. split; congruence.
Qed.
End Identify.

(* ===================================================================== *)
(** * Further properties: which services a run calls *)
(* ===================================================================== *)

Lemma emits_raise {A} (e : exn) (R : list event -> Prop) : R [] -> emits (@raise A e) R.
Proof. intros HR log. exists []. split; [now rewrite app_nil_r|assumption]. Qed.

Lemma emits_bind_all {A B} (m : M A) (k : A -> M B) (Q : event -> Prop) :
  emits m (Forall Q) -> (forall a, emits (k a) (Forall Q)) -> emits (bind m k) (Forall Q).
Proof.
  intros Hm Hk. apply (emits_bind m k (Forall Q) (Forall Q)); auto.
  intros e1 e2 H1 H2. now apply Forall_app.
Qed.

Lemma emits_for_each_all {A S} (body : S -> A -> M S) (Q : event -> Prop)
    (xs : list A) (acc : S) :
  (forall acc x, emits (body acc x) (Forall Q)) -> emits (for_each body xs acc) (Forall Q).
Proof.
  intros Hbody. revert acc. induction xs as [|x xs IH]; intros acc.
  - apply emits_ret. constructor.
  - cbn [for_each]. apply emits_bind_all; [apply Hbody|apply IH].
Qed.

Lemma at_most_all (n : nat) (Q Q' : event -> Prop) (evs : list event) :
  (forall ev, Q ev -> Q' ev) -> at_most n Q evs -> at_most n Q' evs.
Proof. intros HQ [L F]. split; [exact L|]. eapply Forall_impl; eauto. Qed.

Section Calls.
Context `{PyBuiltins} (env : services) (api_key : pystr) (today : date).
Context (Q : event -> Prop).

Lemma emits_score_papers (query : pystr) (papers : list paper) :
  (api_key = [] \/ forall req failed, Q (mkEvent (EnginePost req) failed)) ->
  emits (_score_papers env api_key query papers) (Forall Q).
Proof.
  intros HQ log.
  destruct (score_papers_run env api_key query papers log) as (out & evs & -> & _ & Hevs).
  exists evs. split; [reflexivity|].
  destruct Hevs as [->|(Hkey & failed & ->)]; [constructor|].
  destruct HQ as [Hempty|HQ]; [contradiction|]. constructor; [apply HQ|constructor].
Qed.

Lemma emits_rank_papers (query : pystr) (papers : list paper) (top_k : Z) :
  (api_key = [] \/ forall req failed, Q (mkEvent (EnginePost req) failed)) ->
  emits (rank_papers env api_key query papers top_k) (Forall Q).
Proof.
  intros HQ. unfold rank_papers. destruct papers as [|p papers]; [apply emits_ret; constructor|].
  destruct (_ <=? _); [now apply emits_score_papers|].
  apply emits_bind_all; [now apply emits_score_papers|]. intros scored.
  apply emits_bind_all; [apply emits_lift; constructor|]. intros sorted.
  apply emits_ret. constructor.
Qed.

Lemma emits_explanation (query : pystr) (p : ranked_paper) :
  (api_key = [] \/ forall req failed, Q (mkEvent (EnginePost req) failed)) ->
  emits (compute_relevance_explanation env api_key query p) (Forall Q).
Proof.
  intros HQ log.
  destruct (explanation_run env api_key query p log) as (text & evs & -> & Hcases).
  exists evs. split; [reflexivity|].
  destruct Hcases as [(_ & -> & _)|(Hkey & failed & -> & _)]; [constructor|].
  destruct HQ as [Hempty|HQ]; [contradiction|]. constructor; [apply HQ|constructor].
Qed.

Lemma emits_enrich_papers (papers : list paper) :
  (forall clean_id failed, Q (mkEvent (ScholarGet clean_id) failed)) ->
  emits (enrich_papers env papers) (Forall Q).
Proof.
  intros HQ. unfold enrich_papers. apply emits_for_each_all. intros acc p.
  unfold enrich_step. destruct (arxiv_id p) as [|c id_]; [apply emits_ret; constructor|].
  apply emits_bind_all; [|intros [m|]; apply emits_ret; constructor].
  unfold get_paper_by_arxiv_id. apply emits_bind_all.
  - intros log. eexists. split; [reflexivity|]. constructor; [apply HQ|constructor].
  - intros [|data|e]; [apply emits_ret; constructor|apply emits_lift; constructor|].
    destruct (is_RequestException e); [apply emits_ret|apply emits_raise]; constructor.
Qed.

Lemma emits_search (query : pystr) (start_date end_date : option pystr)
    (max_results : Z) (sort_by sort_order : pystr) :
  (forall q n s o failed, Q (mkEvent (ArxivGet q n s o) failed)) ->
  emits (search env query start_date end_date max_results sort_by sort_order) (Forall Q).
Proof.
  intros HQ log.
  destruct (search_log env query start_date end_date max_results sort_by sort_order log)
    as [failed ->].
  eexists. split; [reflexivity|]. constructor; [apply HQ|constructor].
Qed.

Lemma emits_identify_sota (topic : pystr) (max_results top_k : Z)
    (start_date end_date : option pystr) (include_metrics : bool) :
  (forall q n s o failed, Q (mkEvent (ArxivGet q n s o) failed)) ->
  (api_key = [] \/ forall req failed, Q (mkEvent (EnginePost req) failed)) ->
  (include_metrics = false \/ forall clean_id failed, Q (mkEvent (ScholarGet clean_id) failed)) ->
  emits (identify_sota env api_key today topic max_results top_k start_date end_date
           include_metrics) (Forall Q).
Proof.
  intros Harxiv Hengine Hscholar. unfold identify_sota. cbv zeta.
  apply emits_bind_all; [now apply emits_search|].
  intros [|c found]; [apply emits_ret; constructor|].
  apply emits_bind_all; [now apply emits_rank_papers|]. intros ranked.
  apply emits_bind_all.
  { destruct include_metrics; [|apply emits_ret; constructor].
    destruct Hscholar as [|Hscholar]; [discriminate|]. now apply emits_enrich_papers. }
  intros enriched. apply emits_bind_all; [apply emits_lift; constructor|].
  intros final. apply emits_bind_all; [|intros; apply emits_ret; constructor].
  apply emits_for_each_all. intros acc r. unfold explain_step.
  apply emits_bind_all; [now apply emits_explanation|].
  intros text. apply emits_ret. constructor.
Qed.
End Calls.

Section Services.
Context `{PyBuiltins} (env : services) (api_key : pystr) (today : date).

(** X22. Which services a run of [identify_sota] calls. Without an API key
    it makes no call to the generation service. With [include_metrics] off
    it makes no call to the metrics service. In no case does it use the client of the
    synthesis pipeline. *)
Theorem identify_sota_calls (topic : pystr) (max_results top_k : Z)
    (start_date end_date : option pystr) (include_metrics : bool) :
  (api_key = [] ->
   emits (identify_sota env api_key today topic max_results top_k start_date end_date
            include_metrics)
     (Forall (fun ev => is_generation_call ev = false)))
  /\ (include_metrics = false ->
      emits (identify_sota env api_key today topic max_results top_k start_date end_date
               include_metrics)
        (Forall (fun ev => is_scholar_call ev = false)))
  /\ emits (identify_sota env api_key today topic max_results top_k start_date end_date
              include_metrics)
       (Forall (fun ev => is_groq_call ev = false)).
Proof.
  split; [|split].
  - intros Hkey. apply emits_identify_sota; auto.
  - intros Hoff. apply emits_identify_sota; auto.
  - apply emits_identify_sota; auto.
Qed.

Lemma emits_chat_groq (p : prompt) (t : float) (n : Z) :
  emits (chat_completion env p t n) (at_most 1 (fun ev => is_groq_call ev = true)).
Proof.
  intros log. rewrite chat_completion_run. eexists. split; [reflexivity|].
  split; [simpl; lia|]. constructor; [reflexivity|constructor].
Qed.

Lemma weakness_request_groq (ev : event) : weakness_request ev -> is_groq_call ev = true.
Proof. intros (name & shown & n & Hreq & _). unfold is_groq_call. now rewrite Hreq. Qed.

(** X23. A run of [ResearchPipeline.process] makes at most 17 calls, all of
    them to the generation service through [GroqClient]: one per paper to
    read the sections, at most five per paper to extract weaknesses, at most
    one per paper to normalize them, and one each for the fusion, the
    synthesis and the comparison. *)
Theorem process_call_bound (text_a text_b : pystr) :
  emits (process env text_a text_b) (at_most 17 (fun ev => is_groq_call ev = true)).
Proof.
  pose (G := fun ev => is_groq_call ev = true).
  assert (Hparse : forall text id_, emits (parse_pdf env text id_) (at_most 1 G)).
  { intros text id_. unfold parse_pdf. apply (emits_bind_at_most _ _ 1 0).
    - apply emits_chat_groq.
    - intros response. apply emits_lift, at_most_nil. }
  assert (Hextract : forall p, emits (extract_from_paper env p) (at_most 5 G)).
  { intros p. apply (emits_weaken _ (at_most 5 weakness_request)).
    - unfold extract_from_paper. apply (emits_bind_at_most _ _ 4 1).
      + apply (emits_for_each (section_step env) 1 weakness_request
                 [(py "method", pp_method p); (py "experiments", pp_experiments p);
                  (py "limitations", pp_limitations p); (py "abstract", pp_abstract p)] []).
        apply emits_section_step.
      + intros found.
        apply (emits_bind_at_most _ _ 1 0); [apply emits_forced_pass|].
        intros all_weaknesses. apply emits_ret, at_most_nil.
    - intros evs. apply at_most_all. apply weakness_request_groq. }
  assert (Hnorm : forall raw, emits (normalize env raw) (at_most 1 G)).
  { intros [|w raw]; [apply emits_ret, at_most_nil|]. unfold normalize.
    apply (emits_bind_at_most _ _ 1 0); [apply emits_chat_groq|].
    intros response. apply emits_ret, at_most_nil. }
  assert (Hanalyze : forall a b, emits (analyze env a b) (at_most 1 G)).
  { intros a b. unfold analyze. apply (emits_bind_at_most _ _ 1 0); [apply emits_chat_groq|].
    intros response. apply emits_lift, at_most_nil. }
  assert (Hsynth : forall an ta tb, emits (synthesize env an ta tb) (at_most 1 G)).
  { intros an ta tb. unfold synthesize.
    apply (emits_bind_at_most _ _ 0 1); [apply emits_lift, at_most_nil|]. intros _.
    apply (emits_bind_at_most _ _ 0 1); [apply emits_lift, at_most_nil|]. intros _.
    apply (emits_bind_at_most _ _ 0 1); [apply emits_lift, at_most_nil|]. intros _.
    apply (emits_bind_at_most _ _ 0 1); [apply emits_lift, at_most_nil|]. intros _.
    apply (emits_bind_at_most _ _ 1 0); [apply emits_chat_groq|].
    intros response. apply emits_lift, at_most_nil. }
  assert (Hcompare : forall pa pb wa wb pm,
             emits (generate_comparison env pa pb wa wb pm) (at_most 1 G)).
  { intros pa pb wa wb pm. unfold generate_comparison.
    apply (emits_bind_at_most _ _ 0 1); [apply emits_lift, at_most_nil|]. intros _.
    apply (emits_bind_at_most _ _ 1 0); [apply emits_chat_groq|].
    intros response. apply emits_lift, at_most_nil. }
  unfold process.
  apply (emits_bind_at_most _ _ 1 16); [apply Hparse|]. intros paper_a.
  apply (emits_bind_at_most _ _ 1 15); [apply Hparse|]. intros paper_b.
  apply (emits_bind_at_most _ _ 5 10); [apply Hextract|]. intros wa.
  apply (emits_bind_at_most _ _ 5 5); [apply Hextract|]. intros wb.
  apply (emits_bind_at_most _ _ 1 4); [apply Hnorm|]. intros na.
  apply (emits_bind_at_most _ _ 1 3); [apply Hnorm|]. intros nb.
  apply (emits_bind_at_most _ _ 1 2); [apply Hanalyze|]. intros an.
  apply (emits_bind_at_most _ _ 1 1); [apply Hsynth|]. intros pm.
  apply (emits_bind_at_most _ _ 1 0); [apply Hcompare|]. intros table.
  apply emits_ret, at_most_nil.
Qed.
End Services.

(* ===================================================================== *)
(** * The further properties at concrete inputs *)
(* ===================================================================== *)

(** The fences around the reply [[0.9, 0.4]]. *)
Lemma clean_response_unwraps_fences_witness :
  (backtick ∉ json_two_scores)
  /\ clean_response (py "```json" ++ json_two_scores ++ py "```") = json_two_scores
  /\ clean_response (py "```" ++ json_two_scores ++ py "```") = json_two_scores
  /\ clean_response json_two_scores = strip json_two_scores.
Proof.
  assert (Hb : backtick ∉ json_two_scores)
    by (apply (bool_decide_unpack _); vm_compute; exact I).
  destruct (clean_response_unwraps_fences json_two_scores Hb) as (H1 & H2 & H3).
  split; [exact Hb|]. split; [exact H1|]. split; [exact (H2 eq_refl)|exact H3].
Defined.

(** [parse_pdf] on a prose reply, on the object [{"method_name": ""}] and
    on the list [[0.9, 0.4]]. *)
Lemma parse_pdf_outcomes_witness :
  (@parse_pdf ascii_builtins prose_services sample_text (py "A") []).1
  = Ok (unparsed_paper sample_text (py "A"))
  /\ (@parse_pdf ascii_builtins empty_name_services sample_text (py "A") []).1
     = Ok (mkParsedPaper (py "A") PNone PNone PNone PNone PNone)
  /\ (@parse_pdf ascii_builtins list_reply_services sample_text (py "A") []).1
     = Raise AttributeError.
Proof.
  split; [|split].
  - exact (@parse_pdf_outcomes ascii_builtins prose_services sample_text (py "A") []
             prose_reply eq_refl).
  - exact (proj1 (@parse_pdf_outcomes ascii_builtins empty_name_services sample_text (py "A")
                    [] json_empty_name eq_refl)
             eq_refl eq_refl eq_refl eq_refl eq_refl).
  - exact (@parse_pdf_outcomes ascii_builtins list_reply_services sample_text (py "A") []
             json_two_scores eq_refl).
Defined.

(** A paper with a short abstract only: one call, on the abstract. *)
Lemma extract_from_paper_short_sections_witness :
  @extract_from_paper ascii_builtins prose_services short_paper []
  = (Ok (mkPaperWeaknesses (py "A") []),
     [mkEvent (GroqPost (mkChat (WeaknessPrompt (py "paper_content")
                                   (PStr (py "Only a short abstract.")))
                           0.4%float 1000)) false]).
Proof.
  exact (@extract_from_paper_short_sections ascii_builtins prose_services short_paper []
           eq_refl eq_refl eq_refl eq_refl).
Defined.

(** [analyze] when the reply is a JSON list. *)
Lemma analyze_recovers_from_any_reply_witness :
  exists analysis,
    (@analyze ascii_builtins list_reply_services weaknesses_sample_a weaknesses_sample_b
       []).1 = Ok analysis
    /\ set_algebra_of weaknesses_sample_a weaknesses_sample_b analysis.
Proof.
  exact (@analyze_recovers_from_any_reply ascii_builtins list_reply_services
           weaknesses_sample_a weaknesses_sample_b [] json_two_scores eq_refl).
Defined.

(** [synthesize] on three empty lists, and on a string next to two lists. *)
Lemma synthesize_needs_fields_of_one_kind_witness :
  (exists pm,
      @synthesize ascii_builtins prose_services no_weaknesses (PStr (py "A")) (PStr (py "B")) []
      = (Ok pm, [] ++ [mkEvent (GroqPost (mkChat (SynthesisPrompt (PStr (py "A"))
                                                    (PStr (py "B")) no_weaknesses)
                                            0.5%float 2500)) false]))
  /\ @synthesize ascii_builtins prose_services mixed_analysis (PStr (py "A")) (PStr (py "B")) []
     = (Raise TypeError, []).
Proof.
  split.
  - exact (proj1 (@synthesize_needs_fields_of_one_kind ascii_builtins prose_services
                    no_weaknesses (PStr (py "A")) (PStr (py "B")) [])
             eq_refl eq_refl eq_refl prose_reply eq_refl).
  - exact (proj2 (@synthesize_needs_fields_of_one_kind ascii_builtins prose_services
                    mixed_analysis (PStr (py "A")) (PStr (py "B")) [])
             eq_refl eq_refl eq_refl eq_refl eq_refl).
Defined.

(** [generate_comparison] with components that are a number, and with the
    default method when the reply is prose. *)
Lemma generate_comparison_outcomes_witness :
  @generate_comparison ascii_builtins prose_services short_paper short_paper
    weaknesses_sample_a weaknesses_sample_b unjoinable_method []
  = (Raise TypeError, [])
  /\ (@generate_comparison ascii_builtins prose_services short_paper short_paper
        weaknesses_sample_a weaknesses_sample_b default_method []).1
     = Ok default_comparison.
Proof.
  split.
  - exact (proj1 (@generate_comparison_outcomes ascii_builtins prose_services short_paper
                    short_paper weaknesses_sample_a weaknesses_sample_b unjoinable_method [])
             eq_refl).
  - exact (proj1 (proj2 (@generate_comparison_outcomes ascii_builtins prose_services
                           short_paper short_paper weaknesses_sample_a weaknesses_sample_b
                           default_method []))
             eq_refl prose_reply eq_refl).
Defined.

(** The whole pipeline on services that always answer with prose. *)
Lemma process_completes_without_json_witness :
  @answers_without_json ascii_builtins prose_services
  /\ exists res,
      (@process ascii_builtins prose_services sample_text sample_text []).1 = Ok res
      /\ res_paper_a res = unparsed_paper sample_text (py "A")
      /\ res_paper_b res = unparsed_paper sample_text (py "B")
      /\ set_algebra_of (res_weaknesses_a res) (res_weaknesses_b res)
           (res_weakness_analysis res)
      /\ res_proposed_method res = default_method
      /\ res_comparison_table res = default_comparison.
Proof.
  assert (Hanswers : @answers_without_json ascii_builtins prose_services).
  { intros log req. exists prose_reply. split; reflexivity. }
  split; [exact Hanswers|].
  exact (@process_completes_without_json ascii_builtins prose_services Hanswers
           sample_text sample_text []).
Defined.

(** The search expression of a topic without quotes. *)
Lemma build_query_quotes_witness :
  (34%N ∉ py "graph neural networks")
  /\ strip (py "graph neural networks") = py "graph neural networks"
  /\ count_chr 34%N (_build_query (py "graph neural networks")) = 6%nat
  /\ _build_query (py "graph neural networks")
     = py "all:" ++ quoted (py "graph neural networks")
         ++ py " OR ti:" ++ quoted (py "graph neural networks")
         ++ py " OR abs:" ++ quoted (py "graph neural networks").
Proof.
  assert (Hq : 34%N ∉ py "graph neural networks")
    by (apply (bool_decide_unpack _); vm_compute; exact I).
  assert (Hs : strip (py "graph neural networks") = py "graph neural networks")
    by reflexivity.
  destruct (build_query_quotes (py "graph neural networks")) as [Hcount Hshape].
  split; [exact Hq|]. split; [exact Hs|]. split; [exact Hcount|exact (Hshape Hq Hs)].
Defined.

(** The four dated candidates under a start date, and under an end date,
    that cannot be read. *)
Lemma unreadable_bound_disables_filter_witness :
  @strptime ascii_builtins (py "last year") = None
  /\ @_filter_by_date ascii_builtins dated_candidates (Some (py "last year"))
       (Some (py "2024-12-31"))
     = filter (fun p => opt_truthy (published_date p) = true) dated_candidates
  /\ @_filter_by_date ascii_builtins dated_candidates (Some (py "2024-01-01"))
       (Some (py "last year"))
     = @_filter_by_date ascii_builtins dated_candidates (Some (py "2024-01-01")) None.
Proof.
  split; [reflexivity|]. split.
  - exact (proj1 (@unreadable_bound_disables_filter ascii_builtins dated_candidates
                    (Some (py "last year")) (Some (py "2024-12-31")))
             eq_refl eq_refl).
  - exact (proj2 (@unreadable_bound_disables_filter ascii_builtins dated_candidates
                    (Some (py "2024-01-01")) (Some (py "last year")))
             eq_refl eq_refl).
Defined.

(** A search without dates returns the answer of the service. *)
Lemma search_returns_service_order_witness :
  (@search ascii_builtins generation_down (py "graph neural networks") None None 20
     (py "relevance") (py "descending") []).1 = Ok sample_candidates
  /\ ((exists detail,
          arxiv generation_down [] (_build_query (py "graph neural networks")) 20
            (py "relevance") (py "descending")
          = Raise (RequestException detail) /\ sample_candidates = [])
      \/ (exists papers,
             arxiv generation_down [] (_build_query (py "graph neural networks")) 20
               (py "relevance") (py "descending") = Ok papers
             /\ sublist sample_candidates papers
             /\ (opt_truthy None = false -> opt_truthy None = false ->
                 sample_candidates = papers))).
Proof.
  assert (Hrun : (@search ascii_builtins generation_down (py "graph neural networks") None
                    None 20 (py "relevance") (py "descending") []).1 = Ok sample_candidates)
    by reflexivity.
  split; [exact Hrun|].
  exact (proj2 (@search_returns_service_order ascii_builtins generation_down
                  (py "graph neural networks") None None 20 (py "relevance")
                  (py "descending") [])
           sample_candidates Hrun).
Defined.

(** The metrics service knows neither sample candidate. *)
Lemma enrich_papers_keeps_candidates_witness :
  (enrich_papers generation_down sample_candidates []).1 = Ok sample_candidates
  /\ Forall2 (fun p q => q = p \/ exists m, q = update_metrics p m)
       sample_candidates sample_candidates.
Proof.
  assert (Hunknown : forall (log : list event) (clean_id : pystr),
             scholar generation_down log clean_id = ScholarNotFound
             \/ exists detail,
                 scholar generation_down log clean_id
                 = ScholarFailed (RequestException detail))
    by (intros log clean_id; left; reflexivity).
  split.
  - exact (proj2 (enrich_papers_keeps_candidates generation_down sample_candidates [])
             Hunknown).
  - exact (proj1 (proj1 (enrich_papers_keeps_candidates generation_down sample_candidates [])
                    sample_candidates
                    (enrich_papers generation_down sample_candidates []).2 eq_refl)).
Defined.

(** Without a key the scorer calls nothing. *)
Lemma score_papers_always_scores_witness :
  @_score_papers ascii_builtins generation_down [] (py "graph neural networks")
    sample_candidates []
  = (Ok (@_keyword_score_papers ascii_builtins (py "graph neural networks")
           sample_candidates), [] ++ []).
Proof.
  destruct (@score_papers_always_scores ascii_builtins generation_down []
              (py "graph neural networks") sample_candidates [])
    as (out & evs & Hrun & _ & Hkey & _).
  destruct (Hkey eq_refl) as [-> ->]. exact Hrun.
Defined.

(** The reply [[0.9, 0.4]] scores the two sample candidates in order. *)
Lemma generated_scores_go_by_position_witness :
  py "key" <> []
  /\ exists out,
      (@_score_papers ascii_builtins list_reply_services (py "key")
         (py "graph neural networks") sample_candidates []).1 = Ok out
      /\ length out = length sample_candidates
      /\ forall i p, sample_candidates !! i = Some p ->
                     out !! i
                     = Some (set_score p
                               (default (PFloat 0.5%float)
                                  ([PFloat 0.9%float; PFloat 0.4%float] !! i))).
Proof.
  assert (Hkey : py "key" <> []) by discriminate.
  split; [exact Hkey|].
  exact (@generated_scores_go_by_position ascii_builtins list_reply_services (py "key")
           (py "graph neural networks") sample_candidates [] json_two_scores
           [PFloat 0.9%float; PFloat 0.4%float] Hkey eq_refl eq_refl).
Defined.

(** One paper asked of two candidates. *)
Lemma rank_papers_selects_witness :
  exists out,
    rank_run_without_key.1 = Ok out
    /\ length out = Nat.min (length sample_candidates) (Z.to_nat 1)
    /\ forall q, q ∈ out -> exists p v, p ∈ sample_candidates /\ q = set_score p v.
Proof.
  destruct rank_run_without_key.1 as [out|e] eqn:Erun; [|vm_compute in Erun; discriminate].
  exists out. split; [reflexivity|].
  destruct (proj1 (proj2 (@rank_papers_selects ascii_builtins generation_down []
                            (py "graph neural networks") sample_candidates 1 []))
              out Erun) as [Horigin Hlen].
  split; [apply Hlen; lia|exact Horigin].
Defined.

(** Scores that are all strings, as a generated list may hold, are sorted as
    strings, and the stable sort keeps the order of equal scores. *)
Lemma sort_by_score_strings :
  @sort_by_score ascii_builtins
    [set_score (candidate (py "1") (py "First") [] None) (PStr (py "b"));
     set_score (candidate (py "2") (py "Second") [] None) (PStr (py "a"));
     set_score (candidate (py "3") (py "Third") [] None) (PStr (py "c"));
     set_score (candidate (py "4") (py "Fourth") [] None) (PStr (py "b"))]
  = Ok [set_score (candidate (py "3") (py "Third") [] None) (PStr (py "c"));
        set_score (candidate (py "1") (py "First") [] None) (PStr (py "b"));
        set_score (candidate (py "4") (py "Fourth") [] None) (PStr (py "b"));
        set_score (candidate (py "2") (py "Second") [] None) (PStr (py "a"))].
Proof. vm_compute. reflexivity. Qed.

(** Without a key the explanation is the fixed sentence. *)
Lemma explanation_is_always_given_witness :
  compute_relevance_explanation generation_down [] (py "graph neural networks")
    (scored_entry (py "a") 0.5%float) []
  = (Ok explanation_without_key, [] ++ []).
Proof.
  destruct (explanation_is_always_given generation_down [] (py "graph neural networks")
              (scored_entry (py "a") 0.5%float) [])
    as (text & evs & Hrun & Hkey & _).
  destruct (Hkey eq_refl) as [-> ->]. exact Hrun.
Defined.

(** The entry of a candidate that has neither score nor citation count. *)
Lemma score_paper_entry_witness :
  exists r,
    @score_paper ascii_builtins (mkDate 2024 7 1)
      (candidate (py "2401.00001") (py "Graph neural networks") (py "We study graphs.")
         (Some (py "2024-01-15"))) = Ok r
    /\ r_paper_id r = py "arXiv:" ++ py "2401.00001"
    /\ r_authors r = [py "A. Author"]
    /\ (length (r_abstract r) <= 503)%nat.
Proof.
  destruct (@score_paper ascii_builtins (mkDate 2024 7 1)
              (candidate (py "2401.00001") (py "Graph neural networks")
                 (py "We study graphs.") (Some (py "2024-01-15"))))
    as [r|e] eqn:Erun; [|vm_compute in Erun; discriminate].
  exists r. split; [reflexivity|].
  destruct (@score_paper_entry ascii_builtins (mkDate 2024 7 1) _ r Erun)
    as (_ & _ & Hid & _ & _ & _ & _ & Hauthors & _ & Hlen & _).
  split; [exact Hid|]. split; [exact Hauthors|exact Hlen].
Defined.

(** The scores of 123 citations and of a paper 4000 days old. *)
Lemma sub_scores_are_bounded_witness :
  citation_score_of (PInt 123) = Ok (py_min 1%float (int_truediv 123 500))
  /\ PrimFloat.leb (py_min 1%float (int_truediv 123 500)) 1%float = true
  /\ PrimFloat.leb 0.3%float (recency_of_days 4000) = true.
Proof.
  destruct (@sub_scores_are_bounded ascii_builtins (mkDate 2024 7 1))
    as (_ & Hcit & Hrec & _).
  assert (Hc : citation_score_of (PInt 123) = Ok (py_min 1%float (int_truediv 123 500)))
    by reflexivity.
  split; [exact Hc|]. split; [exact (Hcit _ _ Hc)|exact (Hrec 4000)].
Defined.

(** The run with the generation service down: two candidates, two papers. *)
Lemma identify_sota_result_shape_witness :
  exists res found,
    sota_run_generation_down.1 = Ok res
    /\ (@search ascii_builtins generation_down (py "graph neural networks") None None 20
          (py "relevance") (py "descending") []).1 = Ok found
    /\ sr_topic res = py "graph neural networks" /\ sr_top_k res = 2
    /\ total_found res = Z.of_nat (length found)
    /\ (length (sota_papers res) <= length found)%nat
    /\ (length (sota_papers res) <= Z.to_nat 2)%nat
    /\ forall i r, sota_papers res !! i = Some r ->
                   sota_rank r = Some (Z.of_nat i + 1)
                   /\ is_Some (relevance_reason r)
                   /\ exists p, p ∈ found /\ r_paper_id r = paper_id p
                                /\ r_title r = title p.
Proof.
  destruct sota_run_generation_down.1 as [res|e] eqn:Erun;
    [|vm_compute in Erun; discriminate].
  destruct (@identify_sota_result_shape ascii_builtins generation_down (py "key")
              (mkDate 2024 7 1) (py "graph neural networks") 20 2 None None true [] res Erun)
    as (found & Hsearch & Htopic & Hk & Htotal & Hlen & Hlenk & Hentries).
  exists res, found. split; [reflexivity|]. split; [exact Hsearch|].
  split; [exact Htopic|]. split; [exact Hk|]. split; [exact Htotal|].
  split; [exact Hlen|]. split; [apply Hlenk; lia|exact Hentries].
Defined.

(** A run without a key and without metrics calls neither the generation
    service nor the metrics service. *)
Lemma identify_sota_calls_witness :
  emits (@identify_sota ascii_builtins generation_down [] (mkDate 2024 7 1)
           (py "graph neural networks") 20 2 None None false)
    (Forall (fun ev => is_generation_call ev = false))
  /\ emits (@identify_sota ascii_builtins generation_down [] (mkDate 2024 7 1)
              (py "graph neural networks") 20 2 None None false)
       (Forall (fun ev => is_scholar_call ev = false)).
Proof.
  destruct (@identify_sota_calls ascii_builtins generation_down [] (mkDate 2024 7 1)
              (py "graph neural networks") 20 2 None None false) as (Hkey & Hoff & _).
  split; [exact (Hkey eq_refl)|exact (Hoff eq_refl)].
Defined.
